(** * Claim verification and classification pipeline: a shallow embedding

    The development follows the Python sources of the fact-checking
    pipeline: [fact_check.py] (news search under a call budget, evidence
    gathering, the run driver), [main4.py] (the provider pool with global
    counter and availability flags, the word-boundary truncation),
    [main5.py] (local-model classifier, phrase heuristics), [main6.py]
    (remote-model classifier, [LABEL:] extraction, character truncation)
    and [main2.py] (the fact check and the classification in a row).

    Conventions of the embedding.
    - A Python [str] is a list of characters ([list ascii]); [len], slicing
      and [in] are the list operations.  Case mapping and the regular
      expression classes [\w] and [\s] are the ASCII ones, which is what
      Python computes on ASCII text.
    - Counters and call ceilings are natural numbers; the token budgets of
      the truncation functions are integers ([Z]) because the sources
      multiply and slice with them.
    - Everything outside the process (news providers, article pages, the
      tokenizer, the generative models, the clock, the file system) is an
      explicit environment [env]; every call that leaves the process is
      appended to the [trace] of the [world] that the functions thread.
    - An exception that a function of [main4.py] does not catch is the
      outcome [Raised] of that function and [Crashed] of the run; a save
      that fails is [save_document], which can leave a document that is
      no JSON behind. *)

From Stdlib Require Import List String Ascii Arith ZArith Lia Bool.
From Stdlib Require DecimalString.
Import ListNotations.

Set Implicit Arguments.
Set Warnings "-abstract-large-number".

(* ================================================================== *)
(** * Python strings *)
(* ================================================================== *)

Module Str.

Definition str := list ascii.

(** A string literal of the source. *)
Definition lit (s : string) : str := list_ascii_of_string s.

(** The newline and the double quote. *)
Definition nl : ascii := ascii_of_nat 10.
Definition dquote : ascii := ascii_of_nat 34.

Definition len (t : str) : nat := List.length t.

Definition code (c : ascii) : nat := nat_of_ascii c.

Definition is_lower (c : ascii) : bool := (97 <=? code c) && (code c <=? 122).
Definition is_upper (c : ascii) : bool := (65 <=? code c) && (code c <=? 90).
Definition is_digit (c : ascii) : bool := (48 <=? code c) && (code c <=? 57).

(** [\w]: letters, digits and the underscore. *)
Definition is_word (c : ascii) : bool :=
  is_lower c || is_upper c || is_digit c || (code c =? 95).

(** [\s] and [str.isspace]: space, tab to carriage return, and the four
    separators 28..31. *)
Definition is_space (c : ascii) : bool :=
  (code c =? 32) || ((9 <=? code c) && (code c <=? 13))
  || ((28 <=? code c) && (code c <=? 31)).

Definition upper_char (c : ascii) : ascii :=
  if is_lower c then ascii_of_nat (code c - 32) else c.

Definition lower_char (c : ascii) : ascii :=
  if is_upper c then ascii_of_nat (code c + 32) else c.

(** [t.upper()] and [t.lower()]. *)
Definition upper (t : str) : str := map upper_char t.
Definition lower (t : str) : str := map lower_char t.

(** [t.startswith(p)]. *)
Fixpoint starts_with (p t : str) : bool :=
  match p, t with
  | [], _ => true
  | _ :: _, [] => false
  | a :: p', b :: t' => Ascii.eqb a b && starts_with p' t'
  end.

(** [needle in hay]. *)
Fixpoint contains (needle hay : str) : bool :=
  match hay with
  | [] => starts_with needle []
  | _ :: rest => starts_with needle hay || contains needle rest
  end.

Fixpoint eqb (a b : str) : bool :=
  match a, b with
  | [], [] => true
  | x :: a', y :: b' => Ascii.eqb x y && eqb a' b'
  | _, _ => false
  end.

(** [t[:k]] for an integer [k]: a negative bound counts from the end. *)
Definition slice_to (t : str) (k : Z) : str :=
  if (k <? 0)%Z then firstn (Z.to_nat (Z.of_nat (len t) + k)) t
  else firstn (Z.to_nat k) t.

(** [t[i:j]] for natural bounds. *)
Definition slice (t : str) (i j : nat) : str := firstn (j - i) (skipn i t).

(** [t.find(p, start)]: the least index [>= start] where [p] occurs. *)
Fixpoint find_in (p t : str) (at_ : nat) : option nat :=
  match t with
  | [] => if starts_with p [] then Some at_ else None
  | _ :: rest => if starts_with p t then Some at_ else find_in p rest (S at_)
  end.

Definition find (p t : str) (start : nat) : option nat :=
  if start <=? len t then find_in p (skipn start t) start else None.

Fixpoint drop_while (f : ascii -> bool) (t : str) : str :=
  match t with
  | [] => []
  | c :: rest => if f c then drop_while f rest else t
  end.

Definition lstrip (t : str) : str := drop_while is_space t.
Definition rstrip (t : str) : str := rev (drop_while is_space (rev t)).
(** [t.strip()]. *)
Definition strip (t : str) : str := rstrip (lstrip t).

(** [sep.join(parts)]. *)
Fixpoint join (sep : str) (parts : list str) : str :=
  match parts with
  | [] => []
  | [p] => p
  | p :: rest => p ++ sep ++ join sep rest
  end.

(** [t.rsplit(' ', 1)[0]]: what precedes the last space, or all of [t]
    when it has no space. *)
Fixpoint rsplit1_head (t : str) : str :=
  match t with
  | [] => []
  | c :: rest =>
      if contains (lit " ") rest then c :: rsplit1_head rest
      else if Ascii.eqb c " " then [] else t
  end.

(** [re.sub(r'\s+', ' ', t)]: every maximal run of whitespace becomes one
    space; [in_run] tells that the previous character was whitespace. *)
Fixpoint collapse_ws (in_run : bool) (t : str) : str :=
  match t with
  | [] => []
  | c :: rest =>
      if is_space c
      then if in_run then collapse_ws true rest
           else " "%char :: collapse_ws true rest
      else c :: collapse_ws false rest
  end.

(** [re.findall(r'\b\w+\b', t)]: the maximal runs of word characters;
    [cur] is the run being read, reversed. *)
Fixpoint words_from (cur : str) (t : str) : list str :=
  match t with
  | [] => match cur with [] => [] | _ => [rev cur] end
  | c :: rest =>
      if is_word c then words_from (c :: cur) rest
      else match cur with
           | [] => words_from [] rest
           | _ => rev cur :: words_from [] rest
           end
  end.

Definition findall_words (t : str) : list str := words_from [] t.

(** [t.split()]: the maximal runs of characters that are no whitespace;
    [cur] is the run being read, reversed. *)
Fixpoint fields_from (cur : str) (t : str) : list str :=
  match t with
  | [] => match cur with [] => [] | _ => [rev cur] end
  | c :: rest =>
      if is_space c
      then match cur with
           | [] => fields_from [] rest
           | _ => rev cur :: fields_from [] rest
           end
      else fields_from (c :: cur) rest
  end.

Definition split_ws (t : str) : list str := fields_from [] t.

(** [str(n)] for a non-negative integer. *)
Definition of_nat (n : nat) : str :=
  lit (DecimalString.NilEmpty.string_of_uint (Nat.to_uint n)).

End Str.

Import Str.

(* ================================================================== *)
(** * Data model *)
(* ================================================================== *)

(** The two news providers; where the sources pass the names ["gnews"],
    ["newsapi"] and ["none"], the embedding passes an [option provider]. *)
Inductive provider := GNews | NewsAPI.

(** A search hit as a provider returns it (GNews shape: the source is an
    object with a name).  A key that the sources read with
    [.get(key, "")] holds the empty string when it is absent.  A hit is
    taken to carry its [url] and an object as [source], as the providers
    document them: on a hit without them [fact_check.py] raises
    ([article['url']], [.get] on a null source), and the embedding of
    [fact_check.py] does not follow a run from there; what it states of
    [process_claims] is about the runs that return. *)
Record raw_article := {
  ra_title : str;
  ra_description : str;
  ra_url : str;
  ra_source_name : str;
  ra_publishedAt : str;
  ra_content : str
}.

(** An evidence article of the fact-check output: [content] is [None]
    when the page could not be fetched. *)
Record article := {
  title : str;
  description : str;
  url : str;
  source : str;
  publishedAt : str;
  content : option str;
  content_tokens : nat
}.

(** A claim of the claims input.  [needs_external_verification] and
    [historical_evidence] are optional keys. *)
Record claim_data := {
  cd_claim : str;
  cd_original_claim : str;
  cd_search_query : str;
  cd_category : str;
  cd_verification_status : str;
  cd_confidence : str;
  cd_explanation : str;
  cd_fact_check_notes : str;
  cd_potential_impact : str;
  cd_source_url : str;
  cd_post_number : str;
  cd_needs_external_verification : option bool;
  cd_historical_evidence : option str
}.

(** A record of the fact-check output.  [verification_result] and
    [historical_evidence] are keys that the code adds on some paths only:
    [None] is an absent key. *)
Record claim_result := {
  claim : str;
  original_claim : str;
  search_query : str;
  category : str;
  verification_status : str;
  confidence : str;
  explanation : str;
  fact_check_notes : str;
  potential_impact : str;
  source_url : str;
  post_number : str;
  articles : list article;
  total_tokens : nat;
  needs_external_verification : bool;
  verification_result : option str;
  historical_evidence : option str
}.

Record fact_check_results := {
  fc_timestamp : str;
  verified_claims : list claim_result
}.

(** A record of the classification output of [main5.py]. *)
Record article_ref := {
  ar_title : str;
  ar_source : str;
  ar_url : str
}.

Record classification := {
  cl_claim : str;
  cl_original_claim : str;
  cl_search_query : str;
  cl_category : str;
  cl_classification : str;
  cl_reasoning : str;
  cl_full_response : str;
  cl_articles_count : nat;
  cl_articles_used : list article_ref
}.

(** The result of [process_claims_with_llm]: [{}] when the model could not
    be loaded. *)
Inductive classification_results :=
| NoResults
| Classified (timestamp : str) (model_used : str) (cls : list classification).

(* ================================================================== *)
(** * The world outside the process *)
(* ================================================================== *)

(** What [requests.get] gives for a news search: a response with its
    status code and the articles of its JSON body, or a
    [RequestException]. *)
Inductive http_result :=
| Response (status : nat) (arts : list raw_article)
| RequestException.

(** What a chat completion of the local model gives: the streamed chunks
    (a chunk may carry no content), or an exception. *)
Inductive llama_result :=
| LlamaStream (chunks : list (option str))
| LlamaError (msg : str).

(** What [generate_content] of the remote model gives: a response with
    the finish reason of its first candidate ([None] without candidates)
    and its text, whose access may raise [ValueError]; or an exception. *)
Inductive gemini_result :=
| GeminiResponse (finish_reason : option nat) (text : str + str)
| GeminiError (msg : str).

Inductive gemini_stream :=
| GeminiChunks (chunks : list str)
| GeminiStreamError (msg : str).

(** An extracted claim of [main4.py]'s input: a dictionary in which a key
    may be absent ([None]); the values of the keys that are there are
    strings. *)
Record extracted_claim := {
  ec_claim : option str;
  ec_evidence : option str;
  ec_logic : option str
}.

(** What [analyze_claim_severity] returns: a dictionary read from the
    model's answer, so a key may be absent. *)
Record analysis := {
  an_needs_verification : option str;
  an_severity : option str;
  an_search_query : option str;
  an_category : option str;
  an_reasoning : option str
}.

(** What [print_verification_result] can do with the value that the
    model's answer has under [key_findings] or [sources_used]: nothing
    (the key is absent or the value is falsy), show its first items (a
    list or a string), or fail while slicing it (an object, a number
    other than zero, [true]). *)
Inductive shown := Nothing | Items | NoSlice.

(** What [verify_claim_with_llm] returns (its required keys are always
    there). *)
Record llm_verdict := {
  verification_label : str;
  confidence_level : str;
  key_findings : shown;
  sources_used : shown
}.

(** The [verification] entry that [main4.py] attaches to a claim. *)
Record verification := {
  verified : bool;
  vf_confidence : str;
  verification_reason : str;
  articles_count : option nat;
  api_calls_used : nat;
  api_used : option provider;
  llm_verification : option llm_verdict
}.

Record verified_claim := {
  vc_claim : extracted_claim;
  vc_analysis : analysis;
  vc_verification : verification
}.

(** Files of the run, by what [json.load] makes of them: the documents
    that the stages of the pipeline write, the model file, and a file
    that is no JSON.  A driver that finds a document of another stage
    where it expects its input is outside the embedding: the drivers
    answer [Unspecified] there. *)
Inductive file :=
| ExtractedFile (claims : list extracted_claim)
| VerifiedFile (claims : list verified_claim)
| ClaimsFile (claims : list claim_data)
| FactCheckFile (r : fact_check_results)
| ClassificationFile (r : classification_results)
| ModelFile
| InvalidJson.

(** The calls that leave the process. *)
Inductive event :=
| NewsSearch (p : provider) (q : str)
| ArticleGet (u : str)
| Sleep (seconds : nat)
| LoadModel (path : str)
| Analyse (claim_text : str)
| Verify (claim_text : str)
| Generate (prompt : str)
| GenerateStream (prompt : str)
| FileWrite (path : str).

Record world := {
  trace : list event;
  files : str -> option file
}.

(** The environment answers by call site and by the time of the call (the
    number of events so far), so a provider may answer the same query
    differently later in the run.  [writable] tells whether saving a
    document succeeds; [left_partial] whether a save that fails had
    opened the file already, so that an empty or cut document is left
    at the path. *)
Record env := {
  news_api : provider -> str -> nat -> http_result;
  article_page : str -> nat -> option str;
  netloc : str -> str;
  tiktoken : str -> option nat;
  tiktoken_prefix : str -> nat -> str;
  clock : nat -> str;
  writable : str -> bool;
  left_partial : str -> bool;
  llama_loads : str -> bool;
  analyse : extracted_claim -> nat -> analysis;
  verdict : extracted_claim -> nat -> llm_verdict;
  llama : str -> str -> nat -> llama_result;
  gemini : str -> nat -> gemini_result;
  gemini_streaming : str -> nat -> gemini_stream
}.

Definition now (w : world) : nat := List.length (trace w).

Definition log (e : event) (w : world) : world :=
  {| trace := trace w ++ [e]; files := files w |}.

Definition write_file (path : str) (f : file) (w : world) : world :=
  {| trace := trace w ++ [FileWrite path];
     files := fun p => if Str.eqb p path then Some f else files w p |}.

Definition exists_path (w : world) (path : str) : bool :=
  match files w path with Some _ => true | None => false end.

(** Saving a document as the scripts do, with [open(path, 'w')] and
    [json.dump] inside a [try]: [true] with the document at the path, or
    [false]; a save that fails after it has opened the file leaves a
    document there that is no JSON. *)
Definition save_document (E : env) (path : str) (f : file) (w : world)
  : bool * world :=
  if writable E path then (true, write_file path f w)
  else if left_partial E path then (false, write_file path InvalidJson w)
  else (false, w).

Definition is_news_search (e : event) : bool :=
  match e with NewsSearch _ _ => true | _ => false end.

Definition is_generate (e : event) : bool :=
  match e with
  | Analyse _ | Verify _ | Generate _ | GenerateStream _ => true
  | _ => false
  end.

Definition search_calls (tr : list event) : nat :=
  List.length (filter is_news_search tr).

Definition model_calls (tr : list event) : nat :=
  List.length (filter is_generate tr).

(** Python truthiness of a string and of an optional string. *)
Definition truthy (t : str) : bool :=
  match t with [] => false | _ :: _ => true end.

Definition truthy_opt (t : option str) : bool :=
  match t with Some t' => truthy t' | None => false end.

(* ================================================================== *)
(** * fact_check.py *)
(* ================================================================== *)

Module FactCheck.

(** [generate_alternative_query]: the first three, or two, words. *)
Definition generate_alternative_query (original_query : str) : str :=
  let key_terms := findall_words original_query in
  if 3 <=? List.length key_terms then join (lit " ") (firstn 3 key_terms)
  else if 2 <=? List.length key_terms then join (lit " ") (firstn 2 key_terms)
  else original_query.

(** [sanitize_search_query]: punctuation to spaces, whitespace runs
    collapsed, stripped, at most 100 characters. *)
Definition sanitize_search_query (query : str) : str :=
  let sanitized :=
    map (fun c => if is_word c || is_space c then c else " "%char) query in
  let sanitized := strip (collapse_ws false sanitized) in
  if 100 <? len sanitized then firstn 100 sanitized else sanitized.

(** [make_api_call]: one HTTP request.  [Some] is a 200 answer (an empty
    list when it has no articles), [None] a hard failure. *)
Definition make_api_call (E : env) (p : provider) (q : str) (w : world)
  : option (list raw_article) * world :=
  let w' := log (NewsSearch p q) w in
  match news_api E p q (now w) with
  | Response status arts =>
      if status =? 200
      then match arts with
           | _ :: _ => (Some arts, w')
           | [] => (Some [], w')
           end
      else (None, w')
  | RequestException => (None, w')
  end.

(** The conversion of a NewsAPI article to the GNews shape. *)
Definition convert_article (a : raw_article) : raw_article :=
  {| ra_title := ra_title a;
     ra_description := ra_description a;
     ra_url := ra_url a;
     ra_source_name := ra_source_name a;
     ra_publishedAt := ra_publishedAt a;
     ra_content := ra_content a |}.

(** One guarded attempt of [fetch_news_articles]: the provider is called
    only below the ceiling, and the call is counted before its result is
    looked at.  [None] is a failed or a skipped attempt. *)
Definition attempt (E : env) (p : provider) (q : str)
    (current_api_calls max_api_calls : nat) (w : world)
  : option (list raw_article) * nat * world :=
  if current_api_calls <? max_api_calls then
    let '(arts, w') := make_api_call E p q w in
    let current_api_calls := current_api_calls + 1 in
    match arts, p with
    | Some arts, GNews => (Some arts, current_api_calls, w')
    | Some arts, NewsAPI => (Some (map convert_article arts), current_api_calls, w')
    | None, _ => (None, current_api_calls, w')
    end
  else (None, current_api_calls, w).

(** [fetch_news_articles]: GNews, then NewsAPI, then the same two with the
    alternative query; returns the articles and the new call count. *)
Definition fetch_news_articles (E : env) (search_query : str)
    (current_api_calls max_api_calls : nat) (w : world)
  : list raw_article * nat * world :=
  let sanitized_query := sanitize_search_query search_query in
  match attempt E GNews sanitized_query current_api_calls max_api_calls w with
  | (Some arts, c, w) => (arts, c, w)
  | (None, c, w) =>
  match attempt E NewsAPI sanitized_query c max_api_calls w with
  | (Some arts, c, w) => (arts, c, w)
  | (None, c, w) =>
  let alt_query := generate_alternative_query search_query in
  if Str.eqb alt_query sanitized_query then ([], c, w)
  else
  match attempt E GNews alt_query c max_api_calls w with
  | (Some arts, c, w) => (arts, c, w)
  | (None, c, w) =>
  match attempt E NewsAPI alt_query c max_api_calls w with
  | (Some arts, c, w) => (arts, c, w)
  | (None, c, w) => ([], c, w)
  end end end end.

Definition blocked_domains : list str := [lit "ndtv.com"].

Definition is_domain_blocked (E : env) (u : str) : bool :=
  existsb (Str.eqb (netloc E u)) blocked_domains.

(** [fetch_full_article_content]: [None] for a blocked domain (no request),
    for a failed request and for a page without text. *)
Definition fetch_full_article_content (E : env) (u : str) (w : world)
  : option str * world :=
  if is_domain_blocked E u then (None, w)
  else
    let w' := log (ArticleGet u) w in
    match article_page E u (now w) with
    | Some text => if truthy text then (Some text, w') else (None, w')
    | None => (None, w')
    end.

(** [count_tokens]: the tokenizer, or a quarter of the length when it
    fails. *)
Definition count_tokens (E : env) (t : str) : nat :=
  match tiktoken E t with
  | Some n => n
  | None => len t / 4
  end.

(** The body of [for article in articles]: the record under construction
    is its article list and its token total. *)
Definition gather (E : env) (acc : list article * nat * world) (a : raw_article)
  : list article * nat * world :=
  let '(arts, total, w) := acc in
  let '(full_content, w) := fetch_full_article_content E (ra_url a) w in
  let article_data :=
    {| title := ra_title a;
       description := ra_description a;
       url := ra_url a;
       source := ra_source_name a;
       publishedAt := ra_publishedAt a;
       content := full_content;
       content_tokens :=
         if truthy_opt full_content
         then match full_content with Some t => count_tokens E t | None => 0 end
         else 0 |} in
  let total :=
    if truthy_opt full_content then total + content_tokens article_data
    else total in
  (arts ++ [article_data], total, w).

(** The counters of [process_claims] and the records appended so far. *)
Record loop_state := {
  results : list claim_result;
  processed_claims : nat;
  successful_claims : nat;
  api_call_count : nat
}.

Inductive flow := Continue | Break.

Definition base_result (cd : claim_data) (nev : bool) : claim_result :=
  {| claim := cd_claim cd;
     original_claim := cd_original_claim cd;
     search_query := cd_search_query cd;
     category := cd_category cd;
     verification_status := cd_verification_status cd;
     confidence := cd_confidence cd;
     explanation := cd_explanation cd;
     fact_check_notes := cd_fact_check_notes cd;
     potential_impact := cd_potential_impact cd;
     source_url := cd_source_url cd;
     post_number := cd_post_number cd;
     articles := [];
     total_tokens := 0;
     needs_external_verification := nev;
     verification_result := None;
     historical_evidence := None |}.

Definition set_outcome (r : claim_result) (arts : list article) (total : nat)
    (vr : option str) (he : option str) : claim_result :=
  {| claim := claim r;
     original_claim := original_claim r;
     search_query := search_query r;
     category := category r;
     verification_status := verification_status r;
     confidence := confidence r;
     explanation := explanation r;
     fact_check_notes := fact_check_notes r;
     potential_impact := potential_impact r;
     source_url := source_url r;
     post_number := post_number r;
     articles := arts;
     total_tokens := total;
     needs_external_verification := needs_external_verification r;
     verification_result := vr;
     historical_evidence := he |}.

Definition append_result (st : loop_state) (r : claim_result)
    (successful calls : nat) : loop_state :=
  {| results := results st ++ [r];
     processed_claims := processed_claims st;
     successful_claims := successful;
     api_call_count := calls |}.

(** The body of [for claim_data in json_data]. *)
Definition loop_body (E : env) (max_api_calls : nat) (cd : claim_data)
    (st : loop_state) (w : world) : flow * loop_state * world :=
  let st :=
    {| results := results st;
       processed_claims := processed_claims st + 1;
       successful_claims := successful_claims st;
       api_call_count := api_call_count st |} in
  let needs_external_verification :=
    match cd_needs_external_verification cd with
    | Some b => b
    | None => true
    end in
  let claim_result := base_result cd needs_external_verification in
  if negb needs_external_verification then
    let claim_result :=
      set_outcome claim_result [] 0 (Some (lit "verified_by_knowledge"))
        (Some match cd_historical_evidence cd with
              | Some h => h
              | None => []
              end) in
    (Continue,
     append_result st claim_result (successful_claims st) (api_call_count st),
     w)
  else if max_api_calls <=? api_call_count st then (Break, st, w)
  else
    let search_query := cd_search_query cd in
    let search_query :=
      if negb (truthy search_query) then cd_claim cd else search_query in
    if truthy search_query then
      let '(arts, calls, w) :=
        fetch_news_articles E search_query (api_call_count st) max_api_calls w in
      match arts with
      | _ :: _ =>
          let '(found, total, w) := fold_left (gather E) arts ([], 0, w) in
          let claim_result :=
            set_outcome claim_result found total
              (Some (if 0 <? total then lit "content_found"
                     else lit "no_content_found"))
              None in
          (Continue,
           append_result st claim_result (successful_claims st + 1) calls,
           log (Sleep 1) w)
      | [] =>
          let claim_result :=
            set_outcome claim_result [] 0 (Some (lit "no_articles_found")) None in
          (Continue,
           append_result st claim_result (successful_claims st) calls,
           log (Sleep 1) w)
      end
    else
      (Continue,
       append_result st claim_result (successful_claims st) (api_call_count st),
       log (Sleep 1) w).

Fixpoint loop (E : env) (max_api_calls : nat) (json_data : list claim_data)
    (st : loop_state) (w : world) : loop_state * world :=
  match json_data with
  | [] => (st, w)
  | cd :: rest =>
      match loop_body E max_api_calls cd st w with
      | (Continue, st, w) => loop E max_api_calls rest st w
      | (Break, st, w) => (st, w)
      end
  end.

Definition initial_state : loop_state :=
  {| results := [];
     processed_claims := 0;
     successful_claims := 0;
     api_call_count := 0 |}.

(** [process_claims]: the output object and the final counters. *)
Definition process_claims (E : env) (json_data : list claim_data)
    (max_api_calls : nat) (w : world)
  : fact_check_results * loop_state * world :=
  let timestamp := clock E (now w) in
  let '(st, w) := loop E max_api_calls json_data initial_state w in
  ({| fc_timestamp := timestamp; verified_claims := results st |}, st, w).

(** [save_results_to_file]: [false] when the directory or the file cannot
    be written. *)
Definition save_results_to_file (E : env) (r : fact_check_results)
    (filename : str) (w : world) : bool * world :=
  save_document E filename (FactCheckFile r) w.

(** [print_results] reads [claim_data['verification_result']] by index: it
    raises [KeyError] on a record without that key.  [true] when it
    prints everything. *)
Definition print_results (r : fact_check_results) : bool :=
  forallb (fun c => match verification_result c with
                    | Some _ => true
                    | None => false
                    end) (verified_claims r).

(** What a driver gives back: the path, [None], or an exception that
    leaves it; [Unspecified] for an input document of another shape. *)
Inductive outcome :=
| Returned (path : option str)
| Raised
| Unspecified.

(** [run_fact_checking_process]. *)
Definition run_fact_checking_process (E : env) (json_file_path : str)
    (results_filename : str) (max_api_calls : nat) (w : world)
  : outcome * world :=
  if exists_path w results_filename then (Returned (Some results_filename), w)
  else if negb (exists_path w json_file_path) then (Returned None, w)
  else
    match files w json_file_path with
    | Some (ClaimsFile json_data) =>
        match json_data with
        | [] => (Returned None, w)
        | _ :: _ =>
            let '(r, _, w) := process_claims E json_data max_api_calls w in
            let '(saved, w) := save_results_to_file E r results_filename w in
            if saved then
              if print_results r then (Returned (Some results_filename), w)
              else (Raised, w)
            else (Returned None, w)
        end
    | Some InvalidJson | None => (Returned None, w)
    | Some _ => (Unspecified, w)
    end.

End FactCheck.

(* ================================================================== *)
(** * main4.py *)
(* ================================================================== *)

Module Main4.

Definition MAX_API_CALLS : nat := 5.

(** The module's global variables. *)
Record globals := {
  api_call_count : nat;
  gnews_available : bool;
  newsapi_available : bool
}.

(** [truncate_text_for_tokens]: four characters a token, cut at the last
    space, three dots appended. *)
Definition truncate_text_for_tokens (text : str) (max_tokens : Z) : str :=
  let max_chars := (max_tokens * 4)%Z in
  if (Z.of_nat (len text) <=? max_chars)%Z then text
  else rsplit1_head (slice_to text max_chars) ++ lit "...".

Definition can_make_api_call (g : globals) : bool :=
  api_call_count g <? MAX_API_CALLS.

Definition increment_api_call (g : globals) : globals :=
  {| api_call_count := api_call_count g + 1;
     gnews_available := gnews_available g;
     newsapi_available := newsapi_available g |}.

Definition get_available_api (g : globals) : option provider :=
  if gnews_available g then Some GNews
  else if newsapi_available g then Some NewsAPI
  else None.

Definition mark_api_unavailable (api_name : provider) (g : globals) : globals :=
  match api_name with
  | GNews =>
      {| api_call_count := api_call_count g;
         gnews_available := false;
         newsapi_available := newsapi_available g |}
  | NewsAPI =>
      {| api_call_count := api_call_count g;
         gnews_available := gnews_available g;
         newsapi_available := false |}
  end.

Definition available (p : provider) (g : globals) : bool :=
  match p with
  | GNews => gnews_available g
  | NewsAPI => newsapi_available g
  end.

Definition other_api (p : provider) : provider :=
  match p with GNews => NewsAPI | NewsAPI => GNews end.

(** A hit of [search_single_api]: the article and the provider it came
    from. *)
Record hit := {
  h_article : raw_article;
  h_api_used : provider
}.

Definition quota_or_forbidden (status : nat) : bool :=
  (status =? 429) || (status =? 403).

(** [search_single_api].  The function calls itself after it has marked
    the provider it used unavailable; [fuel] bounds these calls, and
    [None] is the model running out of it. *)
Fixpoint search_single_api (fuel : nat) (E : env) (query : str)
    (g : globals) (w : world)
  : option (list hit * option provider * globals * world) :=
  match fuel with
  | 0 => None
  | S fuel =>
      if negb (can_make_api_call g) then Some ([], None, g, w)
      else
        match get_available_api g with
        | None => Some ([], None, g, w)
        | Some available_api =>
            let g := increment_api_call g in
            let w' := log (NewsSearch available_api query) w in
            match news_api E available_api query (now w) with
            | Response status arts =>
                if status =? 200 then
                  Some (map (fun a => {| h_article := a;
                                         h_api_used := available_api |}) arts,
                        Some available_api, g, w')
                else if quota_or_forbidden status then
                  let g := mark_api_unavailable available_api g in
                  if available (other_api available_api) g
                     && can_make_api_call g
                  then search_single_api fuel E query g w'
                  else Some ([], Some available_api, g, w')
                else Some ([], Some available_api, g, w')
            | RequestException =>
                let g := mark_api_unavailable available_api g in
                if available (other_api available_api) g
                   && can_make_api_call g
                then search_single_api fuel E query g w'
                else Some ([], Some available_api, g, w')
            end
        end
  end.

(** The states of the globals that a run goes through: they change by
    [search_single_api] only. *)
Inductive later (E : env) : globals -> globals -> Prop :=
| later_refl (g : globals) : later E g g
| later_search (g g1 g2 : globals) (fuel : nat) (q : str) (w w' : world)
    (hits : list hit) (used : option provider) :
    later E g g1 ->
    search_single_api fuel E q g1 w = Some (hits, used, g2, w') ->
    later E g g2.

(** [claim_data.get(key, "")]. *)
Definition get (o : option str) : str :=
  match o with Some t => t | None => [] end.

(** [print_verification_result]: [false] when it raises, slicing
    [key_findings] or [sources_used]. *)
Definition print_verification_result (v : llm_verdict) : bool :=
  match key_findings v, sources_used v with
  | NoSlice, _ => false
  | _, NoSlice => false
  | _, _ => true
  end.

(** A value, or an exception that nothing catches. *)
Inductive raising (A : Type) :=
| Returns (a : A)
| Raised.

Arguments Returns {A} a.
Arguments Raised {A}.

Definition provider_name (p : option provider) : str :=
  match p with
  | Some GNews => lit "gnews"
  | Some NewsAPI => lit "newsapi"
  | None => lit "none"
  end.

Definition limit_reached (g : globals) : verification :=
  {| verified := false;
     vf_confidence := lit "low";
     verification_reason := lit "API call limit reached";
     articles_count := Some 0;
     api_calls_used := api_call_count g;
     api_used := None;
     llm_verification := None |}.

(** [verify_claim_with_news]; [c] is the claim whose text, evidence and
    logic it is given.  The verdict of the model is printed before it is
    used, and the exception of the printing is not caught. *)
Definition verify_claim_with_news (fuel : nat) (E : env) (c : extracted_claim)
    (search_query : str) (g : globals) (w : world)
  : option (raising verification * globals * world) :=
  if negb (can_make_api_call g) then Some (Returns (limit_reached g), g, w)
  else
    match search_single_api fuel E search_query g w with
    | None => None
    | Some (hits, used, g, w) =>
        match hits with
        | [] =>
            Some (Returns
                    {| verified := false;
                       vf_confidence := lit "low";
                       verification_reason :=
                         lit "No relevant news articles found from "
                         ++ provider_name used;
                       articles_count := Some 0;
                       api_calls_used := api_call_count g;
                       api_used := used;
                       llm_verification := None |}, g, w)
        | _ :: _ =>
            let llm_verification := verdict E c (now w) in
            let w := log (Verify (get (ec_claim c))) w in
            if negb (print_verification_result llm_verification)
            then Some (Raised, g, w)
            else
              let label := verification_label llm_verification in
              Some (Returns
                      {| verified :=
                           Str.eqb label (lit "verified")
                           || Str.eqb label (lit "partially_verified");
                         vf_confidence := confidence_level llm_verification;
                         verification_reason := lit "LLM analysis: " ++ label;
                         articles_count := Some (List.length hits);
                         api_calls_used := api_call_count g;
                         api_used := used;
                         llm_verification := Some llm_verification |}, g, w)
        end
    end.

Definition opt_eqb (o : option str) (t : str) : bool :=
  match o with Some v => Str.eqb v t | None => false end.

(** The analysis and verification given to every claim that is left when
    the loop finds the counter at the ceiling. *)
Definition skipped (g : globals) (c : extracted_claim) : verified_claim :=
  {| vc_claim := c;
     vc_analysis :=
       {| an_needs_verification := Some (lit "no");
          an_severity := Some (lit "low");
          an_search_query := Some [];
          an_category := Some (lit "other");
          an_reasoning := Some (lit "API limit reached, verification skipped") |};
     vc_verification :=
       {| verified := false;
          vf_confidence := lit "low";
          verification_reason := lit "API call limit reached";
          articles_count := None;
          api_calls_used := api_call_count g;
          api_used := None;
          llm_verification := None |} |}.

Definition severity_text (a : analysis) : str :=
  match an_severity a with Some t => t | None => lit "None" end.

(** The claim has the keys that the loop indexes when it verifies it:
    [claim_data['claim']], [claim_data['evidence']] and
    [claim_data['logic']]. *)
Definition has_keys (c : extracted_claim) : bool :=
  match ec_claim c, ec_evidence c, ec_logic c with
  | Some _, Some _, Some _ => true
  | _, _, _ => false
  end.

(** The loop of [process_claims_with_verification] over the claims that
    are left; [acc] is [verified_claims].  An exception leaves the loop
    and the function: a [KeyError] of a claim without one of its keys,
    or the exception of [verify_claim_with_news]. *)
Fixpoint loop (fuel : nat) (E : env) (claims : list extracted_claim)
    (acc : list verified_claim) (g : globals) (w : world)
  : option (raising (list verified_claim) * globals * world) :=
  match claims with
  | [] => Some (Returns acc, g, w)
  | claim_data :: rest =>
      if MAX_API_CALLS <=? api_call_count g then
        Some (Returns (acc ++ map (skipped g) claims), g, w)
      else
        let a := analyse E claim_data (now w) in
        let w := log (Analyse (get (ec_claim claim_data))) w in
        if opt_eqb (an_needs_verification a) (lit "yes")
           && (opt_eqb (an_severity a) (lit "high")
               || opt_eqb (an_severity a) (lit "critical"))
           && can_make_api_call g
        then
          if negb (has_keys claim_data) then Some (Raised, g, w)
          else
            let search_query :=
              match an_search_query a with
              | Some q => q
              | None => firstn 80 (get (ec_claim claim_data))
              end in
            match verify_claim_with_news fuel E claim_data search_query g w with
            | None => None
            | Some (Raised, g, w) => Some (Raised, g, w)
            | Some (Returns v, g, w) =>
                loop fuel E rest
                  (acc ++ [{| vc_claim := claim_data;
                              vc_analysis := a;
                              vc_verification := v |}]) g w
            end
        else
          let v :=
            {| verified := false;
               vf_confidence := lit "low";
               verification_reason :=
                 lit "Does not require external verification (severity: "
                 ++ severity_text a ++ lit ")";
               articles_count := None;
               api_calls_used := api_call_count g;
               api_used := None;
               llm_verification := None |} in
          loop fuel E rest
            (acc ++ [{| vc_claim := claim_data;
                        vc_analysis := a;
                        vc_verification := v |}]) g w
  end.

Definition reset : globals :=
  {| api_call_count := 0; gnews_available := true; newsapi_available := true |}.

(** A state that a run reaches from the reset at its start. *)
Definition reachable (E : env) (g : globals) : Prop := later E reset g.

(** The number of providers still available. *)
Definition providers_left (g : globals) : nat :=
  (if gnews_available g then 1 else 0) + (if newsapi_available g then 1 else 0).

Definition input_path : str := lit "./claims_extracted.json".
Definition output_path : str := lit "./verified_claims.json".
Definition LOCAL_MODEL_PATH : str :=
  lit "./DeepSeek-R1-Distill-Qwen-1.5B.Q4_K_M.gguf".

(** What [process_claims_with_verification] leaves behind; [Crashed]
    when an exception left its loop. *)
Inductive run :=
| NotLoaded
| NoModel
| Unspecified
| Crashed
| Finished (verified_claims : list verified_claim) (saved : bool).

(** [process_claims_with_verification]: the globals are reset, the claims
    and the model loaded, every claim processed, the list saved. *)
Definition process_claims_with_verification (fuel : nat) (E : env) (w : world)
  : option (run * globals * world) :=
  let g := reset in
  match files w input_path with
  | Some (ExtractedFile claims_data) =>
      let w := log (LoadModel LOCAL_MODEL_PATH) w in
      if negb (llama_loads E LOCAL_MODEL_PATH) then Some (NoModel, g, w)
      else
        match loop fuel E claims_data [] g w with
        | None => None
        | Some (Raised, g, w) => Some (Crashed, g, w)
        | Some (Returns verified_claims, g, w) =>
            let '(saved, w) :=
              save_document E output_path (VerifiedFile verified_claims) w in
            Some (Finished verified_claims saved, g, w)
        end
  | Some InvalidJson | None => Some (NotLoaded, g, w)
  | Some _ => Some (Unspecified, g, w)
  end.

(** The block of one article in the prompt of [verify_claim_with_llm]. *)
Definition article_block (i : nat) (h : hit) : str :=
  lit "Article " ++ of_nat (i + 1) ++ lit ":" ++ [nl]
  ++ lit "Title: " ++ ra_title (h_article h) ++ [nl]
  ++ lit "Description: " ++ ra_description (h_article h) ++ [nl]
  ++ lit "Content: " ++ ra_content (h_article h) ++ [nl]
  ++ lit "Source: " ++ ra_source_name (h_article h) ++ [nl]
  ++ lit "Published: " ++ ra_publishedAt (h_article h) ++ [nl; nl].

(** The loop of [truncate_articles_data], from article [i] on. *)
Fixpoint truncate_articles_from (i : nat) (articles : list hit)
    (max_tokens : Z) (articles_text : str) : str :=
  match articles with
  | [] => articles_text
  | a :: rest =>
      let article_content := article_block i a in
      if (max_tokens * 4 <? Z.of_nat (len (articles_text ++ article_content)))%Z
      then articles_text
      else truncate_articles_from (i + 1) rest max_tokens
             (articles_text ++ article_content)
  end.

(** [truncate_articles_data]. *)
Definition truncate_articles_data (articles : list hit) (max_tokens : Z) : str :=
  truncate_articles_from 0 articles max_tokens [].

Definition critical_indicators : list str :=
  [lit "death"; lit "kill"; lit "terror"; lit "emergency"; lit "pandemic";
   lit "collapse"].

Definition stop_words : list str :=
  [lit "this"; lit "that"; lit "the"; lit "and"; lit "for"].

(** The keywords that [validate_analysis] takes from the claim. *)
Definition keywords (claim_lower : str) : list str :=
  filter (fun w => (3 <? len w) && negb (existsb (Str.eqb w) stop_words))
    (findall_words claim_lower).

(** [validate_analysis]: the category by the words of the claim, a
    [critical] severity kept only with an indicator, a search query with
    a question mark or more than eight words replaced. *)
Definition validate_analysis (a : analysis) (claim : str) : analysis :=
  let claim_lower := lower claim in
  let has := fun t => contains t claim_lower in
  let category :=
    if has (lit "plane") || has (lit "crash") || has (lit "air") then Some (lit "safety")
    else if has (lit "military") || has (lit "air force") || has (lit "fighter")
            || has (lit "squadron")
    then Some (lit "military")
    else if has (lit "vaccine") || has (lit "drug") || has (lit "cancer")
    then Some (lit "health")
    else if has (lit "government") || has (lit "modi") || has (lit "political")
    then Some (lit "politics")
    else if has (lit "stock") || has (lit "market") || has (lit "financial")
    then Some (lit "finance")
    else an_category a in
  let severity :=
    if opt_eqb (an_severity a) (lit "critical") then
      if negb (existsb (fun indicator => contains indicator claim_lower)
                 critical_indicators)
      then Some (lit "high")
      else an_severity a
    else an_severity a in
  let search_query :=
    match an_search_query a with Some q => q | None => [] end in
  let new_query :=
    if contains (lit "?") search_query
       || (8 <? List.length (split_ws search_query))
    then Some (join (lit " ") (firstn 5 (keywords claim_lower)))
    else an_search_query a in
  {| an_needs_verification := an_needs_verification a;
     an_severity := severity;
     an_search_query := new_query;
     an_category := category;
     an_reasoning := an_reasoning a |}.

End Main4.

(* ================================================================== *)
(** * main5.py *)
(* ================================================================== *)

Module Main5.

Definition MAX_TOKENS : nat := 8192.
Definition SYSTEM_OVERHEAD : nat := 100.
Definition MAX_RESPONSE_TOKENS : nat := 2000.
Definition CLAIM_OVERHEAD : nat := 100.
Definition AVAILABLE_FOR_ARTICLES : nat :=
  MAX_TOKENS - SYSTEM_OVERHEAD - MAX_RESPONSE_TOKENS - CLAIM_OVERHEAD.

Definition SYSTEM_PROMPT : str :=
  join [nl]
    [lit "You are a fact-checking assistant. Analyze the claim against the provided articles and determine if it's TRUE or FALSE.";
     lit "";
     lit "Think through your reasoning step by step, then provide your final classification."].

Definition count_tokens (E : env) (t : str) : nat :=
  match tiktoken E t with
  | Some n => n
  | None => len t / 4
  end.

(** [truncate_text_to_tokens]: the text of the first [max_tokens] tokens,
    or the first [4 * max_tokens] characters when the tokenizer fails. *)
Definition truncate_text_to_tokens (E : env) (text : str) (max_tokens : nat)
  : str :=
  match tiktoken E text with
  | Some n => if n <=? max_tokens then text else tiktoken_prefix E text max_tokens
  | None => firstn (max_tokens * 4) text
  end.

Definition article_text (i : nat) (a : article) : str :=
  let article_content :=
    match content a with
    | Some t => if truthy t then t else description a
    | None => description a
    end in
  [nl] ++ lit "--- Article " ++ of_nat (i + 1) ++ lit " ---" ++ [nl]
  ++ lit "Source: " ++ source a ++ [nl]
  ++ lit "Title: " ++ title a ++ [nl]
  ++ lit "Content: " ++ article_content ++ [nl].

(** The loop of [extract_article_content]: [i] is the index of the next
    article, the result the parts collected from there on. *)
Fixpoint collect (E : env) (i : nat) (arts : list article)
    (remaining_tokens : nat) : list str :=
  match arts with
  | [] => []
  | a :: rest =>
      if remaining_tokens <=? 50 then []
      else
        let text := article_text i a in
        let article_tokens := count_tokens E text in
        if article_tokens <=? remaining_tokens
        then text :: collect E (i + 1) rest (remaining_tokens - article_tokens)
        else [truncate_text_to_tokens E text remaining_tokens]
  end.

Definition extract_article_content (E : env) (arts : list article)
    (max_tokens : nat) : str :=
  match arts with
  | [] => lit "No articles available."
  | _ :: _ => List.concat (collect E 0 arts max_tokens)
  end.

(** [extract_classification]: the phrase heuristics of the local
    classifier. *)
Definition extract_classification (response_text : str) : str :=
  let response_lower := lower response_text in
  if contains (lit "false") response_lower then
    if contains (lit "not false") response_lower
       || contains (lit "isn't false") response_lower
    then lit "TRUE" else lit "FALSE"
  else if contains (lit "true") response_lower then
    if contains (lit "not true") response_lower
       || contains (lit "isn't true") response_lower
    then lit "FALSE" else lit "TRUE"
  else if contains (lit "claim is correct") response_lower
          || contains (lit "claim is accurate") response_lower
  then lit "TRUE"
  else if contains (lit "claim is incorrect") response_lower
          || contains (lit "claim is inaccurate") response_lower
          || contains (lit "claim is wrong") response_lower
  then lit "FALSE"
  else if contains (lit "no evidence") response_lower
          || contains (lit "cannot be verified") response_lower
  then lit "FALSE"
  else lit "UNVERIFIABLE".

Record verdict := {
  label : str;
  llm_response : str;
  reasoning : str
}.

Definition user_message (claim_text article_content : str) : str :=
  lit "CLAIM TO VERIFY: " ++ claim_text ++ [nl; nl]
  ++ lit "REFERENCE ARTICLES:" ++ [nl] ++ article_content ++ [nl; nl]
  ++ lit "Analyze whether this claim is TRUE or FALSE based on the articles provided. Think through your reasoning carefully.".

(** The streamed chunks put together: a chunk without content adds
    nothing. *)
Definition collect_stream (chunks : list (option str)) : str :=
  List.concat (map (fun c => match c with Some t => t | None => [] end) chunks).

(** [classify_claim_with_llm]. *)
Definition classify_claim_with_llm (E : env) (claim_text explanation_text : str)
    (arts : list article) (w : world) : verdict * world :=
  match arts with
  | [] =>
      ({| label := lit "UNVERIFIABLE";
          llm_response := lit "No articles available for verification.";
          reasoning := lit "Cannot verify without source articles." |}, w)
  | _ :: _ =>
      let article_content :=
        extract_article_content E arts AVAILABLE_FOR_ARTICLES in
      let message := user_message claim_text article_content in
      let w' := log (Generate message) w in
      match llama E SYSTEM_PROMPT message (now w) with
      | LlamaStream chunks =>
          let full_response := collect_stream chunks in
          ({| label := extract_classification full_response;
              llm_response := full_response;
              reasoning := full_response |}, w')
      | LlamaError msg =>
          ({| label := lit "ERROR";
              llm_response := lit "Error: " ++ msg;
              reasoning := [] |}, w')
      end
  end.

Definition article_reference (a : article) : article_ref :=
  {| ar_title := title a; ar_source := source a; ar_url := url a |}.

(** The loop of [process_claims_with_llm]: a claim without text is
    skipped. *)
Fixpoint classify_all (E : env) (claims : list claim_result) (w : world)
  : list classification * world :=
  match claims with
  | [] => ([], w)
  | claim_data :: rest =>
      if negb (truthy (claim claim_data)) then classify_all E rest w
      else
        let '(v, w) :=
          classify_claim_with_llm E (claim claim_data) (explanation claim_data)
            (articles claim_data) w in
        let result :=
          {| cl_claim := claim claim_data;
             cl_original_claim := original_claim claim_data;
             cl_search_query := search_query claim_data;
             cl_category := category claim_data;
             cl_classification := label v;
             cl_reasoning := reasoning v;
             cl_full_response := llm_response v;
             cl_articles_count := List.length (articles claim_data);
             cl_articles_used :=
               map article_reference (firstn 5 (articles claim_data)) |} in
        let '(results, w) := classify_all E rest w in
        (result :: results, w)
  end.

(** [process_claims_with_llm]. *)
Definition process_claims_with_llm (E : env) (data : fact_check_results)
    (model_path : str) (w : world) : classification_results * world :=
  let w := log (LoadModel model_path) w in
  if negb (llama_loads E model_path) then (NoResults, w)
  else
    let timestamp := clock E (now w) in
    let '(cls, w) := classify_all E (verified_claims data) w in
    (Classified timestamp model_path cls, w).

Definition save_results_to_file (E : env) (r : classification_results)
    (filename : str) (w : world) : bool * world :=
  save_document E filename (ClassificationFile r) w.

(** [run_llm_classification_process]. *)
Definition run_llm_classification_process (E : env)
    (input_file_path model_path output_file_path : str) (w : world)
  : FactCheck.outcome * world :=
  if exists_path w output_file_path
  then (FactCheck.Returned (Some output_file_path), w)
  else if negb (exists_path w input_file_path) then (FactCheck.Returned None, w)
  else if negb (exists_path w model_path) then (FactCheck.Returned None, w)
  else
    match files w input_file_path with
    | Some (FactCheckFile results_data) =>
        let '(r, w) := process_claims_with_llm E results_data model_path w in
        let '(saved, w) := save_results_to_file E r output_file_path w in
        if saved then (FactCheck.Returned (Some output_file_path), w)
        else (FactCheck.Returned None, w)
    | Some InvalidJson | None => (FactCheck.Returned None, w)
    | Some _ => (FactCheck.Unspecified, w)
    end.

End Main5.

(* ================================================================== *)
(** * main6.py *)
(* ================================================================== *)

Module Main6.

Definition MAX_TOKENS : nat := 8192.
Definition PROMPT_TOKENS : nat := 300.
Definition CLAIM_EXPLANATION_TOKENS : nat := 200.
Definition RESPONSE_TOKENS : nat := 1000.
Definition ARTICLE_TOKENS : nat :=
  MAX_TOKENS - PROMPT_TOKENS - CLAIM_EXPLANATION_TOKENS - RESPONSE_TOKENS.

(** [CLASSIFICATION_PROMPT], in the three parts that [format] puts around
    the claim and the articles. *)
Definition PROMPT_BEFORE_CLAIM : str :=
  join [nl]
    [lit "";
     lit "IMPORTANT: You are a fact-checking AI assistant. Your task is to analyze a claim and determine if it is TRUE or FALSE.";
     lit "";
     lit "CRITICAL INSTRUCTIONS:";
     lit "1. First verify if the articles themselves are reliable sources";
     lit "2. Check if the articles contain factual information or misinformation";
     lit "3. Only use the articles as evidence if they appear to be from reliable sources";
     (lit "4. If the articles seem to contain misinformation or are from unreliable sources, classify the claim as " ++ [dquote] ++ lit "UNVERIFIABLE" ++ [dquote] ++ lit "");
     lit "";
     lit "CLAIM TO VERIFY: "].

Definition PROMPT_BEFORE_ARTICLES : str :=
  join [nl]
    [lit "";
     lit "";
     lit "ARTICLES FOR REFERENCE:";
     lit ""].

Definition PROMPT_AFTER_ARTICLES : str :=
  join [nl]
    [lit "";
     lit "";
     lit "INSTRUCTIONS:";
     lit "1. Read the claim carefully";
     lit "2. Review the articles for evidence and reliability";
     lit "3. Decide if the claim is supported (TRUE), contradicted (FALSE), or if the articles are unreliable (UNVERIFIABLE)";
     lit "4. Provide your answer in this EXACT format:";
     lit "   LABEL: [TRUE, FALSE, or UNVERIFIABLE]";
     lit "   EXPLANATION: [2-3 sentences explaining your decision]";
     lit "";
     lit "YOUR RESPONSE (must follow the exact format above):";
     lit ""].

Definition format_prompt (claim_text article_content : str) : str :=
  PROMPT_BEFORE_CLAIM ++ claim_text ++ PROMPT_BEFORE_ARTICLES
  ++ article_content ++ PROMPT_AFTER_ARTICLES.

(** [count_tokens]: a quarter of the length. *)
Definition count_tokens (t : str) : nat := len t / 4.

(** [truncate_text_to_tokens]: the first [4 * max_tokens] characters. *)
Definition truncate_text_to_tokens (text : str) (max_tokens : Z) : str :=
  let max_chars := (max_tokens * 4)%Z in
  if (Z.of_nat (len text) <=? max_chars)%Z then text
  else slice_to text max_chars.

Definition article_text (i : nat) (a : article) : str :=
  let article_parts :=
    [ [nl; nl] ++ lit "Article " ++ of_nat (i + 1) ++ lit ":";
      lit "Title: " ++ title a;
      lit "Source: " ++ source a;
      lit "Published Date: ";
      lit "URL: " ++ url a;
      lit "Summary: " ++ description a ] in
  let article_parts :=
    match content a with
    | Some t => if truthy t then article_parts ++ [lit "Content: " ++ t]
                else article_parts
    | None => article_parts
    end in
  join [nl] article_parts.

(** The loop of [extract_article_content], from article [i] on. *)
Fixpoint collect (i : nat) (arts : list article) (remaining_tokens : nat)
  : str :=
  match arts with
  | [] => []
  | a :: rest =>
      if remaining_tokens <=? 0 then []
      else
        let text := article_text i a in
        let article_tokens := count_tokens text in
        if article_tokens <=? remaining_tokens
        then text ++ collect (i + 1) rest (remaining_tokens - article_tokens)
        else truncate_text_to_tokens text (Z.of_nat remaining_tokens)
             ++ collect (i + 1) rest 0
  end.

Definition extract_article_content (arts : list article) (max_tokens : nat)
  : str :=
  match arts with
  | [] => lit "No articles available for comparison."
  | _ :: _ => collect 0 arts max_tokens
  end.

Definition ensure_token_limit (prompt : str) (max_tokens : nat) : str :=
  if count_tokens prompt <=? max_tokens then prompt
  else truncate_text_to_tokens prompt (Z.of_nat max_tokens).

(** The label that [classify_claim_with_gemini] reads from the answer. *)
Definition extract_label (result_text : str) : str :=
  if contains (lit "LABEL: TRUE") (upper result_text) then lit "true"
  else if contains (lit "LABEL: FALSE") (upper result_text) then lit "false"
  else if contains (lit "LABEL: UNVERIFIABLE") (upper result_text)
  then lit "unverifiable"
  else lit "unknown".

(** The explanation that it reads from the answer. *)
Definition extract_explanation (result_text : str) : str :=
  match find (lit "EXPLANATION:") (upper result_text) 0 with
  | Some at_ =>
      let explanation_start := at_ + len (lit "EXPLANATION:") in
      let explanation_end :=
        match find [nl; nl] result_text explanation_start with
        | Some e => e
        | None => len result_text
        end in
      strip (slice result_text explanation_start explanation_end)
  | None => []
  end.

Record verdict := {
  label : str;
  explanation : str;
  full_response : str;
  tokens_used : option (nat * nat)
}.

Definition failed (why : str) (response : str) : verdict :=
  {| label := lit "error";
     explanation := why;
     full_response := response;
     tokens_used := None |}.

Definition extracted (result_text : str) (article_tokens total_tokens : nat)
  : verdict :=
  {| label := extract_label result_text;
     explanation := extract_explanation result_text;
     full_response := result_text;
     tokens_used := Some (article_tokens, total_tokens) |}.

(** [classify_claim_with_gemini]. *)
Definition classify_claim_with_gemini (E : env)
    (claim_text explanation_text : str) (arts : list article) (w : world)
  : verdict * world :=
  match arts with
  | [] =>
      ({| label := lit "unverifiable";
          explanation := lit "No articles available to verify this claim.";
          full_response := lit "No articles available for comparison.";
          tokens_used := None |}, w)
  | _ :: _ =>
      let article_content := extract_article_content arts ARTICLE_TOKENS in
      let article_tokens := count_tokens article_content in
      let formatted_prompt := format_prompt claim_text article_content in
      let formatted_prompt :=
        ensure_token_limit formatted_prompt (MAX_TOKENS - RESPONSE_TOKENS) in
      let total_tokens := count_tokens formatted_prompt in
      let w1 := log (Generate formatted_prompt) w in
      match gemini E formatted_prompt (now w) with
      | GeminiResponse finish_reason text =>
          if match finish_reason with Some r => r =? 2 | None => false end
          then (failed (lit "Response was blocked due to safety concerns. This may be due to sensitive content in the claim or articles.")
                  (lit "Response blocked by safety filters."), w1)
          else
            match text with
            | inl result_text =>
                (extracted result_text article_tokens total_tokens, w1)
            | inr msg =>
                (failed (lit "Error accessing response text: " ++ msg) [], w1)
            end
      | GeminiError msg =>
          let w2 := log (GenerateStream formatted_prompt) w1 in
          match gemini_streaming E formatted_prompt (now w1) with
          | GeminiChunks chunks =>
              (extracted (List.concat chunks) article_tokens total_tokens, w2)
          | GeminiStreamError msg2 =>
              (failed (lit "Error generating response: " ++ msg
                       ++ lit "; Streaming error: " ++ msg2) [], w2)
          end
      end
  end.

End Main6.

(* ================================================================== *)
(** * main2.py: steps 4 and 5 of [main] *)
(* ================================================================== *)

Module Main2.

Definition claims_json_path : str :=
  lit "/home/abhi/Pictures/custom_results/verified_claims.json".
Definition fact_check_results_path : str :=
  lit "/home/abhi/Pictures/custom_results/fact_check_results.json".
Definition final_classification_path : str :=
  lit "/home/abhi/Pictures/custom_results/fact_check_classification_results.json".
Definition model_path : str :=
  lit "/home/abhi/Pictures/DeepSeek-R1-Distill-Qwen-1.5B.Q4_K_M.gguf".

(** How far [main] came: to its end, to a [return] before it, or to an
    exception; [Unspecified] as for the drivers. *)
Inductive progress := Completed | Stopped | Crashed | Unspecified.

(** What [main] makes of the answer of a driver: [if not output:
    return]. *)
Definition after_driver (r : FactCheck.outcome * world) : progress * world :=
  match r with
  | (FactCheck.Returned (Some path), w) =>
      if truthy path then (Completed, w) else (Stopped, w)
  | (FactCheck.Returned None, w) => (Stopped, w)
  | (FactCheck.Raised, w) => (Crashed, w)
  | (FactCheck.Unspecified, w) => (Unspecified, w)
  end.

(** Step 4 of [main]: the fact check, unless its results are there. *)
Definition step_4 (E : env) (w : world) : progress * world :=
  if exists_path w fact_check_results_path then (Completed, w)
  else
    after_driver
      (FactCheck.run_fact_checking_process E claims_json_path
         fact_check_results_path 10 w).

(** Step 5 of [main]: the classification, unless its results are
    there. *)
Definition step_5 (E : env) (w : world) : progress * world :=
  if exists_path w final_classification_path then (Completed, w)
  else
    after_driver
      (Main5.run_llm_classification_process E fact_check_results_path
         model_path final_classification_path w).

(** [main] from step 4 on, where the claims file is in place. *)
Definition steps_4_and_5 (E : env) (w : world) : progress * world :=
  match step_4 E w with
  | (Completed, w) => step_5 E w
  | stopped => stopped
  end.

End Main2.

(* ================================================================== *)
(** * Concrete environments and inputs *)
(* ================================================================== *)

Module Examples.

Definition no_files : str -> option file := fun _ => None.

Definition fresh : world := {| trace := []; files := no_files |}.

(** An environment whose news providers answer by [api]; pages are
    missing, the tokenizer fails, files can be written, the models load
    and fail at the first call. *)
Definition env_of (api : provider -> str -> nat -> http_result) : env :=
  {| news_api := api;
     article_page := fun _ _ => None;
     netloc := fun u => u;
     tiktoken := fun _ => None;
     tiktoken_prefix := fun t _ => t;
     clock := fun _ => lit "2025-01-01T00:00:00";
     writable := fun _ => true;
     left_partial := fun _ => false;
     llama_loads := fun _ => true;
     analyse := fun _ _ =>
       {| an_needs_verification := Some (lit "yes");
          an_severity := Some (lit "high");
          an_search_query := None;
          an_category := None;
          an_reasoning := None |};
     verdict := fun _ _ =>
       {| verification_label := lit "unverified";
          confidence_level := lit "low";
          key_findings := Items;
          sources_used := Nothing |};
     llama := fun _ _ _ => LlamaError [];
     gemini := fun _ _ => GeminiError [];
     gemini_streaming := fun _ _ => GeminiStreamError [] |}.

(** Total failure of the news providers. *)
Definition all_down : env := env_of (fun _ _ _ => RequestException).

(** Every provider answers 200 with no article. *)
Definition all_empty : env := env_of (fun _ _ _ => Response 200 []).

(** GNews is over its quota, NewsAPI answers 200 with no article. *)
Definition gnews_429 : env :=
  env_of (fun p _ _ => match p with
                       | GNews => Response 429 []
                       | NewsAPI => Response 200 []
                       end).

Definition claim_of (text query : str) (nev : option bool) : claim_data :=
  {| cd_claim := text;
     cd_original_claim := text;
     cd_search_query := query;
     cd_category := [];
     cd_verification_status := [];
     cd_confidence := [];
     cd_explanation := [];
     cd_fact_check_notes := [];
     cd_potential_impact := [];
     cd_source_url := [];
     cd_post_number := [];
     cd_needs_external_verification := nev;
     cd_historical_evidence := None |}.

Definition two_claims : list claim_data :=
  [ claim_of (lit "The river flooded the town") (lit "river flood") (Some true);
    claim_of (lit "The bridge was closed") (lit "bridge closed") (Some true) ].

Definition empty_claim : claim_data := claim_of [] [] None.

(** A claim that uses the budget, then a claim without text or query. *)
Definition claim_then_empty : list claim_data :=
  [ claim_of (lit "The river flooded the town") (lit "river flood") (Some true);
    empty_claim ].

(** A world in which an earlier run has left its output. *)
Definition output_path : str := lit "results/fact_check_results.json".

Definition after_a_run : world :=
  {| trace := [];
     files := fun p =>
       if Str.eqb p output_path
       then Some (FactCheckFile {| fc_timestamp := lit "2025-01-01T00:00:00";
                                   verified_claims := [] |})
       else None |}.

(** A world with a claims file that holds the claim without text and
    query. *)
Definition claims_path : str := lit "results/verified_claims.json".

Definition before_a_run : world :=
  {| trace := [];
     files := fun p =>
       if Str.eqb p claims_path then Some (ClaimsFile [empty_claim]) else None |}.

(** A world with a claims file that holds one knowledge-only claim. *)
Definition with_known_claim : world :=
  {| trace := [];
     files := fun p =>
       if Str.eqb p claims_path
       then Some (ClaimsFile [claim_of (lit "Water boils at 100 degrees")
                                (lit "water boils") (Some false)])
       else None |}.

(** A world with the input of [main4.py]: seven extracted claims. *)
Definition extracted (n : nat) : extracted_claim :=
  {| ec_claim := Some (lit "Claim " ++ of_nat n);
     ec_evidence := Some (lit "Evidence");
     ec_logic := Some (lit "Logic") |}.

Definition seven_claims : list extracted_claim := map extracted (seq 1 7).

Definition with_extracted_claims : world :=
  {| trace := [];
     files := fun p =>
       if Str.eqb p (lit "./claims_extracted.json")
       then Some (ExtractedFile seven_claims)
       else None |}.

(** An environment in which [ndtv.com] is the host of every address. *)
Definition all_ndtv : env :=
  {| news_api := fun _ _ _ => RequestException;
     article_page := fun _ _ => Some (lit "A page of text.");
     netloc := fun _ => lit "ndtv.com";
     tiktoken := fun _ => None;
     tiktoken_prefix := fun t _ => t;
     clock := fun _ => lit "2025-01-01T00:00:00";
     writable := fun _ => true;
     left_partial := fun _ => false;
     llama_loads := fun _ => true;
     analyse := analyse all_down;
     verdict := verdict all_down;
     llama := fun _ _ _ => LlamaError [];
     gemini := fun _ _ => GeminiError [];
     gemini_streaming := fun _ _ => GeminiStreamError [] |}.

Definition known_claim : claim_data :=
  claim_of (lit "Water boils at 100 degrees") (lit "water boils") (Some false).

End Examples.

(** Further scenarios. *)
Module Scenarios.

(** The model of [main5.py] is there and does not load. *)
Definition broken_model : env :=
  {| news_api := fun _ _ _ => RequestException;
     article_page := fun _ _ => None;
     netloc := fun u => u;
     tiktoken := fun _ => None;
     tiktoken_prefix := fun t _ => t;
     clock := fun _ => lit "2025-01-01T00:00:00";
     writable := fun _ => true;
     left_partial := fun _ => false;
     llama_loads := fun _ => false;
     analyse := analyse Examples.all_down;
     verdict := verdict Examples.all_down;
     llama := fun _ _ _ => LlamaError [];
     gemini := fun _ _ => GeminiError [];
     gemini_streaming := fun _ _ => GeminiStreamError [] |}.

Definition model_path : str := lit "models/model.gguf".
Definition classification_path : str := lit "results/classification.json".

(** An extracted claim without the key [evidence], and the input of
    [main4.py] that holds it alone. *)
Definition claim_without_evidence : extracted_claim :=
  {| ec_claim := Some (lit "The dam broke");
     ec_evidence := None;
     ec_logic := Some (lit "Logic") |}.

Definition with_a_claim_without_evidence : world :=
  {| trace := [];
     files := fun p =>
       if Str.eqb p (lit "./claims_extracted.json")
       then Some (ExtractedFile [claim_without_evidence])
       else None |}.

(** The providers are down and every save fails with the file opened. *)
Definition disk_full : env :=
  {| news_api := fun _ _ _ => RequestException;
     article_page := fun _ _ => None;
     netloc := fun u => u;
     tiktoken := fun _ => None;
     tiktoken_prefix := fun t _ => t;
     clock := fun _ => lit "2025-01-01T00:00:00";
     writable := fun _ => false;
     left_partial := fun _ => true;
     llama_loads := fun _ => true;
     analyse := analyse Examples.all_down;
     verdict := verdict Examples.all_down;
     llama := fun _ _ _ => LlamaError [];
     gemini := fun _ _ => GeminiError [];
     gemini_streaming := fun _ _ => GeminiStreamError [] |}.

(** Every provider answers with one article, and the model gives a
    verdict whose [key_findings] is an object. *)
Definition findings_as_object : env :=
  {| news_api := fun _ _ _ =>
       Response 200 [{| ra_title := lit "Flood";
                        ra_description := lit "The river rose";
                        ra_url := lit "https://example.org/flood";
                        ra_source_name := lit "Example";
                        ra_publishedAt := lit "2025-01-01";
                        ra_content := lit "The river rose." |}];
     article_page := fun _ _ => None;
     netloc := fun u => u;
     tiktoken := fun _ => None;
     tiktoken_prefix := fun t _ => t;
     clock := fun _ => lit "2025-01-01T00:00:00";
     writable := fun _ => true;
     left_partial := fun _ => false;
     llama_loads := fun _ => true;
     analyse := analyse Examples.all_down;
     verdict := fun _ _ =>
       {| verification_label := lit "verified";
          confidence_level := lit "high";
          key_findings := NoSlice;
          sources_used := Nothing |};
     llama := fun _ _ _ => LlamaError [];
     gemini := fun _ _ => GeminiError [];
     gemini_streaming := fun _ _ => GeminiStreamError [] |}.

(** The results of a fact check and the model file, no classification
    yet. *)
Definition after_fact_check : world :=
  {| trace := [];
     files := fun p =>
       if Str.eqb p Examples.output_path
       then Some (FactCheckFile {| fc_timestamp := lit "2025-01-01T00:00:00";
                                   verified_claims := [] |})
       else if Str.eqb p model_path then Some ModelFile
       else None |}.

End Scenarios.

(* ================================================================== *)
(** * Vocabulary of the statements *)
(* ================================================================== *)

(** [occurs p t]: [p] is a substring of [t]. *)
Definition occurs (p t : str) : Prop := exists a b, t = a ++ p ++ b.

(** [extends w w']: the run that led from [w] to [w'] only added events
    and left the files alone. *)
Definition extends (w w' : world) : Prop :=
  (exists added, trace w' = trace w ++ added) /\ files w' = files w.

(** The events that a run from [w] to [w'] added. *)
Definition added (w w' : world) : list event := skipn (now w) (trace w').




(** What every stage of a search keeps: the counter grows by the number
    of searches made, and it does not pass a ceiling it was under. *)
Definition accounted (N c : nat) (w : world) (c' : nat) (w' : world) : Prop :=
  c <= c'
  /\ search_calls (trace w') + c = search_calls (trace w) + c'
  /\ (c <= N -> c' <= N)
  /\ extends w w'.

(** The invariant of the loop of [process_claims]. *)
Definition budget_kept (N : nat) (st : FactCheck.loop_state) (w : world)
    (st' : FactCheck.loop_state) (w' : world) : Prop :=
  FactCheck.api_call_count st <= FactCheck.api_call_count st'
  /\ search_calls (trace w') + FactCheck.api_call_count st
     = search_calls (trace w) + FactCheck.api_call_count st'
  /\ (FactCheck.api_call_count st <= N -> FactCheck.api_call_count st' <= N)
  /\ extends w w'.

(** What a search keeps: every call is counted, the counter stays under
    the ceiling, a provider never becomes available again. *)
Definition pool_kept (g : Main4.globals) (w : world) (g' : Main4.globals) (w' : world)
  : Prop :=
  Main4.api_call_count g <= Main4.api_call_count g'
  /\ search_calls (trace w') + Main4.api_call_count g
     = search_calls (trace w) + Main4.api_call_count g'
  /\ (Main4.api_call_count g <= Main4.MAX_API_CALLS -> Main4.api_call_count g' <= Main4.MAX_API_CALLS)
  /\ (Main4.gnews_available g = false -> Main4.gnews_available g' = false)
  /\ (Main4.newsapi_available g = false -> Main4.newsapi_available g' = false)
  /\ (Main4.gnews_available g' = true -> Main4.newsapi_available g = true ->
      Main4.newsapi_available g' = true)
  /\ extends w w'.

(** The flag as [process_claims] reads it: an absent key counts as
    true. *)
Definition needs_external (cd : claim_data) : bool :=
  match cd_needs_external_verification cd with
  | Some b => b
  | None => true
  end.

(** What the record of a claim looks like, by the kind of the claim. *)
Definition record_of (cd : claim_data) (r : claim_result) : Prop :=
  claim r = cd_claim cd
  /\ search_query r = cd_search_query cd
  /\ needs_external_verification r = needs_external cd
  /\ (needs_external cd = false ->
      verification_result r = Some (lit "verified_by_knowledge"))
  /\ (needs_external cd = true ->
      if truthy (cd_search_query cd) || truthy (cd_claim cd)
      then verification_result r = Some (lit "content_found")
           \/ verification_result r = Some (lit "no_content_found")
           \/ verification_result r = Some (lit "no_articles_found")
      else verification_result r = None)
  /\ verification_result r <> Some (lit "skipped_budget_exhausted")
  /\ (verification_result r <> Some (lit "content_found") -> total_tokens r = 0).

(** [turns E N pre st w]: the loop of [process_claims] goes through the
    claims [pre] without stopping, one turn of [loop_body] for each, and
    is then in the state it gives: the state in which it comes to the
    claim that follows [pre].  [None] when it stops at a claim of
    [pre]. *)
Fixpoint turns (E : env) (N : nat) (pre : list claim_data)
    (st : FactCheck.loop_state) (w : world)
  : option (FactCheck.loop_state * world) :=
  match pre with
  | [] => Some (st, w)
  | cd :: rest =>
      match FactCheck.loop_body E N cd st w with
      | (FactCheck.Continue, st, w) => turns E N rest st w
      | (FactCheck.Break, _, _) => None
      end
  end.


(** C3 as the specification states it, for an extractor: an answer with
    [LABEL: FALSE] in any casing is labelled false (the label compared
    without regard to case), and an answer without any of the three label
    patterns is labelled unverifiable. *)
Definition label_false_wins (extract : str -> str) : Prop :=
  forall r : str,
    contains (lit "LABEL: FALSE") (upper r) = true ->
    upper (extract r) = lit "FALSE".

Definition no_label_is_unverifiable (extract : str -> str) : Prop :=
  forall r : str,
    contains (lit "LABEL: TRUE") (upper r) = false ->
    contains (lit "LABEL: FALSE") (upper r) = false ->
    contains (lit "LABEL: UNVERIFIABLE") (upper r) = false ->
    contains (lit "true") (lower r) = false ->
    contains (lit "false") (lower r) = false ->
    upper (extract r) = lit "UNVERIFIABLE".

(** No phrase of the heuristics of [extract_classification] occurs. *)
Definition no_phrase (r : str) : bool :=
  negb (contains (lit "false") (lower r)
        || contains (lit "true") (lower r)
        || contains (lit "claim is correct") (lower r)
        || contains (lit "claim is accurate") (lower r)
        || contains (lit "claim is incorrect") (lower r)
        || contains (lit "claim is inaccurate") (lower r)
        || contains (lit "claim is wrong") (lower r)
        || contains (lit "no evidence") (lower r)
        || contains (lit "cannot be verified") (lower r)).

(** C5 as the specification states it, for a truncation function
    [truncate]: idempotent, a prefix of its input within the token
    estimate, and empty on the empty string. *)
Definition truncation_contract (truncate : str -> Z -> str) : Prop :=
  forall (t : str) (n : Z),
    (0 <= n)%Z ->
    truncate (truncate t n) n = truncate t n
    /\ (exists rest, t = truncate t n ++ rest)
    /\ (Z.of_nat (Main6.count_tokens (truncate t n)) <= n)%Z
    /\ truncate [] n = [].

(** C6 as it is stated, for a run: every claim of the input that needs
    no external verification has a record that says
    [verified_by_knowledge]. *)
Definition knowledge_claims_are_recorded : Prop :=
  forall (E : env) (json_data : list claim_data) (N : nat) (w : world)
         (cd : claim_data),
    In cd json_data ->
    cd_needs_external_verification cd = Some false ->
    exists r : claim_result,
      In r (verified_claims (fst (fst (FactCheck.process_claims E json_data N w))))
      /\ claim r = cd_claim cd
      /\ verification_result r = Some (lit "verified_by_knowledge").

(** C10 as it is stated: such a claim is recorded whenever the loop comes
    to it. *)
Definition empty_claim_always_recorded : Prop :=
  forall (E : env) (N : nat) (cd : claim_data) (st : FactCheck.loop_state)
         (w : world),
    cd_needs_external_verification cd <> Some false ->
    cd_claim cd = [] ->
    cd_search_query cd = [] ->
    exists r : claim_result,
      FactCheck.results (snd (fst (FactCheck.loop_body E N cd st w)))
      = FactCheck.results st ++ [r]
      /\ verification_result r = None.

(** The words that [findall] reads are not empty and made of word
    characters. *)
Definition word_like (w : str) : Prop :=
  w <> [] /\ Forall (fun c => is_word c = true) w.

Definition is_sleep (e : event) : bool :=
  match e with Sleep _ => true | _ => false end.

(** The addresses of the pages that a trace requests, in their order. *)
Definition pages_requested (tr : list event) : list str :=
  flat_map (fun e => match e with ArticleGet u => [u] | _ => [] end) tr.

Definition count_events (f : event -> bool) (tr : list event) : nat :=
  List.length (filter f tr).

(** An article whose tokens agree with its content: no content, no
    tokens; and the content is never the empty string. *)
Definition consistent_article (a : article) : Prop :=
  (content a = None -> content_tokens a = 0) /\ content a <> Some [].

(** A record whose token total is the sum over its articles, all of them
    consistent, and that has articles only if the claim needed external
    verification. *)
Definition sound_record (r : claim_result) : Prop :=
  total_tokens r = list_sum (map content_tokens (articles r))
  /\ Forall consistent_article (articles r)
  /\ (needs_external_verification r = false -> articles r = []).

(** The addresses of the articles of a record that are not on a blocked
    domain, in their order. *)
Definition pages_of (E : env) (r : claim_result) : list str :=
  filter (fun u => negb (FactCheck.is_domain_blocked E u))
    (map url (articles r)).

(** What a stretch of a run that appended the records [new] did besides
    searching. *)
Definition tally (E : env) (w w' : world) (new : list claim_result) : Prop :=
  count_events is_sleep (trace w')
  = count_events is_sleep (trace w)
    + List.length (filter needs_external_verification new)
  /\ pages_requested (trace w')
     = pages_requested (trace w) ++ flat_map (pages_of E) new
  /\ Forall sound_record new
  /\ files w' = files w.

(** The blocks of the articles from index [i] on. *)
Fixpoint blocks_from (i : nat) (articles : list Main4.hit) : list str :=
  match articles with
  | [] => []
  | a :: rest => Main4.article_block i a :: blocks_from (i + 1) rest
  end.

(** What one call of [search_single_api] did, by the providers [ps] it
    asked, in order. *)
Definition search_shape (q : str) (g : Main4.globals) (w : world)
    (hits : list Main4.hit) (used : option provider) (g' : Main4.globals)
    (w' : world) (ps : list provider) : Prop :=
  trace w' = trace w ++ map (fun p => NewsSearch p q) ps
  /\ NoDup ps
  /\ (forall p, In p ps -> Main4.available p g = true)
  /\ Main4.api_call_count g' = Main4.api_call_count g + List.length ps
  /\ used = hd_error (rev ps)
  /\ Forall (fun h => used = Some (Main4.h_api_used h)) hits
  /\ (ps = [] <->
      Main4.can_make_api_call g = false \/ Main4.get_available_api g = None).

Definition is_verify (e : event) : bool :=
  match e with Verify _ => true | _ => false end.

Definition is_analyse (e : event) : bool :=
  match e with Analyse _ => true | _ => false end.

(** The claim was verified by the model. *)
Definition has_verdict (vc : verified_claim) : bool :=
  match llm_verification (vc_verification vc) with
  | Some _ => true
  | None => false
  end.

(** The analysis asked for a search. *)
Definition asks_for_search (a : analysis) : bool :=
  Main4.opt_eqb (an_needs_verification a) (lit "yes")
  && (Main4.opt_eqb (an_severity a) (lit "high")
      || Main4.opt_eqb (an_severity a) (lit "critical")).

(** A record of [main4.py] that hangs together: [verified] only by a
    verdict of the model with one of the two positive labels; a verdict
    only with articles found, a provider named, its confidence taken
    over, and an analysis that asked for the search; the counter it
    reports within the ceiling. *)
Definition sound_verification (vc : verified_claim) : Prop :=
  (verified (vc_verification vc) = true ->
   exists l, llm_verification (vc_verification vc) = Some l
             /\ (verification_label l = lit "verified"
                 \/ verification_label l = lit "partially_verified"))
  /\ (forall l, llm_verification (vc_verification vc) = Some l ->
        (exists n, articles_count (vc_verification vc) = Some (S n))
        /\ api_used (vc_verification vc) <> None
        /\ vf_confidence (vc_verification vc) = confidence_level l
        /\ asks_for_search (vc_analysis vc) = true)
  /\ api_calls_used (vc_verification vc) <= Main4.MAX_API_CALLS.

(** What the loop keeps from [w] to [w'] while it appends [new]. *)
Definition verdicts_kept (g : Main4.globals) (w : world) (g' : Main4.globals) (w' : world)
    (new : list verified_claim) (claims : nat) : Prop :=
  Forall sound_verification new
  /\ count_events is_verify (trace w')
     = count_events is_verify (trace w) + List.length (filter has_verdict new)
  /\ List.length (filter has_verdict new) + Main4.api_call_count g <= Main4.api_call_count g'
  /\ Main4.api_call_count g' <= Main4.MAX_API_CALLS
  /\ count_events is_analyse (trace w')
     <= count_events is_analyse (trace w) + claims.

(** What the loop keeps from [w] to [w'] however it ends: a
    verification follows a search that was counted, the counter stays
    within the ceiling, a claim is analysed once at most. *)
Definition model_calls_kept (g : Main4.globals) (w : world)
    (g' : Main4.globals) (w' : world) (claims : nat) : Prop :=
  count_events is_verify (trace w') + Main4.api_call_count g
  <= count_events is_verify (trace w) + Main4.api_call_count g'
  /\ Main4.api_call_count g' <= Main4.MAX_API_CALLS
  /\ count_events is_analyse (trace w')
     <= count_events is_analyse (trace w) + claims.

(** The claim is given to the model: it has a text and an article. *)
Definition goes_to_model (c : claim_result) : bool :=
  truthy (claim c) && match articles c with [] => false | _ :: _ => true end.

(** A classification of [main5.py] that hangs together: one of the four
    labels; [UNVERIFIABLE] without articles; at most five article
    references, as many as there are articles up to five. *)
Definition sound_classification (c : classification) : Prop :=
  In (cl_classification c)
    [lit "TRUE"; lit "FALSE"; lit "UNVERIFIABLE"; lit "ERROR"]
  /\ (cl_articles_count c = 0 -> cl_classification c = lit "UNVERIFIABLE")
  /\ List.length (cl_articles_used c) = Nat.min 5 (cl_articles_count c)
  /\ cl_claim c <> [].

(** The texts of the articles from index [i] on, as
    [extract_article_content] of [main6.py] formats them. *)
Fixpoint texts_from (i : nat) (arts : list article) : list str :=
  match arts with
  | [] => []
  | a :: rest => Main6.article_text i a :: texts_from (i + 1) rest
  end.

(** The prompt that [classify_claim_with_gemini] sends for a claim with
    articles. *)
Definition prompt_sent (claim_text : str) (arts : list article) : str :=
  Main6.ensure_token_limit
    (Main6.format_prompt claim_text
       (Main6.extract_article_content arts Main6.ARTICLE_TOKENS))
    (Main6.MAX_TOKENS - Main6.RESPONSE_TOKENS).

(* ================================================================== *)
(** * Strings: substrings and case *)
(* ================================================================== *)

Lemma eqb_refl (t : str) : Str.eqb t t = true.
Proof.
  induction t as [|c t IH]; [reflexivity|]. cbn. now rewrite Ascii.eqb_refl.
Qed.

Lemma starts_with_spec (p t : str) :
  starts_with p t = true <-> exists b, t = p ++ b.
Proof.
  revert t. induction p as [|x p IH]; intros t; cbn.
  - split; [intros _; now exists t | reflexivity].
  - destruct t as [|y t].
    + split; [discriminate | intros [b Hb]; discriminate Hb].
    + rewrite andb_true_iff, Ascii.eqb_eq, IH. split.
      * intros [-> [b ->]]. now exists b.
      * intros [b Hb]. injection Hb as -> ->. split; [reflexivity | now exists b].
Qed.

Lemma contains_spec (p t : str) : contains p t = true <-> occurs p t.
Proof.
  unfold occurs. induction t as [|y t IH]; cbn [contains].
  - rewrite starts_with_spec. split.
    + intros [b Hb]. exists [], b. exact Hb.
    + intros [a [b Hab]]. destruct a; [now exists b | discriminate Hab].
  - rewrite orb_true_iff, starts_with_spec, IH. split.
    + intros [[b Hb]|[a [b Hab]]].
      * exists [], b. exact Hb.
      * exists (y :: a), b. cbn. now rewrite Hab.
    + intros [[|z a] [b Hab]].
      * left. now exists b.
      * right. injection Hab as -> ->. now exists a, b.
Qed.

Lemma upper_lower_char (c : ascii) : upper_char (lower_char c) = upper_char c.
Proof. destruct c as [[] [] [] [] [] [] [] []]; reflexivity. Qed.

Lemma lower_upper_char (c : ascii) : lower_char (upper_char c) = lower_char c.
Proof. destruct c as [[] [] [] [] [] [] [] []]; reflexivity. Qed.

Lemma upper_upper_char (c : ascii) : upper_char (upper_char c) = upper_char c.
Proof. destruct c as [[] [] [] [] [] [] [] []]; reflexivity. Qed.

Lemma upper_lower (t : str) : upper (lower t) = upper t.
Proof.
  unfold upper, lower. rewrite map_map. apply map_ext, upper_lower_char.
Qed.

Lemma lower_upper (t : str) : lower (upper t) = lower t.
Proof.
  unfold upper, lower. rewrite map_map. apply map_ext, lower_upper_char.
Qed.

Lemma upper_upper (t : str) : upper (upper t) = upper t.
Proof.
  unfold upper. rewrite map_map. apply map_ext, upper_upper_char.
Qed.

(** A substring of the upper-cased text comes from a substring of the
    text. *)
Lemma occurs_upper (p t : str) :
  occurs p (upper t) -> exists p', occurs p' t /\ upper p' = p.
Proof.
  unfold occurs, upper. intros (a & b & H).
  apply map_eq_app in H. destruct H as (a' & r' & -> & Ha & H).
  apply map_eq_app in H. destruct H as (p' & b' & -> & Hp & Hb).
  exists p'. split; [now exists a', b' | exact Hp].
Qed.

Lemma occurs_lower (p t : str) : occurs p t -> occurs (lower p) (lower t).
Proof.
  unfold occurs, lower. intros (a & b & ->).
  exists (map lower_char a), (map lower_char b). now rewrite !map_app.
Qed.

Lemma occurs_trans (p q t : str) : occurs p q -> occurs q t -> occurs p t.
Proof.
  unfold occurs. intros (a & b & ->) (c & d & ->).
  exists (c ++ a), (b ++ d). now rewrite <- !app_assoc.
Qed.

(** A text with [LABEL: FALSE] in any casing has [false] in its lower
    case. *)
Lemma label_false_has_false (t : str) :
  contains (lit "LABEL: FALSE") (upper t) = true ->
  contains (lit "false") (lower t) = true.
Proof.
  rewrite !contains_spec. intros H.
  apply occurs_upper in H. destruct H as (p' & Hocc & Hup).
  apply occurs_lower in Hocc.
  assert (Hl : lower p' = lit "label: false").
  { rewrite <- lower_upper, Hup. reflexivity. }
  rewrite Hl in Hocc. eapply occurs_trans; [|exact Hocc].
  exists (lit "label: "), []. reflexivity.
Qed.

(* ================================================================== *)
(** * Truncation *)
(* ================================================================== *)

Lemma rsplit1_head_length (t : str) : len (rsplit1_head t) <= len t.
Proof.
  unfold len. induction t as [|c t IH]; cbn [rsplit1_head]; [lia|].
  destruct (contains (lit " ") t); cbn [List.length]; [lia|].
  destruct (Ascii.eqb c " "); cbn [List.length]; lia.
Qed.

Lemma slice_to_nonneg (t : str) (k : Z) :
  (0 <= k)%Z -> slice_to t k = firstn (Z.to_nat k) t.
Proof.
  intros Hk. unfold slice_to.
  destruct (Z.ltb_spec k 0); [lia | reflexivity].
Qed.

(* ================================================================== *)
(** * Traces *)
(* ================================================================== *)

Lemma search_calls_app (a b : list event) :
  search_calls (a ++ b) = search_calls a + search_calls b.
Proof. unfold search_calls. now rewrite filter_app, length_app. Qed.

Lemma search_calls_log (e : event) (w : world) :
  search_calls (trace (log e w))
  = search_calls (trace w) + (if is_news_search e then 1 else 0).
Proof.
  unfold log; simpl. rewrite search_calls_app.
  unfold search_calls at 2; simpl. now destruct (is_news_search e).
Qed.

(** Saving a document adds file writes only, touches no other path, and
    leaves the document, the file as it was, or a document that is no
    JSON. *)
Lemma save_document_filter (E : env) (path : str) (d : file) (w : world)
    (f : event -> bool) :
  f (FileWrite path) = false ->
  filter f (trace (snd (save_document E path d w))) = filter f (trace w).
Proof.
  intros Hf. unfold save_document.
  destruct (writable E path); [|destruct (left_partial E path)];
    cbn [snd write_file trace]; rewrite ?filter_app; cbn [filter];
    rewrite ?Hf, ?app_nil_r; reflexivity.
Qed.

Lemma save_document_searches (E : env) (path : str) (d : file) (w : world) :
  search_calls (trace (snd (save_document E path d w)))
  = search_calls (trace w).
Proof.
  unfold search_calls. now rewrite save_document_filter.
Qed.

Lemma save_document_files (E : env) (path : str) (d : file) (w : world)
    (p : str) :
  Str.eqb p path = false ->
  files (snd (save_document E path d w)) p = files w p.
Proof.
  intros Hp. unfold save_document.
  destruct (writable E path); [|destruct (left_partial E path)];
    cbn [snd write_file files]; rewrite ?Hp; reflexivity.
Qed.

Lemma extends_refl (w : world) : extends w w.
Proof. split; [exists []; now rewrite app_nil_r | reflexivity]. Qed.

Lemma extends_trans (a b c : world) : extends a b -> extends b c -> extends a c.
Proof.
  intros [[x Hx] Hf] [[y Hy] Hg]. split.
  - exists (x ++ y). now rewrite Hy, Hx, app_assoc.
  - congruence.
Qed.

Lemma extends_log (e : event) (w : world) : extends w (log e w).
Proof. split; [now exists [e] | reflexivity]. Qed.

(* ================================================================== *)
(** * fact_check.py: the call budget *)
(* ================================================================== *)

Section Budget.

Variable E : env.

Import FactCheck.

Lemma make_api_call_trace (p : provider) (q : str) (w : world) :
  snd (make_api_call E p q w) = log (NewsSearch p q) w.
Proof.
  unfold make_api_call.
  destruct (news_api E p q (now w)) as [status arts|]; [|reflexivity].
  destruct (status =? 200); [|reflexivity]. now destruct arts.
Qed.

(** One attempt: either it is skipped (counter at the ceiling, nothing
    happens) or it makes exactly one search and counts it. *)
Lemma attempt_cases (p : provider) (q : str) (c N : nat) (w : world) :
  (N <= c /\ attempt E p q c N w = (None, c, w))
  \/ (c < N /\ exists r,
        attempt E p q c N w = (r, c + 1, log (NewsSearch p q) w)).
Proof.
  unfold attempt. destruct (Nat.ltb_spec c N) as [Hlt|Hge].
  - right. split; [assumption|].
    pose proof (make_api_call_trace p q w) as Ht.
    destruct (make_api_call E p q w) as [arts w']. simpl in Ht. subst w'.
    destruct arts as [arts|]; destruct p; eexists; reflexivity.
  - left. now split.
Qed.

Lemma accounted_refl (N c : nat) (w : world) : accounted N c w c w.
Proof. unfold accounted. auto using extends_refl. Qed.

Lemma accounted_trans (N c1 c2 c3 : nat) (w1 w2 w3 : world) :
  accounted N c1 w1 c2 w2 -> accounted N c2 w2 c3 w3 ->
  accounted N c1 w1 c3 w3.
Proof.
  intros (A1 & A2 & A4 & A5) (B1 & B2 & B4 & B5).
  unfold accounted. pose proof (extends_trans A5 B5). intuition lia.
Qed.

Lemma attempt_accounted (p : provider) (q : str) (c N : nat) (w : world) :
  accounted N c w (snd (fst (attempt E p q c N w))) (snd (attempt E p q c N w)).
Proof.
  destruct (attempt_cases p q c N w) as [[_ ->]|[Hlt [r ->]]]; simpl.
  - apply accounted_refl.
  - unfold accounted. pose proof (extends_log (NewsSearch p q) w).
    rewrite search_calls_log. cbn. intuition lia.
Qed.

Lemma fetch_news_articles_accounted (q : str) (c N : nat) (w : world) :
  accounted N c w (snd (fst (fetch_news_articles E q c N w)))
    (snd (fetch_news_articles E q c N w)).
Proof.
  unfold fetch_news_articles.
  set (sq := sanitize_search_query q). set (aq := generate_alternative_query q).
  pose proof (attempt_accounted GNews sq c N w) as H1.
  destruct (attempt E GNews sq c N w) as [[r1 c1] w1]; simpl in H1.
  destruct r1; [exact H1|].
  pose proof (attempt_accounted NewsAPI sq c1 N w1) as H2.
  destruct (attempt E NewsAPI sq c1 N w1) as [[r2 c2] w2]; simpl in H2.
  pose proof (accounted_trans H1 H2) as H12.
  destruct r2; [exact H12|].
  destruct (Str.eqb aq sq); [exact H12|].
  pose proof (attempt_accounted GNews aq c2 N w2) as H3.
  destruct (attempt E GNews aq c2 N w2) as [[r3 c3] w3]; simpl in H3.
  pose proof (accounted_trans H12 H3) as H123.
  destruct r3; [exact H123|].
  pose proof (attempt_accounted NewsAPI aq c3 N w3) as H4.
  destruct (attempt E NewsAPI aq c3 N w3) as [[r4 c4] w4]; simpl in H4.
  pose proof (accounted_trans H123 H4) as H1234.
  destruct r4; exact H1234.
Qed.



(** At the ceiling a search does nothing at all. *)
Lemma fetch_news_articles_at_ceiling (q : str) (c N : nat) (w : world) :
  N <= c -> fetch_news_articles E q c N w = ([], c, w).
Proof.
  intros Hge. unfold fetch_news_articles.
  assert (Hskip : forall p q' w', attempt E p q' c N w' = (None, c, w')).
  { intros p q' w'. destruct (attempt_cases p q' c N w') as [[_ H]|[Hlt _]];
      [exact H | lia]. }
  rewrite Hskip; cbv beta iota. rewrite Hskip; cbv beta iota.
  destruct (Str.eqb _ _); [reflexivity|].
  rewrite Hskip; cbv beta iota. now rewrite Hskip.
Qed.

(** Fetching pages makes no search. *)
Lemma fetch_full_article_content_searches (u : str) (w : world) :
  search_calls (trace (snd (fetch_full_article_content E u w)))
  = search_calls (trace w)
  /\ extends w (snd (fetch_full_article_content E u w)).
Proof.
  unfold fetch_full_article_content.
  destruct (is_domain_blocked E u); cbn [snd]; [split; auto using extends_refl|].
  destruct (article_page E u (now w)) as [text|];
    [destruct (truthy text)|]; cbn [snd];
    (split; [rewrite search_calls_log; cbn; lia | apply extends_log]).
Qed.

Lemma gather_searches (acc : list article * nat * world) (a : raw_article) :
  search_calls (trace (snd (gather E acc a))) = search_calls (trace (snd acc))
  /\ extends (snd acc) (snd (gather E acc a)).
Proof.
  destruct acc as [[arts total] w]. unfold gather.
  pose proof (fetch_full_article_content_searches (ra_url a) w) as H.
  destruct (fetch_full_article_content E (ra_url a) w) as [fc w']. exact H.
Qed.

Lemma fold_gather_searches (arts : list raw_article)
    (acc : list article * nat * world) :
  search_calls (trace (snd (fold_left (gather E) arts acc)))
  = search_calls (trace (snd acc))
  /\ extends (snd acc) (snd (fold_left (gather E) arts acc)).
Proof.
  revert acc. induction arts as [|a arts IH]; intros acc; simpl.
  - split; auto using extends_refl.
  - destruct (IH (gather E acc a)) as [IH1 IH2].
    destruct (gather_searches acc a) as [G1 G2]. split.
    + now rewrite IH1.
    + eapply extends_trans; eassumption.
Qed.

Lemma budget_kept_trans (N : nat) (s1 s2 s3 : loop_state) (w1 w2 w3 : world) :
  budget_kept N s1 w1 s2 w2 -> budget_kept N s2 w2 s3 w3 ->
  budget_kept N s1 w1 s3 w3.
Proof.
  intros (A1 & A2 & A3 & A4) (B1 & B2 & B3 & B4).
  unfold budget_kept. pose proof (extends_trans A4 B4). intuition lia.
Qed.

Lemma budget_kept_refl (N : nat) (st : loop_state) (w : world) :
  budget_kept N st w st w.
Proof. unfold budget_kept. auto using extends_refl. Qed.

(** A step that leaves the counter alone and adds events that are no
    searches keeps the budget. *)
Lemma budget_kept_quiet (N : nat) (st st' : loop_state) (w w' : world) :
  api_call_count st' = api_call_count st ->
  search_calls (trace w') = search_calls (trace w) ->
  extends w w' ->
  budget_kept N st w st' w'.
Proof. unfold budget_kept. intros -> -> ?. auto. Qed.

Lemma budget_kept_search (N c : nat) (st st' : loop_state) (w w1 w' : world) :
  accounted N (api_call_count st) w c w1 ->
  api_call_count st' = c ->
  search_calls (trace w') = search_calls (trace w1) ->
  extends w1 w' ->
  budget_kept N st w st' w'.
Proof.
  intros (A1 & A2 & A4 & A5) Hc Hs Hx. unfold budget_kept.
  pose proof (extends_trans A5 Hx). rewrite Hs, Hc. intuition lia.
Qed.

Lemma loop_body_budget (N : nat) (cd : claim_data) (st : loop_state) (w : world) :
  budget_kept N st w (snd (fst (loop_body E N cd st w)))
    (snd (loop_body E N cd st w)).
Proof.
  unfold loop_body.
  destruct (negb _); cbn [fst snd];
    [now apply budget_kept_quiet; auto using extends_refl|].
  cbn [api_call_count]. destruct (N <=? api_call_count st); cbn [fst snd];
    [now apply budget_kept_quiet; auto using extends_refl|].
  match goal with |- context [if truthy ?q then _ else _] => destruct (truthy q) end;
    cbn [fst snd].
  2:{ apply budget_kept_quiet; auto using extends_log.
      rewrite search_calls_log; cbn; lia. }
  match goal with
  | |- context [fetch_news_articles E ?q ?c N w] =>
      pose proof (fetch_news_articles_accounted q c N w) as Hf;
      destruct (fetch_news_articles E q c N w) as [[arts calls] w1]
  end; cbn [fst snd] in Hf.
  destruct arts as [|a arts].
  - cbn [fst snd].
    eapply budget_kept_search; [exact Hf | reflexivity | | apply extends_log].
    rewrite search_calls_log; cbn; lia.
  - pose proof (fold_gather_searches (a :: arts) ([], 0, w1)) as [G1 G2].
    destruct (fold_left (gather E) (a :: arts) ([], 0, w1)) as [[found total] w2].
    cbn [fst snd] in G1, G2. cbn [fst snd].
    eapply budget_kept_search; [exact Hf | reflexivity | |].
    + rewrite search_calls_log; cbn; lia.
    + eapply extends_trans; [exact G2 | apply extends_log].
Qed.

Lemma loop_budget (N : nat) (json_data : list claim_data) :
  forall (st : loop_state) (w : world),
    budget_kept N st w (fst (loop E N json_data st w))
      (snd (loop E N json_data st w)).
Proof.
  induction json_data as [|cd rest IH]; intros st w; simpl.
  - apply budget_kept_refl.
  - pose proof (loop_body_budget N cd st w) as Hb.
    destruct (loop_body E N cd st w) as [[[|] st1] w1]; simpl in Hb.
    + eapply budget_kept_trans; [exact Hb | apply IH].
    + exact Hb.
Qed.

End Budget.

(* ================================================================== *)
(** * fact_check.py: the records of a run *)
(* ================================================================== *)

(** Closes the conjuncts of [record_of] on a record that the loop has
    just built. *)
Ltac record_facts :=
  unfold record_of; cbn;
  repeat match goal with
         | H : needs_external _ = _ |- _ => rewrite H
         | H : truthy _ = _ |- _ => rewrite H
         end;
  cbn; repeat split; intros;
  try discriminate; try reflexivity; try lia; try congruence;
  first [ left; reflexivity
        | right; left; reflexivity
        | right; right; reflexivity ].

Section Records.

Variable E : env.

Import FactCheck.

(** One turn of the loop: it stops without a record only at a claim that
    needs external verification with the counter at the ceiling;
    otherwise it appends the record of the claim. *)
Lemma loop_body_record (N : nat) (cd : claim_data) (st : loop_state) (w : world) :
  match loop_body E N cd st w with
  | (Break, st', w') =>
      needs_external cd = true
      /\ N <= api_call_count st
      /\ results st' = results st
      /\ api_call_count st' = api_call_count st
      /\ w' = w
  | (Continue, st', _) =>
      exists r, results st' = results st ++ [r] /\ record_of cd r
  end.
Proof.
  unfold loop_body. fold (needs_external cd).
  destruct (needs_external cd) eqn:Hn; cbn [negb];
    [|eexists; split; [reflexivity | record_facts]].
  cbn [api_call_count].
  destruct (Nat.leb_spec N (api_call_count st)) as [Hge|Hlt];
    [repeat split; auto|].
  destruct (truthy (cd_search_query cd)) eqn:Hq; cbn [negb].
  - rewrite Hq.
    destruct (fetch_news_articles E (cd_search_query cd) (api_call_count st) N w)
      as [[arts calls] w1].
    destruct arts as [|a arts]; [eexists; split; [reflexivity | record_facts]|].
    destruct (fold_left (gather E) (a :: arts) ([], 0, w1)) as [[found total] w2].
    destruct (Nat.ltb_spec 0 total) as [Hpos|Hzero];
      eexists; (split; [reflexivity | record_facts]).
  - destruct (truthy (cd_claim cd)) eqn:Hc;
      [|eexists; split; [reflexivity | record_facts]].
    destruct (fetch_news_articles E (cd_claim cd) (api_call_count st) N w)
      as [[arts calls] w1].
    destruct arts as [|a arts]; [eexists; split; [reflexivity | record_facts]|].
    destruct (fold_left (gather E) (a :: arts) ([], 0, w1)) as [[found total] w2].
    destruct (Nat.ltb_spec 0 total) as [Hpos|Hzero];
      eexists; (split; [reflexivity | record_facts]).
Qed.

(** The records of a run are those of a prefix of the claims; the run
    stops short only at a claim that needs external verification, with
    the counter at the ceiling. *)
Lemma loop_records (N : nat) (json_data : list claim_data) :
  forall (st : loop_state) (w : world),
  exists (k : nat) (new : list claim_result),
    k <= List.length json_data
    /\ results (fst (loop E N json_data st w)) = results st ++ new
    /\ Forall2 record_of (firstn k json_data) new
    /\ (k < List.length json_data ->
        exists cd, nth_error json_data k = Some cd
                   /\ needs_external cd = true
                   /\ N <= api_call_count (fst (loop E N json_data st w))).
Proof.
  induction json_data as [|cd rest IH]; intros st w; cbn [loop].
  - exists 0, []. cbn. rewrite app_nil_r. repeat split; auto. lia.
  - pose proof (loop_body_record N cd st w) as Hb.
    destruct (loop_body E N cd st w) as [[[|] st1] w1].
    + destruct Hb as (r & Hr & Hrec).
      destruct (IH st1 w1) as (k & new & Hk & Hres & Hall & Hstop).
      exists (S k), (r :: new). cbn [List.length firstn nth_error].
      split; [lia|]. split; [rewrite Hres, Hr, <- app_assoc; reflexivity|].
      split; [constructor; assumption|].
      intros Hlt. apply Hstop. lia.
    + destruct Hb as (Hn & Hge & Hres & Hcount & _).
      exists 0, []. cbn. rewrite app_nil_r.
      split; [lia|]. split; [exact Hres|]. split; [constructor|].
      intros _. exists cd. rewrite Hcount. auto.
Qed.

(** A run over [pre ++ rest] that goes through [pre] goes on with
    [rest] from there. *)
Lemma turns_loop (N : nat) (pre rest : list claim_data) :
  forall (st st1 : loop_state) (w w1 : world),
    turns E N pre st w = Some (st1, w1) ->
    loop E N (pre ++ rest) st w = loop E N rest st1 w1.
Proof.
  induction pre as [|cd pre IH]; intros st st1 w w1; cbn [turns app loop].
  - now intros [= <- <-].
  - destruct (loop_body E N cd st w) as [[[|] st2] w2]; [apply IH | discriminate].
Qed.

Lemma turns_app (N : nat) (pre rest : list claim_data) :
  forall (st st1 : loop_state) (w w1 : world),
    turns E N pre st w = Some (st1, w1) ->
    turns E N (pre ++ rest) st w = turns E N rest st1 w1.
Proof.
  induction pre as [|cd pre IH]; intros st st1 w w1; cbn [turns app].
  - now intros [= <- <-].
  - destruct (loop_body E N cd st w) as [[[|] st2] w2]; [apply IH | discriminate].
Qed.

(** Going through [pre] records every claim of [pre]. *)
Lemma turns_records (N : nat) (pre : list claim_data) :
  forall (st st1 : loop_state) (w w1 : world),
    turns E N pre st w = Some (st1, w1) ->
    exists new, results st1 = results st ++ new
                /\ List.length new = List.length pre
                /\ Forall2 record_of pre new.
Proof.
  induction pre as [|cd pre IH]; intros st st1 w w1; cbn [turns].
  - intros [= <- <-]. exists []. rewrite app_nil_r. auto.
  - pose proof (loop_body_record N cd st w) as Hb.
    destruct (loop_body E N cd st w) as [[[|] st2] w2]; [|discriminate].
    destruct Hb as (r & Hr & Hrec). intros Ht.
    destruct (IH _ _ _ _ Ht) as (new & Hres & Hlen & Hall).
    exists (r :: new). rewrite Hres, Hr, <- app_assoc. cbn [app List.length].
    auto.
Qed.

(** A run that stops in [pre] is the run over [pre], whatever follows,
    and it has fewer records than [pre] has claims. *)
Lemma turns_stopped (N : nat) (pre rest : list claim_data) :
  forall (st : loop_state) (w : world),
    turns E N pre st w = None ->
    loop E N (pre ++ rest) st w = loop E N pre st w
    /\ List.length (results (fst (loop E N pre st w)))
       < List.length (results st) + List.length pre.
Proof.
  induction pre as [|cd pre IH]; intros st w; cbn [turns app loop];
    [discriminate|].
  pose proof (loop_body_record N cd st w) as Hb.
  destruct (loop_body E N cd st w) as [[[|] st2] w2].
  - destruct Hb as (r & Hr & _). intros Ht.
    destruct (IH _ _ Ht) as [Hl Hlen]. split; [exact Hl|].
    rewrite Hr, length_app in Hlen. cbn [List.length] in *. lia.
  - destruct Hb as (_ & _ & Hres & _). intros _. split; [reflexivity|].
    cbn [fst List.length]. rewrite Hres. lia.
Qed.

(** The records of a run start with the records that its state has. *)
Lemma loop_extends_results (N : nat) (json_data : list claim_data)
    (st : loop_state) (w : world) :
  exists new, results (fst (loop E N json_data st w)) = results st ++ new.
Proof.
  destruct (loop_records N json_data st w) as (k & new & _ & Hres & _).
  now exists new.
Qed.

(** At a claim that needs external verification, with the counter at
    the ceiling, the loop stops: this claim and the claims after it get
    no record, and nothing is called. *)
Lemma loop_stops_at_ceiling (N : nat) (cd : claim_data)
    (post : list claim_data) (st : loop_state) (w : world) :
  needs_external cd = true ->
  N <= api_call_count st ->
  results (fst (loop E N (cd :: post) st w)) = results st
  /\ api_call_count (fst (loop E N (cd :: post) st w)) = api_call_count st
  /\ snd (loop E N (cd :: post) st w) = w
  /\ turns E N (cd :: post) st w = None.
Proof.
  intros Hn Hge. cbn [loop turns]. unfold loop_body.
  fold (needs_external cd). rewrite Hn. cbn [negb api_call_count].
  destruct (Nat.leb_spec N (api_call_count st)); [|lia].
  cbn. auto.
Qed.

(** The record of the claim that the run comes to after [pre], when the
    turn of that claim goes on. *)
Lemma process_claims_turn (N : nat) (pre post : list claim_data)
    (cd : claim_data) (w w1 w2 : world) (st1 st2 : loop_state)
    (r : claim_result) :
  turns E N pre initial_state w = Some (st1, w1) ->
  loop_body E N cd st1 w1 = (Continue, st2, w2) ->
  results st2 = results st1 ++ [r] ->
  nth_error
    (verified_claims (fst (fst (process_claims E (pre ++ cd :: post) N w))))
    (List.length pre) = Some r.
Proof.
  intros Ht Hb Hr. unfold process_claims.
  rewrite (@turns_loop N pre (cd :: post) _ _ _ _ Ht). cbn [loop]. rewrite Hb.
  destruct (loop_extends_results N post st2 w2) as (new & Hnew).
  destruct (@turns_records N pre _ _ _ _ Ht) as (new1 & Hres1 & Hlen & _).
  destruct (loop E N post st2 w2) as [st3 w3].
  cbn [fst snd verified_claims] in *.
  rewrite Hnew, Hr, Hres1. cbn [initial_state results app].
  rewrite <- app_assoc, nth_error_app2 by lia.
  now rewrite Hlen, Nat.sub_diag.
Qed.

(** The output of a run that has stopped before it comes to the claims
    after [pre]. *)
Lemma process_claims_stopped (N : nat) (pre rest : list claim_data)
    (w : world) :
  turns E N pre initial_state w = None ->
  process_claims E (pre ++ rest) N w = process_claims E pre N w
  /\ List.length (verified_claims (fst (fst (process_claims E pre N w))))
     < List.length pre.
Proof.
  intros Ht. unfold process_claims.
  destruct (@turns_stopped N pre rest _ _ Ht) as [Hl Hlen]. rewrite Hl.
  destruct (loop E N pre initial_state w) as [st1 w1].
  cbn [fst snd verified_claims initial_state results List.length] in *.
  split; [reflexivity | lia].
Qed.

(** The output of a run that comes to a claim needing external
    verification with the counter at the ceiling. *)
Lemma process_claims_stop (N : nat) (pre post : list claim_data)
    (cd : claim_data) (w w1 : world) (st1 : loop_state) :
  turns E N pre initial_state w = Some (st1, w1) ->
  needs_external cd = true ->
  N <= api_call_count st1 ->
  verified_claims (fst (fst (process_claims E (pre ++ cd :: post) N w)))
  = results st1
  /\ List.length (results st1) = List.length pre
  /\ api_call_count (snd (fst (process_claims E (pre ++ cd :: post) N w)))
     = api_call_count st1
  /\ snd (process_claims E (pre ++ cd :: post) N w) = w1.
Proof.
  intros Ht Hn Hge. unfold process_claims.
  rewrite (@turns_loop N pre (cd :: post) _ _ _ _ Ht).
  destruct (@loop_stops_at_ceiling N cd post st1 w1 Hn Hge) as (H1 & H2 & H3 & _).
  destruct (@turns_records N pre _ _ _ _ Ht) as (new1 & Hres1 & Hlen & _).
  destruct (loop E N (cd :: post) st1 w1) as [st3 w3].
  cbn [fst snd verified_claims] in *.
  split; [exact H1|]. split; [|auto].
  rewrite Hres1. cbn [initial_state results app]. exact Hlen.
Qed.

End Records.

(* ================================================================== *)
(** * main4.py: the provider pool *)
(* ================================================================== *)

Section Pool.

Variable E : env.

Import Main4.

Lemma get_available_api_some (g : globals) (p : provider) :
  get_available_api g = Some p -> available p g = true.
Proof.
  unfold get_available_api.
  destruct (gnews_available g) eqn:Hg; [intros [= <-]; exact Hg|].
  destruct (newsapi_available g) eqn:Hn; [intros [= <-]; exact Hn|discriminate].
Qed.

Lemma mark_fewer (p : provider) (g : globals) :
  available p g = true ->
  providers_left (mark_api_unavailable p (increment_api_call g))
  < providers_left g.
Proof.
  unfold providers_left. destruct p; simpl; intros ->;
    destruct (gnews_available g), (newsapi_available g); simpl; lia.
Qed.

(** The search returns: it calls itself only with fewer providers left. *)
Lemma search_single_api_returns (fuel : nat) :
  forall (q : str) (g : globals) (w : world),
    providers_left g < fuel ->
    exists r, search_single_api fuel E q g w = Some r.
Proof.
  induction fuel as [|fuel IH]; intros q g w Hm; [lia|].
  simpl. destruct (negb (can_make_api_call g)); [eauto|].
  destruct (get_available_api g) as [p|] eqn:Hp; [|eauto].
  apply get_available_api_some in Hp. pose proof (mark_fewer p g Hp) as Hlt.
  destruct (news_api E p q (now w)) as [status arts|].
  - destruct (status =? 200); [eauto|].
    destruct (quota_or_forbidden status); [|eauto].
    destruct (_ && _); [apply IH; lia | eauto].
  - destruct (_ && _); [apply IH; lia | eauto].
Qed.

(** More fuel than needed changes nothing. *)
Lemma search_single_api_fuel (fuel : nat) :
  forall (fuel' : nat) (q : str) (g : globals) (w : world) r,
    search_single_api fuel E q g w = Some r ->
    fuel <= fuel' ->
    search_single_api fuel' E q g w = Some r.
Proof.
  induction fuel as [|fuel IH]; intros fuel' q g w r H Hle; [discriminate|].
  destruct fuel' as [|fuel']; [lia|]. simpl in *.
  destruct (negb (can_make_api_call g)); [exact H|].
  destruct (get_available_api g) as [p|]; [|exact H].
  destruct (news_api E p q (now w)) as [status arts|].
  - destruct (status =? 200); [exact H|].
    destruct (quota_or_forbidden status); [|exact H].
    destruct (_ && _); [apply IH; [exact H | lia] | exact H].
  - destruct (_ && _); [apply IH; [exact H | lia] | exact H].
Qed.

Lemma pool_kept_refl (g : globals) (w : world) : pool_kept g w g w.
Proof.
  unfold pool_kept. repeat (split; [solve [auto]|]). apply extends_refl.
Qed.

Lemma pool_kept_trans (g1 g2 g3 : globals) (w1 w2 w3 : world) :
  pool_kept g1 w1 g2 w2 -> pool_kept g2 w2 g3 w3 -> pool_kept g1 w1 g3 w3.
Proof.
  intros (A1 & A2 & A3 & A4 & A5 & A6 & A7) (B1 & B2 & B3 & B4 & B5 & B6 & B7).
  unfold pool_kept. pose proof (extends_trans A7 B7).
  destruct (gnews_available g1), (gnews_available g2), (gnews_available g3),
    (newsapi_available g1), (newsapi_available g2), (newsapi_available g3);
    intuition (try lia; try congruence).
Qed.

(** One counted request, after which the provider may be marked. *)
Lemma pool_kept_request (p : provider) (q : str) (g : globals) (w : world)
    (mark : bool) :
  can_make_api_call g = true ->
  get_available_api g = Some p ->
  pool_kept g w
    (if mark then mark_api_unavailable p (increment_api_call g)
     else increment_api_call g)
    (log (NewsSearch p q) w).
Proof.
  unfold can_make_api_call, get_available_api. intros Hc Hp.
  apply Nat.ltb_lt in Hc. unfold pool_kept.
  pose proof (extends_log (NewsSearch p q) w).
  rewrite search_calls_log.
  destruct mark, p; cbn;
    destruct (gnews_available g), (newsapi_available g);
    try discriminate; intuition (try lia; try congruence).
Qed.

Lemma search_single_api_kept (fuel : nat) :
  forall (q : str) (g : globals) (w : world) hits used g' w',
    search_single_api fuel E q g w = Some (hits, used, g', w') ->
    pool_kept g w g' w'.
Proof.
  induction fuel as [|fuel IH]; intros q g w hits used g' w' H; [discriminate|].
  simpl in H. destruct (can_make_api_call g) eqn:Hc; simpl in H;
    [|injection H as <- <- <- <-; apply pool_kept_refl].
  destruct (get_available_api g) as [p|] eqn:Hp;
    [|injection H as <- <- <- <-; apply pool_kept_refl].
  pose proof (@pool_kept_request p q g w true Hc Hp) as Kmark.
  pose proof (@pool_kept_request p q g w false Hc Hp) as Kplain.
  cbv beta iota in Kmark, Kplain.
  destruct (news_api E p q (now w)) as [status arts|].
  - destruct (status =? 200); [injection H as <- <- <- <-; exact Kplain|].
    destruct (quota_or_forbidden status);
      [|injection H as <- <- <- <-; exact Kplain].
    destruct (_ && _).
    + eapply pool_kept_trans; [exact Kmark | eapply IH; exact H].
    + injection H as <- <- <- <-; exact Kmark.
  - destruct (_ && _).
    + eapply pool_kept_trans; [exact Kmark | eapply IH; exact H].
    + injection H as <- <- <- <-; exact Kmark.
Qed.

(** Over a run: the counter never passes the ceiling, GNews never comes
    back, and NewsAPI is available as long as GNews is. *)
Lemma later_kept (g g' : globals) :
  later E g g' ->
  (api_call_count g <= MAX_API_CALLS -> api_call_count g' <= MAX_API_CALLS)
  /\ (gnews_available g = false -> gnews_available g' = false)
  /\ (gnews_available g' = true -> newsapi_available g = true ->
      newsapi_available g' = true).
Proof.
  induction 1 as [g|g g1 g2 fuel q w w' hits used _ IH Hs].
  - auto.
  - apply search_single_api_kept in Hs.
    destruct Hs as (_ & _ & S3 & S4 & S5 & S6 & _).
    destruct IH as (I1 & I2 & I3).
    destruct (gnews_available g), (gnews_available g1), (gnews_available g2),
      (newsapi_available g), (newsapi_available g1), (newsapi_available g2);
      intuition (try lia; try congruence).
Qed.

Lemma reachable_secondary (g : globals) :
  reachable E g -> gnews_available g = true -> newsapi_available g = true.
Proof.
  intros Hr Hg. apply later_kept in Hr. destruct Hr as (_ & _ & H). now apply H.
Qed.

End Pool.

Section Main4Records.

Variable E : env.

Import Main4.

Lemma verify_claim_with_news_returns (fuel : nat) (c : extracted_claim)
    (q : str) (g : globals) (w : world) :
  exists r, verify_claim_with_news (3 + fuel) E c q g w = Some r.
Proof.
  unfold verify_claim_with_news.
  destruct (negb (can_make_api_call g)); [eauto|].
  destruct (@search_single_api_returns E (3 + fuel) q g w) as [[[[hits used] g'] w'] ->].
  { unfold providers_left.
    destruct (gnews_available g), (newsapi_available g); cbn; lia. }
  destruct hits; [eauto|].
  destruct (negb (print_verification_result _)); eauto.
Qed.


(** The loop of [main4.py] comes to an end: it returns, with one record
    for every claim in the order of the input, or an exception leaves
    it. *)
Lemma main4_loop_records (fuel : nat) (claims : list extracted_claim) :
  forall (acc : list verified_claim) (g : globals) (w : world),
  exists r g' w',
    loop (3 + fuel) E claims acc g w = Some (r, g', w')
    /\ (forall out, r = Returns out ->
                    map vc_claim out = map vc_claim acc ++ claims).
Proof.
  induction claims as [|c rest IH]; intros acc g w.
  - cbn [loop]. do 3 eexists. split; [reflexivity|].
    intros out [= <-]. now rewrite app_nil_r.
  - cbn [loop]. destruct (MAX_API_CALLS <=? api_call_count g).
    { do 3 eexists. split; [reflexivity|]. intros out Hr.
      assert (Hout : acc ++ map (skipped g) (c :: rest) = out) by congruence.
      rewrite <- Hout, map_app, map_map. cbn [skipped vc_claim].
      now rewrite map_id. }
    set (a := analyse E c (now w)).
    set (w1 := log (Analyse (get (ec_claim c))) w).
    destruct (_ && _).
    + destruct (negb (has_keys c)).
      { do 3 eexists. split; [reflexivity|]. intros out Hr. discriminate Hr. }
      destruct (verify_claim_with_news_returns fuel c
                  match an_search_query a with
                  | Some q => q
                  | None => firstn 80 (get (ec_claim c))
                  end g w1) as [[[[v|] g1] w2] Hv];
        cbn [Nat.add] in Hv |- *; rewrite Hv.
      * edestruct IH as (r & g' & w' & Hl & Hm). cbn [Nat.add] in Hl.
        rewrite Hl. do 3 eexists. split; [reflexivity|].
        intros out Hr. rewrite (Hm out Hr), map_app. cbn.
        now rewrite <- app_assoc.
      * do 3 eexists. split; [reflexivity|]. intros out Hr. discriminate Hr.
    + edestruct IH as (r & g' & w' & Hl & Hm). cbn [Nat.add] in Hl.
      rewrite Hl. do 3 eexists. split; [reflexivity|].
      intros out Hr. rewrite (Hm out Hr), map_app. cbn.
      now rewrite <- app_assoc.
Qed.




End Main4Records.

Section Main4Budget.

Variable E : env.

Import Main4.



End Main4Budget.

(* ================================================================== *)
(** * The claims *)
(* ================================================================== *)

(** C1 (budget exactness).  For every environment, claim list and ceiling
    [N], one run of [process_claims] makes exactly as many provider
    searches as its counter says, and at most [N]: every attempt, also a
    fallback or an alternative-query attempt, is counted.  With the
    counter at the ceiling or above it ([N + k]), [fetch_news_articles]
    returns no article and leaves the world as it was, and so does
    [search_single_api] of [main4.py] with its own counter and ceiling. *)
Theorem C1_budget_exactness (E : env) (N : nat) :
  (forall (json_data : list claim_data) (w : world),
      let '(_, st, w') := FactCheck.process_claims E json_data N w in
      search_calls (trace w')
      = search_calls (trace w) + FactCheck.api_call_count st
      /\ FactCheck.api_call_count st <= N
      /\ search_calls (trace w') <= search_calls (trace w) + N)
  /\ (forall (q : str) (k : nat) (w : world),
      FactCheck.fetch_news_articles E q (N + k) N w = ([], N + k, w))
  /\ (forall (fuel : nat) (q : str) (k : nat) (ga na : bool) (w : world),
      let g := {| Main4.api_call_count := Main4.MAX_API_CALLS + k;
                  Main4.gnews_available := ga;
                  Main4.newsapi_available := na |} in
      Main4.search_single_api (S fuel) E q g w = Some ([], None, g, w)).
Proof.
  split; [|split].
  - intros json_data w. unfold FactCheck.process_claims.
    pose proof (loop_budget E N json_data FactCheck.initial_state w) as H.
    destruct (FactCheck.loop E N json_data FactCheck.initial_state w) as [st w'].
    destruct H as (_ & H2 & H3 & _). cbn in H2, H3.
    specialize (H3 (Nat.le_0_l N)). cbn [fst snd] in *. lia.
  - intros q k w. apply fetch_news_articles_at_ceiling. lia.
  - intros fuel q k ga na w g. cbn.
    unfold Main4.can_make_api_call. subst g. cbn [Main4.api_call_count].
    destruct (Nat.ltb_spec (Main4.MAX_API_CALLS + k) Main4.MAX_API_CALLS);
      [lia | reflexivity].
Qed.



(** C3, counterexample.  An answer with both patterns is labelled true by
    [main6.py], because [LABEL: TRUE] is looked for first; an answer
    without any pattern is labelled [unknown] there, not unverifiable;
    and [extract_classification] of [main5.py] turns an answer with
    [Label: false] into TRUE when ["not false"] also occurs, and an
    answer with ["no evidence"] into FALSE. *)
Lemma C3_counterexample :
  Main6.extract_label (lit "LABEL: FALSE. The articles rule out LABEL: TRUE.")
  = lit "true"
  /\ Main6.extract_label (lit "The articles say nothing about it.")
     = lit "unknown"
  /\ Main5.extract_classification (lit "Label: false? No, it is not false.")
     = lit "TRUE"
  /\ Main5.extract_classification (lit "There is no evidence for it.")
     = lit "FALSE"
  /\ ~ label_false_wins Main6.extract_label
  /\ ~ no_label_is_unverifiable Main6.extract_label
  /\ ~ label_false_wins Main5.extract_classification
  /\ ~ no_label_is_unverifiable Main5.extract_classification.
Proof.
  repeat (split; [reflexivity|]).
  split; [|split; [|split]]; intros H.
  - specialize (H (lit "LABEL: FALSE. The articles rule out LABEL: TRUE.")
                  eq_refl).
    vm_compute in H. discriminate H.
  - specialize (H (lit "The articles say nothing about it.")
                  eq_refl eq_refl eq_refl eq_refl eq_refl).
    vm_compute in H. discriminate H.
  - specialize (H (lit "Label: false? No, it is not false.") eq_refl).
    vm_compute in H. discriminate H.
  - specialize (H (lit "There is no evidence for it.")
                  eq_refl eq_refl eq_refl eq_refl eq_refl).
    vm_compute in H. discriminate H.
Qed.

(** C3, amended.  The extractor of [main6.py] looks for [LABEL: TRUE],
    [LABEL: FALSE] and [LABEL: UNVERIFIABLE] in the upper-cased answer,
    in this order, and the first one found decides: an answer with
    [LABEL: FALSE] in any casing is labelled [false] when it has no
    [LABEL: TRUE]; an answer with none of the three is labelled
    [unknown]; the casing of the answer does not matter; there are no
    secondary heuristics.  The extractor of [main5.py] has the
    heuristics only: an answer with [LABEL: FALSE] in any casing is
    labelled FALSE, or TRUE when ["not false"] or ["isn't false"] occurs
    in it, and an answer in which no phrase of the heuristics occurs is
    labelled UNVERIFIABLE. *)
Theorem C3_label_extraction (r : str) :
  (contains (lit "LABEL: TRUE") (upper r) = true ->
   Main6.extract_label r = lit "true")
  /\ (contains (lit "LABEL: TRUE") (upper r) = false ->
      contains (lit "LABEL: FALSE") (upper r) = true ->
      Main6.extract_label r = lit "false")
  /\ (contains (lit "LABEL: TRUE") (upper r) = false ->
      contains (lit "LABEL: FALSE") (upper r) = false ->
      contains (lit "LABEL: UNVERIFIABLE") (upper r) = true ->
      Main6.extract_label r = lit "unverifiable")
  /\ (contains (lit "LABEL: TRUE") (upper r) = false ->
      contains (lit "LABEL: FALSE") (upper r) = false ->
      contains (lit "LABEL: UNVERIFIABLE") (upper r) = false ->
      Main6.extract_label r = lit "unknown")
  /\ Main6.extract_label (upper r) = Main6.extract_label r
  /\ Main6.extract_label (lower r) = Main6.extract_label r
  /\ (contains (lit "LABEL: FALSE") (upper r) = true ->
      Main5.extract_classification r
      = if contains (lit "not false") (lower r)
           || contains (lit "isn't false") (lower r)
        then lit "TRUE" else lit "FALSE")
  /\ (no_phrase r = true ->
      Main5.extract_classification r = lit "UNVERIFIABLE").
Proof.
  unfold Main6.extract_label.
  split; [intros ->; reflexivity|].
  split; [intros -> ->; reflexivity|].
  split; [intros -> -> ->; reflexivity|].
  split; [intros -> -> ->; reflexivity|].
  split; [now rewrite upper_upper|].
  split; [now rewrite upper_lower|].
  split.
  - intros H. apply label_false_has_false in H.
    unfold Main5.extract_classification. now rewrite H.
  - unfold no_phrase, Main5.extract_classification. intros H.
    apply negb_true_iff in H.
    repeat (apply orb_false_iff in H; destruct H as [H ?]).
    repeat match goal with Hc : contains _ _ = false |- _ => rewrite Hc; clear Hc end.
    reflexivity.
Qed.

Lemma C3_label_extraction_witness :
  Main6.extract_label (lit "Label: False - the articles contradict it")
  = lit "false"
  /\ Main6.extract_label (lit "The articles say nothing about it.")
     = lit "unknown"
  /\ Main5.extract_classification
       (lit "Label: False - the articles contradict it")
     = lit "FALSE"
  /\ Main5.extract_classification (lit "The articles say nothing about it.")
     = lit "UNVERIFIABLE".
Proof.
  pose proof (C3_label_extraction
                (lit "Label: False - the articles contradict it")) as A.
  pose proof (C3_label_extraction
                (lit "The articles say nothing about it.")) as B.
  destruct A as (_ & A2 & _ & _ & _ & _ & A7 & _).
  destruct B as (_ & _ & _ & B4 & _ & _ & _ & B8).
  split; [exact (A2 eq_refl eq_refl)|].
  split; [exact (B4 eq_refl eq_refl eq_refl)|].
  split; [exact (A7 eq_refl)|].
  exact (B8 eq_refl).
Defined.

(** C4 (idempotent run).  When the output file exists already, both
    drivers return its path and leave the world as it is: no event is
    added (no search, no page fetch, no model call, no file write) and
    no file changes. *)
Theorem C4_idempotent_run (E : env) (w : world)
    (input_path model_path output_path : str) (N : nat) :
  exists_path w output_path = true ->
  FactCheck.run_fact_checking_process E input_path output_path N w
  = (FactCheck.Returned (Some output_path), w)
  /\ Main5.run_llm_classification_process E input_path model_path output_path w
     = (FactCheck.Returned (Some output_path), w).
Proof.
  intros Hex.
  unfold FactCheck.run_fact_checking_process,
    Main5.run_llm_classification_process.
  now rewrite Hex.
Qed.

Lemma C4_idempotent_run_witness :
  FactCheck.run_fact_checking_process Examples.all_empty (lit "claims.json")
    Examples.output_path 10 Examples.after_a_run
  = (FactCheck.Returned (Some Examples.output_path), Examples.after_a_run)
  /\ Main5.run_llm_classification_process Examples.all_empty (lit "claims.json")
       (lit "model.gguf") Examples.output_path Examples.after_a_run
     = (FactCheck.Returned (Some Examples.output_path), Examples.after_a_run).
Proof.
  apply (@C4_idempotent_run Examples.all_empty Examples.after_a_run
           (lit "claims.json") (lit "model.gguf") Examples.output_path 10).
  reflexivity.
Defined.

(** C5, counterexample.  [truncate_text_for_tokens] of [main4.py] cuts
    ["ab cdefgh"] at one token to ["ab c"], drops what follows the last
    space and appends three dots: the result ["ab..."] is no prefix of
    the input, and truncating it again gives ["ab....."]. *)
Lemma C5_counterexample :
  Main4.truncate_text_for_tokens (lit "ab cdefgh") 1 = lit "ab..."
  /\ Main4.truncate_text_for_tokens
       (Main4.truncate_text_for_tokens (lit "ab cdefgh") 1) 1
     = lit "ab....."
  /\ ~ truncation_contract Main4.truncate_text_for_tokens.
Proof.
  split; [reflexivity|]. split; [reflexivity|].
  intros H. destruct (H (lit "ab cdefgh") 1%Z) as (Hidem & _); [lia|].
  vm_compute in Hidem. discriminate Hidem.
Qed.

(** C5, amended.  For every string and every budget [n >= 0]:
    [truncate_text_to_tokens] of [main6.py] is idempotent, returns a
    prefix of its input whose estimated token count (a quarter of the
    length) is at most [n], and maps the empty string to itself;
    [truncate_text_for_tokens] of [main4.py] also keeps the estimate at
    most [n] and maps the empty string to itself. *)
Theorem C5_truncation (t : str) (n : Z) :
  (0 <= n)%Z ->
  Main6.truncate_text_to_tokens (Main6.truncate_text_to_tokens t n) n
  = Main6.truncate_text_to_tokens t n
  /\ (exists rest, t = Main6.truncate_text_to_tokens t n ++ rest)
  /\ (Z.of_nat (Main6.count_tokens (Main6.truncate_text_to_tokens t n)) <= n)%Z
  /\ Main6.truncate_text_to_tokens [] n = []
  /\ (Z.of_nat (Main6.count_tokens (Main4.truncate_text_for_tokens t n)) <= n)%Z
  /\ Main4.truncate_text_for_tokens [] n = [].
Proof.
  intros Hn.
  assert (Hbound : forall s : str,
            (Z.of_nat (len s) <= n * 4 + 3)%Z ->
            (Z.of_nat (Main6.count_tokens s) <= n)%Z).
  { intros s Hs. unfold Main6.count_tokens.
    rewrite Nat2Z.inj_div. change (Z.of_nat 4) with 4%Z.
    apply Z.lt_succ_r. apply Z.div_lt_upper_bound; lia. }
  assert (Hcut : forall s : str,
            (Z.of_nat (len (firstn (Z.to_nat (n * 4)) s)) <= n * 4)%Z).
  { intros s. unfold len. rewrite length_firstn. lia. }
  assert (H6 : forall s : str,
            (Z.of_nat (len (Main6.truncate_text_to_tokens s n)) <= n * 4)%Z).
  { intros s. unfold Main6.truncate_text_to_tokens.
    destruct (Z.leb_spec (Z.of_nat (len s)) (n * 4)); [assumption|].
    rewrite slice_to_nonneg by lia. apply Hcut. }
  split; [|split; [|split; [|split; [|split]]]].
  - pose proof (H6 t) as Hlen.
    unfold Main6.truncate_text_to_tokens at 1.
    destruct (Z.leb_spec
                (Z.of_nat (len (Main6.truncate_text_to_tokens t n))) (n * 4));
      [reflexivity | lia].
  - unfold Main6.truncate_text_to_tokens.
    destruct (Z.leb_spec (Z.of_nat (len t)) (n * 4)).
    + exists []. now rewrite app_nil_r.
    + rewrite slice_to_nonneg by lia.
      exists (skipn (Z.to_nat (n * 4)) t). now rewrite firstn_skipn.
  - apply Hbound. pose proof (H6 t). lia.
  - unfold Main6.truncate_text_to_tokens. cbn [len List.length].
    destruct (Z.leb_spec (Z.of_nat 0) (n * 4)); [reflexivity | cbn in *; lia].
  - apply Hbound. unfold Main4.truncate_text_for_tokens.
    destruct (Z.leb_spec (Z.of_nat (len t)) (n * 4)); [lia|].
    rewrite slice_to_nonneg by lia.
    pose proof (rsplit1_head_length (firstn (Z.to_nat (n * 4)) t)) as Hr.
    pose proof (Hcut t) as Hc.
    unfold len in *. rewrite length_app. cbn [lit list_ascii_of_string List.length].
    lia.
  - unfold Main4.truncate_text_for_tokens. cbn [len List.length].
    destruct (Z.leb_spec (Z.of_nat 0) (n * 4)); [reflexivity | cbn in *; lia].
Qed.

Lemma C5_truncation_witness :
  Main6.truncate_text_to_tokens
    (Main6.truncate_text_to_tokens (lit "ab cdefgh") 1) 1
  = Main6.truncate_text_to_tokens (lit "ab cdefgh") 1
  /\ (exists rest,
        lit "ab cdefgh" = Main6.truncate_text_to_tokens (lit "ab cdefgh") 1 ++ rest)
  /\ (Z.of_nat (Main6.count_tokens
                  (Main6.truncate_text_to_tokens (lit "ab cdefgh") 1)) <= 1)%Z
  /\ Main6.truncate_text_to_tokens [] 1 = []
  /\ (Z.of_nat (Main6.count_tokens
                  (Main4.truncate_text_for_tokens (lit "ab cdefgh") 1)) <= 1)%Z
  /\ Main4.truncate_text_for_tokens [] 1 = [].
Proof.
  apply (@C5_truncation (lit "ab cdefgh") 1%Z). lia.
Defined.

(** The hypothesis [n >= 0] is needed: a negative budget makes the slice
    count from the end, and the empty string aside nothing is left of the
    contract. *)
Example truncate_negative_budget :
  Main6.truncate_text_to_tokens (lit "abcdefghij") (-1) = lit "abcdef".
Proof. reflexivity. Qed.

(** C6, counterexample.  With a ceiling of no call the run stops at the
    first claim, which needs external verification; the knowledge-only
    claim after it has no record in the output. *)
Lemma C6_counterexample :
  verified_claims
    (fst (fst (FactCheck.process_claims Examples.all_down
                 [Examples.claim_of (lit "The river flooded the town")
                    (lit "river flood") (Some true);
                  Examples.known_claim] 0 Examples.fresh)))
  = []
  /\ ~ knowledge_claims_are_recorded.
Proof.
  split; [reflexivity|].
  intros H.
  destruct (H Examples.all_down
              [Examples.claim_of (lit "The river flooded the town")
                 (lit "river flood") (Some true);
               Examples.known_claim] 0 Examples.fresh Examples.known_claim)
    as (r & Hin & _); [right; now left | reflexivity |].
  vm_compute in Hin. exact Hin.
Qed.

(** C6, amended (knowledge-path isolation).  A claim with
    [needs_external_verification == false] has one record [r], fixed by
    the claim: it says [verified_by_knowledge], carries the claim's
    historical evidence (the empty string when there is none), no
    article and no token.  The turn of the loop for such a claim appends
    [r] without any call, in every state: the world (trace and files)
    and the call counter are what they were, and the ceiling plays no
    part.  In a run of [process_claims], when the loop comes to the
    claim (it has gone through the claims [pre] before it without
    stopping), the output has [r] at the place of the claim, and the run
    through the claim ends in the world and with the counter of the run
    up to it.  When the run has stopped before the claim, the output is
    that of the claims before it: the claim has no record. *)
Theorem C6_knowledge_path_isolation (E : env) (N : nat)
    (pre post : list claim_data) (cd : claim_data) (w : world) :
  cd_needs_external_verification cd = Some false ->
  exists r : claim_result,
    (forall (st : FactCheck.loop_state) (w1 : world),
        FactCheck.loop_body E N cd st w1
        = (FactCheck.Continue,
           {| FactCheck.results := FactCheck.results st ++ [r];
              FactCheck.processed_claims := FactCheck.processed_claims st + 1;
              FactCheck.successful_claims := FactCheck.successful_claims st;
              FactCheck.api_call_count := FactCheck.api_call_count st |},
           w1))
    /\ claim r = cd_claim cd
    /\ needs_external_verification r = false
    /\ verification_result r = Some (lit "verified_by_knowledge")
    /\ historical_evidence r
       = Some match cd_historical_evidence cd with Some h => h | None => [] end
    /\ articles r = []
    /\ total_tokens r = 0
    /\ (forall (st1 : FactCheck.loop_state) (w1 : world),
        turns E N pre FactCheck.initial_state w = Some (st1, w1) ->
        nth_error
          (verified_claims
             (fst (fst (FactCheck.process_claims E (pre ++ cd :: post) N w))))
          (List.length pre) = Some r
        /\ turns E N (pre ++ [cd]) FactCheck.initial_state w
           = Some ({| FactCheck.results := FactCheck.results st1 ++ [r];
                      FactCheck.processed_claims :=
                        FactCheck.processed_claims st1 + 1;
                      FactCheck.successful_claims :=
                        FactCheck.successful_claims st1;
                      FactCheck.api_call_count :=
                        FactCheck.api_call_count st1 |},
                   w1))
    /\ (turns E N pre FactCheck.initial_state w = None ->
        verified_claims
          (fst (fst (FactCheck.process_claims E (pre ++ cd :: post) N w)))
        = verified_claims (fst (fst (FactCheck.process_claims E pre N w)))
        /\ List.length
             (verified_claims (fst (fst (FactCheck.process_claims E pre N w))))
           < List.length pre).
Proof.
  intros Hk.
  exists (FactCheck.set_outcome (FactCheck.base_result cd false) [] 0
            (Some (lit "verified_by_knowledge"))
            (Some match cd_historical_evidence cd with
                  | Some h => h
                  | None => []
                  end)).
  assert (Hbody : forall (st : FactCheck.loop_state) (w1 : world),
             FactCheck.loop_body E N cd st w1
             = (FactCheck.Continue,
                {| FactCheck.results :=
                     FactCheck.results st
                     ++ [FactCheck.set_outcome (FactCheck.base_result cd false)
                           [] 0 (Some (lit "verified_by_knowledge"))
                           (Some match cd_historical_evidence cd with
                                 | Some h => h
                                 | None => []
                                 end)];
                   FactCheck.processed_claims := FactCheck.processed_claims st + 1;
                   FactCheck.successful_claims := FactCheck.successful_claims st;
                   FactCheck.api_call_count := FactCheck.api_call_count st |},
                w1)).
  { intros st w1. unfold FactCheck.loop_body. rewrite Hk. reflexivity. }
  split; [exact Hbody|].
  do 6 (split; [reflexivity|]).
  split.
  - intros st1 w1 Ht. split.
    + exact (@process_claims_turn E N pre post cd w w1 w1 st1 _ _ Ht
               (Hbody st1 w1) eq_refl).
    + rewrite (@turns_app E N pre [cd] _ _ _ _ Ht). cbn [turns].
      now rewrite Hbody.
  - intros Ht.
    destruct (@process_claims_stopped E N pre (cd :: post) w Ht) as [He Hlen].
    rewrite He. auto.
Qed.

Lemma C6_knowledge_path_isolation_witness :
  exists r : claim_result,
    (forall (st : FactCheck.loop_state) (w1 : world),
        FactCheck.loop_body Examples.all_down 0 Examples.known_claim st w1
        = (FactCheck.Continue,
           {| FactCheck.results := FactCheck.results st ++ [r];
              FactCheck.processed_claims := FactCheck.processed_claims st + 1;
              FactCheck.successful_claims := FactCheck.successful_claims st;
              FactCheck.api_call_count := FactCheck.api_call_count st |},
           w1))
    /\ claim r = cd_claim Examples.known_claim
    /\ needs_external_verification r = false
    /\ verification_result r = Some (lit "verified_by_knowledge")
    /\ historical_evidence r
       = Some match cd_historical_evidence Examples.known_claim with
              | Some h => h
              | None => []
              end
    /\ articles r = []
    /\ total_tokens r = 0
    /\ (forall (st1 : FactCheck.loop_state) (w1 : world),
        turns Examples.all_down 0 [Examples.known_claim]
          FactCheck.initial_state Examples.fresh = Some (st1, w1) ->
        nth_error
          (verified_claims
             (fst (fst (FactCheck.process_claims Examples.all_down
                          ([Examples.known_claim]
                           ++ Examples.known_claim :: Examples.two_claims)
                          0 Examples.fresh))))
          (List.length [Examples.known_claim]) = Some r
        /\ turns Examples.all_down 0
             ([Examples.known_claim] ++ [Examples.known_claim])
             FactCheck.initial_state Examples.fresh
           = Some ({| FactCheck.results := FactCheck.results st1 ++ [r];
                      FactCheck.processed_claims :=
                        FactCheck.processed_claims st1 + 1;
                      FactCheck.successful_claims :=
                        FactCheck.successful_claims st1;
                      FactCheck.api_call_count :=
                        FactCheck.api_call_count st1 |},
                   w1))
    /\ (turns Examples.all_down 0 [Examples.known_claim]
          FactCheck.initial_state Examples.fresh = None ->
        verified_claims
          (fst (fst (FactCheck.process_claims Examples.all_down
                       ([Examples.known_claim]
                        ++ Examples.known_claim :: Examples.two_claims)
                       0 Examples.fresh)))
        = verified_claims
            (fst (fst (FactCheck.process_claims Examples.all_down
                         [Examples.known_claim] 0 Examples.fresh)))
        /\ List.length
             (verified_claims
                (fst (fst (FactCheck.process_claims Examples.all_down
                             [Examples.known_claim] 0 Examples.fresh))))
           < List.length [Examples.known_claim]).
Proof.
  exact (@C6_knowledge_path_isolation Examples.all_down 0
           [Examples.known_claim] Examples.two_claims Examples.known_claim
           Examples.fresh eq_refl).
Defined.




(** C8 (provider failover).  In a run of [main4.py], when a search picks
    GNews (it is available and the counter is below the ceiling) and
    GNews answers 429 or 403: the search returns; GNews is unavailable
    afterwards and in every later state of the run; if budget remains
    after the first attempt, NewsAPI is asked in the same search, with
    the same query, and the counter has grown by exactly 2; if the first
    attempt used the last unit, nothing more is asked and the counter has
    grown by 1. *)
Theorem C8_provider_failover (E : env) (fuel : nat) (q : str)
    (g : Main4.globals) (w : world) (status : nat) (arts : list raw_article) :
  Main4.reachable E g ->
  Main4.gnews_available g = true ->
  Main4.api_call_count g < Main4.MAX_API_CALLS ->
  news_api E GNews q (now w) = Response status arts ->
  status = 429 \/ status = 403 ->
  exists hits used g' w',
    Main4.search_single_api (3 + fuel) E q g w = Some (hits, used, g', w')
    /\ Main4.gnews_available g' = false
    /\ (forall g'', Main4.later E g' g'' -> Main4.gnews_available g'' = false)
    /\ (Main4.api_call_count g + 1 < Main4.MAX_API_CALLS ->
        added w w' = [NewsSearch GNews q; NewsSearch NewsAPI q]
        /\ Main4.api_call_count g' = Main4.api_call_count g + 2)
    /\ (Main4.api_call_count g + 1 = Main4.MAX_API_CALLS ->
        added w w' = [NewsSearch GNews q]
        /\ Main4.api_call_count g' = Main4.api_call_count g + 1).
Proof.
  intros Hreach Hg Hc Hresp Hstatus.
  pose proof (reachable_secondary Hreach Hg) as Hn.
  assert (Hq : Main4.quota_or_forbidden status = true)
    by (destruct Hstatus; subst; reflexivity).
  assert (H200 : (status =? 200) = false)
    by (destruct Hstatus; subst; reflexivity).
  assert (Hlater : forall g1, Main4.gnews_available g1 = false ->
            forall g2, Main4.later E g1 g2 -> Main4.gnews_available g2 = false).
  { intros g1 Hg1 g2 Hl. apply later_kept in Hl. now apply Hl. }
  assert (Hadd1 : forall e, added w (log e w) = [e]).
  { intros e. unfold added, now, log. cbn [trace].
    now rewrite skipn_app, skipn_all, Nat.sub_diag. }
  assert (Hadd2 : forall e1 e2, added w (log e2 (log e1 w)) = [e1; e2]).
  { intros e1 e2. unfold added, now, log. cbn [trace]. rewrite <- app_assoc.
    now rewrite skipn_app, skipn_all, Nat.sub_diag. }
  change (3 + fuel) with (S (S (S fuel))).
  cbn [Main4.search_single_api].
  unfold Main4.can_make_api_call at 1.
  apply Nat.ltb_lt in Hc. rewrite Hc. cbn [negb].
  unfold Main4.get_available_api at 1. rewrite Hg, Hresp, H200, Hq.
  cbn [Main4.other_api Main4.available Main4.mark_api_unavailable
       Main4.increment_api_call Main4.newsapi_available Main4.gnews_available
       Main4.api_call_count].
  rewrite Hn. cbn [andb].
  unfold Main4.can_make_api_call at 1. cbn [Main4.api_call_count].
  apply Nat.ltb_lt in Hc.
  destruct (Nat.ltb_spec (Main4.api_call_count g + 1) Main4.MAX_API_CALLS)
    as [Hmore|Hlast].
  - (* budget remains: NewsAPI is asked *)
    unfold Main4.can_make_api_call at 1. cbn [Main4.api_call_count].
    apply Nat.ltb_lt in Hmore. rewrite Hmore. cbn [negb].
    apply Nat.ltb_lt in Hmore.
    unfold Main4.get_available_api at 1.
    cbn [Main4.gnews_available Main4.newsapi_available].
    set (w1 := log (NewsSearch GNews q) w).
    destruct (news_api E NewsAPI q (now w1)) as [s2 a2|].
    + destruct (s2 =? 200).
      { do 4 eexists. split; [reflexivity|]. cbn.
        split; [reflexivity|]. split; [now apply Hlater|].
        split; [intros _; split; [apply Hadd2 | lia] | lia]. }
      destruct (Main4.quota_or_forbidden s2); cbn.
      all: do 4 eexists; (split; [reflexivity|]); cbn;
        (split; [reflexivity|]); (split; [now apply Hlater|]);
        (split; [intros _; split; [apply Hadd2 | lia] | lia]).
    + cbn. do 4 eexists. split; [reflexivity|]. cbn.
      split; [reflexivity|]. split; [now apply Hlater|].
      split; [intros _; split; [apply Hadd2 | lia] | lia].
  - (* the first attempt used the last unit *)
    do 4 eexists. split; [reflexivity|]. cbn.
    split; [reflexivity|]. split; [now apply Hlater|].
    split; [lia | intros _; split; [apply Hadd1 | lia]].
Qed.

Lemma C8_provider_failover_witness :
  exists hits used g' w',
    Main4.search_single_api (3 + 0) Examples.gnews_429 (lit "river flood")
      Main4.reset Examples.fresh
    = Some (hits, used, g', w')
    /\ Main4.gnews_available g' = false
    /\ (forall g'', Main4.later Examples.gnews_429 g' g'' ->
        Main4.gnews_available g'' = false)
    /\ (Main4.api_call_count Main4.reset + 1 < Main4.MAX_API_CALLS ->
        added Examples.fresh w'
        = [NewsSearch GNews (lit "river flood");
           NewsSearch NewsAPI (lit "river flood")]
        /\ Main4.api_call_count g' = Main4.api_call_count Main4.reset + 2)
    /\ (Main4.api_call_count Main4.reset + 1 = Main4.MAX_API_CALLS ->
        added Examples.fresh w' = [NewsSearch GNews (lit "river flood")]
        /\ Main4.api_call_count g' = Main4.api_call_count Main4.reset + 1).
Proof.
  apply (@C8_provider_failover Examples.gnews_429 0 (lit "river flood")
           Main4.reset Examples.fresh 429 []).
  - apply Main4.later_refl.
  - reflexivity.
  - cbn. unfold Main4.MAX_API_CALLS. lia.
  - reflexivity.
  - left. reflexivity.
Defined.

(** C9 (empty evidence).  With an empty article list both classifiers
    return the unverifiable label at once and leave the world as it is:
    no prompt is built and the generative model is not called.  The local
    classifier spells the label [UNVERIFIABLE], the remote one
    [unverifiable]. *)
Theorem C9_empty_evidence (E : env) (claim_text explanation_text : str)
    (w : world) :
  Main5.classify_claim_with_llm E claim_text explanation_text [] w
  = ({| Main5.label := lit "UNVERIFIABLE";
        Main5.llm_response := lit "No articles available for verification.";
        Main5.reasoning := lit "Cannot verify without source articles." |}, w)
  /\ Main6.classify_claim_with_gemini E claim_text explanation_text [] w
     = ({| Main6.label := lit "unverifiable";
           Main6.explanation := lit "No articles available to verify this claim.";
           Main6.full_response := lit "No articles available for comparison.";
           Main6.tokens_used := None |}, w)
  /\ upper (Main6.label
              (fst (Main6.classify_claim_with_gemini E claim_text
                      explanation_text [] w)))
     = lit "UNVERIFIABLE"
  /\ model_calls
       (added w (snd (Main5.classify_claim_with_llm E claim_text
                        explanation_text [] w))) = 0
  /\ model_calls
       (added w (snd (Main6.classify_claim_with_gemini E claim_text
                        explanation_text [] w))) = 0.
Proof.
  cbn [Main5.classify_claim_with_llm Main6.classify_claim_with_gemini fst snd
       Main6.label].
  repeat (split; [reflexivity|]).
  unfold added, now. rewrite skipn_all. split; reflexivity.
Qed.

(** C10, counterexample.  With a ceiling of one call, the first claim
    uses the call (the providers are down); the loop then comes to the
    claim without text and query with the counter at the ceiling and
    stops: the output has the first claim's record only. *)
Lemma C10_counterexample :
  map claim
    (verified_claims
       (fst (fst (FactCheck.process_claims Examples.all_down
                    Examples.claim_then_empty 1 Examples.fresh))))
  = [lit "The river flooded the town"]
  /\ ~ empty_claim_always_recorded.
Proof.
  split; [reflexivity|].
  intros H.
  destruct (H Examples.all_down 0 Examples.empty_claim FactCheck.initial_state
              Examples.fresh) as (r & Hr & _);
    [discriminate | reflexivity | reflexivity |].
  vm_compute in Hr. discriminate Hr.
Qed.

(** C10, amended.  A claim that needs external verification (the flag
    true or absent) and has no text and no query has one record [r],
    without [verification_result] key, article or token.  When the loop
    comes to it with the call counter below the ceiling, it appends [r];
    no search is made and the counter stays (the loop only sleeps).
    When the loop comes to it with the counter at the ceiling, it stops:
    nothing is appended and nothing is called.  So in a run of
    [process_claims] that comes to the claim after the claims [pre]: with
    the counter below the ceiling the output has [r] at the place of the
    claim; with the counter at the ceiling the output is the records of
    [pre], and neither this claim nor a later one has a record. *)
Theorem C10_empty_claim_record (E : env) (N : nat)
    (pre post : list claim_data) (cd : claim_data) (w : world) :
  cd_needs_external_verification cd <> Some false ->
  cd_claim cd = [] ->
  cd_search_query cd = [] ->
  exists r : claim_result,
    (forall (st : FactCheck.loop_state) (w1 : world),
        FactCheck.api_call_count st < N ->
        FactCheck.loop_body E N cd st w1
        = (FactCheck.Continue,
           {| FactCheck.results := FactCheck.results st ++ [r];
              FactCheck.processed_claims := FactCheck.processed_claims st + 1;
              FactCheck.successful_claims := FactCheck.successful_claims st;
              FactCheck.api_call_count := FactCheck.api_call_count st |},
           log (Sleep 1) w1))
    /\ needs_external_verification r = true
    /\ verification_result r = None
    /\ articles r = []
    /\ total_tokens r = 0
    /\ (forall (st : FactCheck.loop_state) (w1 : world),
        N <= FactCheck.api_call_count st ->
        FactCheck.loop_body E N cd st w1
        = (FactCheck.Break,
           {| FactCheck.results := FactCheck.results st;
              FactCheck.processed_claims := FactCheck.processed_claims st + 1;
              FactCheck.successful_claims := FactCheck.successful_claims st;
              FactCheck.api_call_count := FactCheck.api_call_count st |},
           w1))
    /\ (forall (st1 : FactCheck.loop_state) (w1 : world),
        turns E N pre FactCheck.initial_state w = Some (st1, w1) ->
        FactCheck.api_call_count st1 < N ->
        nth_error
          (verified_claims
             (fst (fst (FactCheck.process_claims E (pre ++ cd :: post) N w))))
          (List.length pre) = Some r)
    /\ (forall (st1 : FactCheck.loop_state) (w1 : world),
        turns E N pre FactCheck.initial_state w = Some (st1, w1) ->
        N <= FactCheck.api_call_count st1 ->
        verified_claims
          (fst (fst (FactCheck.process_claims E (pre ++ cd :: post) N w)))
        = FactCheck.results st1
        /\ List.length (FactCheck.results st1) = List.length pre
        /\ snd (FactCheck.process_claims E (pre ++ cd :: post) N w) = w1).
Proof.
  intros Hn Hc Hq.
  assert (Hnev : match cd_needs_external_verification cd with
                 | Some b => b
                 | None => true
                 end = true).
  { destruct (cd_needs_external_verification cd) as [[|]|]; congruence. }
  exists (FactCheck.base_result cd true).
  assert (Hgo : forall (st : FactCheck.loop_state) (w1 : world),
             FactCheck.api_call_count st < N ->
             FactCheck.loop_body E N cd st w1
             = (FactCheck.Continue,
                {| FactCheck.results :=
                     FactCheck.results st ++ [FactCheck.base_result cd true];
                   FactCheck.processed_claims := FactCheck.processed_claims st + 1;
                   FactCheck.successful_claims := FactCheck.successful_claims st;
                   FactCheck.api_call_count := FactCheck.api_call_count st |},
                log (Sleep 1) w1)).
  { intros st w1 Hlt. unfold FactCheck.loop_body. rewrite Hc, Hq, Hnev.
    cbn [negb FactCheck.api_call_count truthy].
    destruct (Nat.leb_spec N (FactCheck.api_call_count st)) as [Hge|_]; [lia|].
    reflexivity. }
  assert (Hstop : forall (st : FactCheck.loop_state) (w1 : world),
             N <= FactCheck.api_call_count st ->
             FactCheck.loop_body E N cd st w1
             = (FactCheck.Break,
                {| FactCheck.results := FactCheck.results st;
                   FactCheck.processed_claims := FactCheck.processed_claims st + 1;
                   FactCheck.successful_claims := FactCheck.successful_claims st;
                   FactCheck.api_call_count := FactCheck.api_call_count st |},
                w1)).
  { intros st w1 Hge. unfold FactCheck.loop_body. rewrite Hnev.
    cbn [negb FactCheck.api_call_count].
    destruct (Nat.leb_spec N (FactCheck.api_call_count st)) as [_|Hlt]; [|lia].
    reflexivity. }
  split; [exact Hgo|]. do 4 (split; [reflexivity|]). split; [exact Hstop|].
  split.
  - intros st1 w1 Ht Hlt.
    exact (@process_claims_turn E N pre post cd w w1 _ st1 _ _ Ht
             (Hgo st1 w1 Hlt) eq_refl).
  - intros st1 w1 Ht Hge.
    destruct (@process_claims_stop E N pre post cd w w1 st1 Ht Hnev Hge)
      as (H1 & H2 & _ & H4).
    auto.
Qed.

Lemma C10_empty_claim_record_witness :
  exists r : claim_result,
    (forall (st : FactCheck.loop_state) (w1 : world),
        FactCheck.api_call_count st < 1 ->
        FactCheck.loop_body Examples.all_down 1 Examples.empty_claim st w1
        = (FactCheck.Continue,
           {| FactCheck.results := FactCheck.results st ++ [r];
              FactCheck.processed_claims := FactCheck.processed_claims st + 1;
              FactCheck.successful_claims := FactCheck.successful_claims st;
              FactCheck.api_call_count := FactCheck.api_call_count st |},
           log (Sleep 1) w1))
    /\ needs_external_verification r = true
    /\ verification_result r = None
    /\ articles r = []
    /\ total_tokens r = 0
    /\ (forall (st : FactCheck.loop_state) (w1 : world),
        1 <= FactCheck.api_call_count st ->
        FactCheck.loop_body Examples.all_down 1 Examples.empty_claim st w1
        = (FactCheck.Break,
           {| FactCheck.results := FactCheck.results st;
              FactCheck.processed_claims := FactCheck.processed_claims st + 1;
              FactCheck.successful_claims := FactCheck.successful_claims st;
              FactCheck.api_call_count := FactCheck.api_call_count st |},
           w1))
    /\ (forall (st1 : FactCheck.loop_state) (w1 : world),
        turns Examples.all_down 1 [Examples.known_claim]
          FactCheck.initial_state Examples.fresh = Some (st1, w1) ->
        FactCheck.api_call_count st1 < 1 ->
        nth_error
          (verified_claims
             (fst (fst (FactCheck.process_claims Examples.all_down
                          ([Examples.known_claim]
                           ++ Examples.empty_claim :: Examples.two_claims)
                          1 Examples.fresh))))
          (List.length [Examples.known_claim]) = Some r)
    /\ (forall (st1 : FactCheck.loop_state) (w1 : world),
        turns Examples.all_down 1 [Examples.known_claim]
          FactCheck.initial_state Examples.fresh = Some (st1, w1) ->
        1 <= FactCheck.api_call_count st1 ->
        verified_claims
          (fst (fst (FactCheck.process_claims Examples.all_down
                       ([Examples.known_claim]
                        ++ Examples.empty_claim :: Examples.two_claims)
                       1 Examples.fresh)))
        = FactCheck.results st1
        /\ List.length (FactCheck.results st1)
           = List.length [Examples.known_claim]
        /\ snd (FactCheck.process_claims Examples.all_down
                  ([Examples.known_claim]
                   ++ Examples.empty_claim :: Examples.two_claims)
                  1 Examples.fresh) = w1).
Proof.
  apply (@C10_empty_claim_record Examples.all_down 1 [Examples.known_claim]
           Examples.two_claims Examples.empty_claim Examples.fresh);
    [discriminate | reflexivity | reflexivity].
Defined.

(* ================================================================== *)
(** * Further properties of the code *)
(* ================================================================== *)



(** A run that returned its output path has left the file behind, so
    running it again on the world it left does nothing. *)
Theorem second_run_does_nothing (E : env) (w w1 : world)
    (input_path output_path : str) (N : nat) :
  FactCheck.run_fact_checking_process E input_path output_path N w
  = (FactCheck.Returned (Some output_path), w1) ->
  FactCheck.run_fact_checking_process E input_path output_path N w1
  = (FactCheck.Returned (Some output_path), w1).
Proof.
  intros Hrun.
  assert (Hex : exists_path w1 output_path = true).
  { unfold FactCheck.run_fact_checking_process in Hrun.
    destruct (exists_path w output_path) eqn:Hw.
    { injection Hrun as <-. exact Hw. }
    destruct (negb (exists_path w input_path)); [discriminate|].
    destruct (files w input_path) as [[ec|vc|[|c cs]|fr|cr| |]|];
      try discriminate.
    destruct (FactCheck.process_claims E (c :: cs) N w) as [[r st] w2].
    unfold FactCheck.save_results_to_file, save_document in Hrun.
    destruct (writable E output_path);
      [|destruct (left_partial E output_path); discriminate].
    destruct (FactCheck.print_results r); [|discriminate].
    injection Hrun as <-. unfold exists_path, write_file. cbn.
    now rewrite eqb_refl. }
  unfold FactCheck.run_fact_checking_process. now rewrite Hex.
Qed.

Lemma second_run_does_nothing_witness :
  FactCheck.run_fact_checking_process Examples.all_down Examples.claims_path
    Examples.output_path 10
    (snd (FactCheck.run_fact_checking_process Examples.all_down
            Examples.claims_path Examples.output_path 10
            Examples.with_known_claim))
  = (FactCheck.Returned (Some Examples.output_path),
     snd (FactCheck.run_fact_checking_process Examples.all_down
            Examples.claims_path Examples.output_path 10
            Examples.with_known_claim)).
Proof.
  apply (@second_run_does_nothing Examples.all_down Examples.with_known_claim
           (snd (FactCheck.run_fact_checking_process Examples.all_down
                   Examples.claims_path Examples.output_path 10
                   Examples.with_known_claim))
           Examples.claims_path Examples.output_path 10).
  reflexivity.
Defined.



(** Two runs that an exception leaves.  A claim without the key
    [evidence] that the analysis sends to the verification: the run is
    left after the analysis, before any search, and saves nothing.  A
    verdict whose [key_findings] is an object: the run is left after one
    search and the verification, while the verdict is printed, and saves
    nothing. *)
Example main4_runs_left_by_an_exception :
  (exists g w,
      Main4.process_claims_with_verification 3 Examples.gnews_429
        Scenarios.with_a_claim_without_evidence = Some (Main4.Crashed, g, w)
      /\ trace w = [LoadModel Main4.LOCAL_MODEL_PATH;
                    Analyse (lit "The dam broke")]
      /\ exists_path w Main4.output_path = false)
  /\ (exists g w,
      Main4.process_claims_with_verification 3 Scenarios.findings_as_object
        Examples.with_extracted_claims = Some (Main4.Crashed, g, w)
      /\ trace w = [LoadModel Main4.LOCAL_MODEL_PATH;
                    Analyse (lit "Claim 1");
                    NewsSearch GNews (lit "Claim 1");
                    Verify (lit "Claim 1")]
      /\ exists_path w Main4.output_path = false).
Proof.
  split; do 2 eexists; (split; [vm_compute; reflexivity|]);
    split; reflexivity.
Qed.

(** Tokens are counted for [content_found] only: in every record of
    every output, [total_tokens] is 0 unless the status is
    [content_found]. *)
Theorem total_tokens_only_with_content (E : env) (json_data : list claim_data)
    (N : nat) (w : world) :
  Forall (fun r => verification_result r <> Some (lit "content_found") ->
                   total_tokens r = 0)
    (verified_claims (fst (fst (FactCheck.process_claims E json_data N w)))).
Proof.
  unfold FactCheck.process_claims.
  destruct (loop_records E N json_data FactCheck.initial_state w)
    as (k & new & _ & Hres & Hall & _).
  destruct (FactCheck.loop E N json_data FactCheck.initial_state w) as [st w'].
  cbn [fst snd verified_claims] in *. rewrite Hres. cbn [FactCheck.results app].
  clear Hres. induction Hall as [|cd r cds rs Hr _ IH]; constructor; [|exact IH].
  apply Hr.
Qed.

(** A run whose output has a record without [verification_result] saves
    its file and then raises: [print_results] indexes that key. *)
Theorem run_raises_after_saving (E : env) (input_path output_path : str)
    (N : nat) (w : world) (json_data : list claim_data) :
  exists_path w output_path = false ->
  files w input_path = Some (ClaimsFile json_data) ->
  json_data <> [] ->
  writable E output_path = true ->
  FactCheck.print_results
    (fst (fst (FactCheck.process_claims E json_data N w))) = false ->
  exists w',
    FactCheck.run_fact_checking_process E input_path output_path N w
    = (FactCheck.Raised, w')
    /\ files w' output_path
       = Some (FactCheckFile
                 (fst (fst (FactCheck.process_claims E json_data N w)))).
Proof.
  intros Hout Hin Hne Hw Hp. unfold FactCheck.run_fact_checking_process.
  rewrite Hout. unfold exists_path at 1. rewrite Hin. cbn [negb].
  destruct json_data as [|c cs]; [congruence|].
  destruct (FactCheck.process_claims E (c :: cs) N w) as [[r st] w1].
  cbn [fst] in Hp. unfold FactCheck.save_results_to_file, save_document.
  rewrite Hw, Hp.
  eexists. split; [reflexivity|]. unfold write_file. cbn [files].
  now rewrite eqb_refl.
Qed.

Lemma run_raises_after_saving_witness :
  exists w',
    FactCheck.run_fact_checking_process Examples.all_down Examples.claims_path
      Examples.output_path 10 Examples.before_a_run
    = (FactCheck.Raised, w')
    /\ files w' Examples.output_path
       = Some (FactCheckFile
                 (fst (fst (FactCheck.process_claims Examples.all_down
                              [Examples.empty_claim] 10 Examples.before_a_run)))).
Proof.
  apply (@run_raises_after_saving Examples.all_down Examples.claims_path
           Examples.output_path 10 Examples.before_a_run [Examples.empty_claim]);
    [reflexivity | reflexivity | discriminate | reflexivity | reflexivity].
Defined.

(* ================================================================== *)
(** * Queries: words, sanitizing, the alternative query *)
(* ================================================================== *)

Lemma is_word_not_space (c : ascii) : is_word c = true -> is_space c = false.
Proof.
  destruct c as [[] [] [] [] [] [] [] []]; vm_compute; intros H;
    first [reflexivity | discriminate H].
Qed.

Lemma drop_while_snoc (f : ascii -> bool) (a : str) (c : ascii) :
  drop_while f (a ++ [c])
  = match drop_while f a with
    | [] => if f c then [] else [c]
    | d => d ++ [c]
    end.
Proof.
  induction a as [|x a IH]; cbn; [reflexivity|].
  destruct (f x); [exact IH | reflexivity].
Qed.

(** [rstrip] read from the left. *)
Lemma rstrip_cons (c : ascii) (t : str) :
  rstrip (c :: t)
  = match rstrip t with
    | [] => if is_space c then [] else [c]
    | _ :: _ => c :: rstrip t
    end.
Proof.
  unfold rstrip. cbn [rev]. rewrite drop_while_snoc.
  destruct (drop_while is_space (rev t)) as [|d ds] eqn:Hd.
  - cbn. now destruct (is_space c).
  - rewrite rev_app_distr. cbn [rev app].
    destruct (rev ds ++ [d]) eqn:Hr; [|reflexivity].
    now apply app_eq_nil in Hr.
Qed.

Lemma rstrip_app_solid (a b : str) :
  Forall (fun c => is_space c = false) a -> rstrip (a ++ b) = a ++ rstrip b.
Proof.
  induction 1 as [|x a Hx _ IH]; [reflexivity|].
  cbn [app]. rewrite rstrip_cons, IH, Hx.
  destruct (a ++ rstrip b) eqn:Hab; reflexivity.
Qed.

Lemma words_from_word_like (t : str) :
  forall cur, Forall (fun c => is_word c = true) cur ->
              Forall word_like (words_from cur t).
Proof.
  induction t as [|c t IH]; intros cur Hcur; cbn [words_from].
  - destruct cur as [|x cur]; constructor; [|constructor].
    split; [intros H; apply (f_equal (@List.length _)) in H;
            rewrite length_rev in H; discriminate H
           | now apply Forall_rev].
  - destruct (is_word c) eqn:Hc; [apply IH; now constructor|].
    destruct cur as [|x cur]; [apply IH; constructor|].
    constructor; [|apply IH; constructor].
    split; [intros H; apply (f_equal (@List.length _)) in H;
            rewrite length_rev in H; discriminate H
           | now apply Forall_rev].
Qed.

Lemma findall_words_word_like (t : str) : Forall word_like (findall_words t).
Proof. apply words_from_word_like. constructor. Qed.

Lemma join_nil_iff (ws : list str) :
  Forall word_like ws -> join (lit " ") ws = [] -> ws = [].
Proof.
  intros H. destruct H as [|w ws [Hw _] Hws]; [reflexivity|].
  cbn [join]. destruct ws; intros Hj; [contradiction|].
  apply app_eq_nil in Hj. destruct Hj as [Hj _]. contradiction.
Qed.

Lemma join_cons (w : str) (ws : list str) :
  join (lit " ") (w :: ws)
  = match ws with [] => w | _ :: _ => w ++ lit " " ++ join (lit " ") ws end.
Proof. reflexivity. Qed.

(** Reading a word: the characters go to the run being read. *)
Lemma words_from_app (w t cur : str) :
  Forall (fun c => is_word c = true) w ->
  words_from cur (w ++ t) = words_from (rev w ++ cur) t.
Proof.
  intros Hw. revert cur. induction Hw as [|x w Hx _ IH]; intros cur;
    [reflexivity|].
  cbn [app words_from]. rewrite Hx, IH. cbn [rev]. now rewrite <- app_assoc.
Qed.

(** Words joined by single spaces are read back as they were. *)
Lemma findall_words_join (ws : list str) :
  Forall word_like ws -> findall_words (join (lit " ") ws) = ws.
Proof.
  unfold findall_words. induction 1 as [|w ws [Hne Hw] Hws IH]; [reflexivity|].
  rewrite join_cons. destruct ws as [|w' ws'].
  - rewrite <- (app_nil_r w), (words_from_app [] [] Hw), !app_nil_r.
    cbn [words_from]. destruct (rev w) eqn:Hr; [|now rewrite <- Hr, rev_involutive].
    apply (f_equal (@rev _)) in Hr. rewrite rev_involutive in Hr. contradiction.
  - rewrite (words_from_app _ [] Hw), app_nil_r.
    change (lit " " ++ join (lit " ") (w' :: ws'))
      with (" "%char :: join (lit " ") (w' :: ws')).
    cbn [words_from]. change (is_word " ") with false. cbv iota.
    destruct (rev w) eqn:Hr.
    + apply (f_equal (@rev _)) in Hr. rewrite rev_involutive in Hr. contradiction.
    + rewrite <- Hr, rev_involutive, IH. reflexivity.
Qed.

Section Sanitize.

(** The first step of [sanitize_search_query]. *)
Let clean (c : ascii) : ascii := if is_word c || is_space c then c else " "%char.

Let squeezed (in_run : bool) (q : str) : str := collapse_ws in_run (map clean q).

Lemma squeezed_word (b : bool) (c : ascii) (q : str) :
  is_word c = true -> squeezed b (c :: q) = c :: squeezed false q.
Proof.
  intros Hc. unfold squeezed, clean. cbn [map collapse_ws].
  rewrite Hc. cbn [orb]. now rewrite (is_word_not_space c Hc).
Qed.

Lemma squeezed_gap (b : bool) (c : ascii) (q : str) :
  is_word c = false ->
  squeezed b (c :: q)
  = if b then squeezed true q else " "%char :: squeezed true q.
Proof.
  intros Hc. unfold squeezed, clean. cbn [map collapse_ws].
  rewrite Hc. cbn [orb]. destruct (is_space c) eqn:Hs; [now rewrite Hs|].
  reflexivity.
Qed.

Lemma lstrip_squeezed (q : str) :
  lstrip (squeezed true q) = squeezed true q
  /\ lstrip (squeezed false q) = squeezed true q.
Proof.
  induction q as [|c q [IH1 IH2]]; [split; reflexivity|].
  destruct (is_word c) eqn:Hc.
  - rewrite !squeezed_word by assumption. unfold lstrip. cbn [drop_while].
    rewrite (is_word_not_space c Hc). split; reflexivity.
  - rewrite !squeezed_gap by assumption. split; [exact IH1|].
    unfold lstrip in *. cbn [drop_while]. exact IH1.
Qed.

Lemma rstrip_squeezed (q : str) :
  rstrip (squeezed true q) = join (lit " ") (words_from [] q)
  /\ forall cur, cur <> [] ->
       rev cur ++ rstrip (squeezed false q)
       = join (lit " ") (words_from cur q).
Proof.
  induction q as [|c q [IHa IHb]].
  - split; [reflexivity|]. intros cur Hcur. cbn. rewrite app_nil_r.
    now destruct cur.
  - destruct (is_word c) eqn:Hc.
    + rewrite !squeezed_word by assumption. cbn [words_from]. rewrite Hc.
      assert (Hr : rstrip (c :: squeezed false q) = c :: rstrip (squeezed false q)).
      { apply (rstrip_app_solid (a := [c])). constructor; [|constructor].
        now apply is_word_not_space. }
      rewrite Hr. split.
      * apply (IHb [c]). discriminate.
      * intros cur _. rewrite <- (IHb (c :: cur)) by discriminate.
        cbn [rev]. now rewrite <- app_assoc.
    + rewrite !squeezed_gap by assumption. cbn [words_from]. rewrite Hc.
      split; [exact IHa|]. intros cur Hcur.
      destruct cur as [|x cur]; [contradiction|].
      rewrite rstrip_cons, IHa. change (is_space " ") with true. cbv iota.
      pose proof (@words_from_word_like q [] (Forall_nil _)) as Hw.
      rewrite join_cons.
      destruct (words_from [] q) as [|w ws] eqn:Hws.
      * cbn. now rewrite app_nil_r.
      * destruct (join (lit " ") (w :: ws)) eqn:Hj; [|reflexivity].
        apply join_nil_iff in Hj; [discriminate | exact Hw].
Qed.

(** Punctuation to spaces, whitespace collapsed, stripped: what is left
    are the words, one space between them. *)
Lemma strip_squeezed (q : str) :
  strip (squeezed false q) = join (lit " ") (findall_words q).
Proof.
  unfold strip. rewrite (proj2 (lstrip_squeezed q)).
  apply (proj1 (rstrip_squeezed q)).
Qed.

Lemma sanitize_search_query_words (q : str) :
  FactCheck.sanitize_search_query q
  = firstn 100 (join (lit " ") (findall_words q)).
Proof.
  unfold FactCheck.sanitize_search_query.
  change (strip (collapse_ws false
            (map (fun c => if is_word c || is_space c then c else " "%char) q)))
    with (strip (squeezed false q)).
  rewrite strip_squeezed.
  destruct (Nat.ltb_spec 100 (len (join (lit " ") (findall_words q))));
    [reflexivity|].
  symmetry. now apply firstn_all2.
Qed.

End Sanitize.

Lemma Forall_firstn (A : Type) (P : A -> Prop) (n : nat) (l : list A) :
  Forall P l -> Forall P (firstn n l).
Proof.
  intros H. revert n. induction H as [|x l Hx _ IH]; intros [|n]; cbn;
    constructor; auto.
Qed.

(** [sanitize_search_query] leaves the words of the query, in their
    order, with one space between them, cut at 100 characters: the result
    has at most 100 characters, each a letter, a digit, an underscore or
    a space. *)
Theorem sanitized_query_is_the_words (q : str) :
  FactCheck.sanitize_search_query q
  = firstn 100 (join (lit " ") (findall_words q))
  /\ len (FactCheck.sanitize_search_query q) <= 100
  /\ Forall (fun c => is_word c = true \/ c = " "%char)
       (FactCheck.sanitize_search_query q).
Proof.
  rewrite sanitize_search_query_words. split; [reflexivity|]. split.
  - unfold len. rewrite length_firstn. lia.
  - apply Forall_firstn.
    pose proof (findall_words_word_like q) as Hw.
    induction Hw as [|w ws [_ Hw] _ IH]; [constructor|].
    rewrite join_cons. destruct ws as [|w' ws'].
    + eapply Forall_impl; [|exact Hw]. now left.
    + apply Forall_app. split; [eapply Forall_impl; [|exact Hw]; now left|].
      constructor; [now right | exact IH].
Qed.

(** The cut comes after the stripping: a query of 99 letters, a space
    and one more letter is cut behind the space. *)
Example sanitized_query_cut_behind_a_space :
  FactCheck.sanitize_search_query (repeat "a"%char 99 ++ lit " b")
  = repeat "a"%char 99 ++ lit " ".
Proof. vm_compute. reflexivity. Qed.

(** The alternative query consists of the first three words of the
    query: with fewer than two words the query is returned as it is
    (punctuation included), otherwise its first three words (or its two
    words) are joined by single spaces. *)
Theorem alternative_query_is_the_first_words (q : str) :
  findall_words (FactCheck.generate_alternative_query q)
  = firstn 3 (findall_words q)
  /\ (List.length (findall_words q) < 2 ->
      FactCheck.generate_alternative_query q = q)
  /\ (2 <= List.length (findall_words q) ->
      FactCheck.generate_alternative_query q
      = join (lit " ") (firstn 3 (findall_words q))).
Proof.
  unfold FactCheck.generate_alternative_query.
  pose proof (findall_words_word_like q) as Hw.
  destruct (Nat.leb_spec 3 (List.length (findall_words q))) as [H3|H3].
  - split; [|split]; [|lia|reflexivity].
    apply findall_words_join. now apply Forall_firstn.
  - destruct (Nat.leb_spec 2 (List.length (findall_words q))) as [H2|H2].
    + assert (Heq : firstn 2 (findall_words q) = firstn 3 (findall_words q))
        by (rewrite !firstn_all2 by lia; reflexivity).
      rewrite Heq. split; [|split]; [|lia|reflexivity].
      apply findall_words_join. now apply Forall_firstn.
    + split; [|split]; [|reflexivity|lia].
      rewrite firstn_all2 by lia. reflexivity.
Qed.

Lemma alternative_query_is_the_first_words_witness :
  findall_words (FactCheck.generate_alternative_query
                   (lit "Flood: river bursts its banks!"))
  = [lit "Flood"; lit "river"; lit "bursts"]
  /\ FactCheck.generate_alternative_query (lit "flood!") = lit "flood!"
  /\ FactCheck.generate_alternative_query
       (lit "Flood: river bursts its banks!")
     = lit "Flood river bursts".
Proof.
  destruct (alternative_query_is_the_first_words
              (lit "Flood: river bursts its banks!")) as (A1 & _ & A3).
  destruct (alternative_query_is_the_first_words (lit "flood!")) as (_ & B2 & _).
  split; [exact A1|].
  split; [exact (B2 ltac:(vm_compute; lia)) | exact (A3 ltac:(vm_compute; lia))].
Defined.

Lemma added_after (w w' : world) (es : list event) :
  trace w' = trace w ++ es -> added w w' = es.
Proof.
  intros H. unfold added, now. rewrite H.
  now rewrite skipn_app, skipn_all, Nat.sub_diag.
Qed.

(** One call of [fetch_news_articles] makes the first [k] of four
    searches, for some [k] from 0 to 4: GNews and NewsAPI with the
    sanitized query, then GNews and NewsAPI with the alternative query;
    the counter grows by [k]. *)
Theorem fetch_news_articles_searches (E : env) (q : str) (c N : nat) (w : world) :
  exists k : nat,
    k <= 4
    /\ added w (snd (FactCheck.fetch_news_articles E q c N w))
       = firstn k
           [ NewsSearch GNews (FactCheck.sanitize_search_query q);
             NewsSearch NewsAPI (FactCheck.sanitize_search_query q);
             NewsSearch GNews (FactCheck.generate_alternative_query q);
             NewsSearch NewsAPI (FactCheck.generate_alternative_query q) ]
    /\ snd (fst (FactCheck.fetch_news_articles E q c N w)) = c + k.
Proof.
  set (sq := FactCheck.sanitize_search_query q).
  set (aq := FactCheck.generate_alternative_query q).
  set (four := [NewsSearch GNews sq; NewsSearch NewsAPI sq;
                NewsSearch GNews aq; NewsSearch NewsAPI aq]).
  assert (Hdone : forall (k : nat) (r : list raw_article) (c' : nat) (w' : world),
            k <= 4 ->
            trace w' = trace w ++ firstn k four ->
            c' = c + k ->
            exists k0, k0 <= 4
              /\ added w (snd (r, c', w')) = firstn k0 four
              /\ snd (fst (r, c', w')) = c + k0).
  { intros k r c' w' Hk Ht ->. exists k. cbn [fst snd].
    rewrite (@added_after w w' _ Ht). auto. }
  destruct (le_lt_dec N c) as [Hge|Hlt].
  { rewrite fetch_news_articles_at_ceiling by assumption.
    apply (Hdone 0); [lia | now rewrite app_nil_r | lia]. }
  assert (Hskip : forall p q' c' w', N <= c' ->
            FactCheck.attempt E p q' c' N w' = (None, c', w')).
  { intros p q' c' w' Hge.
    destruct (attempt_cases E p q' c' N w') as [[_ H]|[Hlt' _]]; [exact H | lia]. }
  unfold FactCheck.fetch_news_articles. fold sq. fold aq.
  (* first stage *)
  destruct (attempt_cases E GNews sq c N w) as [[Hge _]|[_ [r1 ->]]]; [lia|].
  cbv beta iota. set (w1 := log (NewsSearch GNews sq) w).
  assert (Ht1 : trace w1 = trace w ++ firstn 1 four) by reflexivity.
  destruct r1 as [a1|]; [apply (Hdone 1); auto; lia|].
  (* second stage *)
  destruct (attempt_cases E NewsAPI sq (c + 1) N w1) as [[Hge ->]|[_ [r2 ->]]].
  { cbv beta iota.
    destruct (Str.eqb aq sq); cbv beta iota; [apply (Hdone 1); auto; lia|].
    rewrite Hskip by lia. cbv beta iota. rewrite Hskip by lia.
    apply (Hdone 1); auto; lia. }
  cbv beta iota. set (w2 := log (NewsSearch NewsAPI sq) w1).
  assert (Ht2 : trace w2 = trace w ++ firstn 2 four).
  { unfold w2, w1, log. cbn [trace]. now rewrite <- app_assoc. }
  destruct r2 as [a2|]; [apply (Hdone 2); auto; lia|].
  destruct (Str.eqb aq sq); [apply (Hdone 2); auto; lia|].
  (* third stage *)
  destruct (attempt_cases E GNews aq (c + 1 + 1) N w2) as [[Hge ->]|[_ [r3 ->]]].
  { cbv beta iota. rewrite Hskip by lia. apply (Hdone 2); auto; lia. }
  cbv beta iota. set (w3 := log (NewsSearch GNews aq) w2).
  assert (Ht3 : trace w3 = trace w ++ firstn 3 four).
  { unfold w3, log. cbn [trace]. rewrite Ht2. now rewrite <- app_assoc. }
  destruct r3 as [a3|]; [apply (Hdone 3); auto; lia|].
  (* fourth stage *)
  destruct (attempt_cases E NewsAPI aq (c + 1 + 1 + 1) N w3)
    as [[Hge ->]|[_ [r4 ->]]]; [apply (Hdone 3); auto; lia|].
  set (w4 := log (NewsSearch NewsAPI aq) w3).
  assert (Ht4 : trace w4 = trace w ++ firstn 4 four).
  { unfold w4, log. cbn [trace]. rewrite Ht3. now rewrite <- app_assoc. }
  destruct r4 as [a4|]; apply (Hdone 4); auto; lia.
Qed.

(** For a query of two or three words (at most 100 characters once
    sanitized) the alternative query is the sanitized query itself, and
    the alternative stage is skipped: a call makes at most two searches,
    GNews then NewsAPI, both with the sanitized query. *)
Theorem short_query_has_no_alternative (E : env) (q : str) (c N : nat)
    (w : world) :
  2 <= List.length (findall_words q) <= 3 ->
  len (join (lit " ") (findall_words q)) <= 100 ->
  FactCheck.generate_alternative_query q = FactCheck.sanitize_search_query q
  /\ exists k : nat,
       k <= 2
       /\ added w (snd (FactCheck.fetch_news_articles E q c N w))
          = firstn k
              [ NewsSearch GNews (FactCheck.sanitize_search_query q);
                NewsSearch NewsAPI (FactCheck.sanitize_search_query q) ].
Proof.
  intros [H2 H3] Hlen.
  assert (Hsame : FactCheck.generate_alternative_query q
                  = FactCheck.sanitize_search_query q).
  { rewrite sanitize_search_query_words, firstn_all2 by exact Hlen.
    unfold FactCheck.generate_alternative_query.
    destruct (Nat.leb_spec 3 (List.length (findall_words q)));
      [now rewrite firstn_all2 by lia|].
    destruct (Nat.leb_spec 2 (List.length (findall_words q))); [|lia].
    now rewrite firstn_all2 by lia. }
  split; [exact Hsame|].
  unfold FactCheck.fetch_news_articles. rewrite Hsame, eqb_refl.
  set (sq := FactCheck.sanitize_search_query q).
  destruct (attempt_cases E GNews sq c N w) as [[Hge ->]|[_ [r1 ->]]];
    cbv beta iota.
  - destruct (attempt_cases E NewsAPI sq c N w) as [[_ ->]|[Hlt _]]; [|lia].
    exists 0. split; [lia|]. apply added_after. now rewrite app_nil_r.
  - set (w1 := log (NewsSearch GNews sq) w).
    destruct r1 as [a1|]; [exists 1; split; [lia | now apply added_after]|].
    destruct (attempt_cases E NewsAPI sq (c + 1) N w1) as [[_ ->]|[_ [r2 ->]]];
      cbv beta iota.
    + exists 1. split; [lia | now apply added_after].
    + exists 2. split; [lia|].
      destruct r2; cbn [snd]; apply added_after; unfold w1, log; cbn [trace];
        now rewrite <- app_assoc.
Qed.

Lemma short_query_has_no_alternative_witness :
  FactCheck.generate_alternative_query (lit "river flood? now")
  = FactCheck.sanitize_search_query (lit "river flood? now")
  /\ exists k : nat,
       k <= 2
       /\ added Examples.fresh
            (snd (FactCheck.fetch_news_articles Examples.all_down
                    (lit "river flood? now") 0 10 Examples.fresh))
          = firstn k
              [ NewsSearch GNews
                  (FactCheck.sanitize_search_query (lit "river flood? now"));
                NewsSearch NewsAPI
                  (FactCheck.sanitize_search_query (lit "river flood? now")) ].
Proof.
  apply (@short_query_has_no_alternative Examples.all_down
           (lit "river flood? now") 0 10 Examples.fresh).
  - vm_compute. lia.
  - apply Nat.leb_le. vm_compute. reflexivity.
Defined.

(* ================================================================== *)
(** * fact_check.py: what a run leaves in its records and its trace *)
(* ================================================================== *)

Lemma count_events_log (f : event -> bool) (e : event) (w : world) :
  count_events f (trace (log e w))
  = count_events f (trace w) + (if f e then 1 else 0).
Proof.
  unfold count_events, log. cbn [trace]. rewrite filter_app, length_app.
  cbn. now destruct (f e).
Qed.

Lemma pages_requested_log (e : event) (w : world) :
  pages_requested (trace (log e w))
  = pages_requested (trace w)
    ++ match e with ArticleGet u => [u] | _ => [] end.
Proof.
  unfold pages_requested, log. cbn [trace]. rewrite flat_map_app.
  cbn [flat_map]. now rewrite app_nil_r.
Qed.

Section Tally.

Variable E : env.

Import FactCheck.

(** Searching adds searches only. *)
Lemma attempt_adds_searches (f : event -> bool) (p : provider) (q : str)
    (c N : nat) (w : world) :
  (forall p' q', f (NewsSearch p' q') = false) ->
  count_events f (trace (snd (attempt E p q c N w))) = count_events f (trace w)
  /\ pages_requested (trace (snd (attempt E p q c N w)))
     = pages_requested (trace w)
  /\ files (snd (attempt E p q c N w)) = files w.
Proof.
  intros Hf.
  destruct (attempt_cases E p q c N w) as [[_ ->]|[_ [r ->]]]; cbn [snd];
    [repeat split; reflexivity|].
  rewrite count_events_log, pages_requested_log, Hf, app_nil_r.
  split; [lia | split; reflexivity].
Qed.

Lemma fetch_news_articles_adds_searches (f : event -> bool) (q : str)
    (c N : nat) (w : world) :
  (forall p' q', f (NewsSearch p' q') = false) ->
  count_events f (trace (snd (fetch_news_articles E q c N w)))
  = count_events f (trace w)
  /\ pages_requested (trace (snd (fetch_news_articles E q c N w)))
     = pages_requested (trace w)
  /\ files (snd (fetch_news_articles E q c N w)) = files w.
Proof.
  intros Hf. unfold fetch_news_articles.
  set (sq := sanitize_search_query q). set (aq := generate_alternative_query q).
  pose proof (attempt_adds_searches f GNews sq c N w Hf) as (H1 & P1 & F1).
  destruct (attempt E GNews sq c N w) as [[[a1|] c1] w1]; cbn [snd] in *;
    [repeat split; assumption|].
  pose proof (attempt_adds_searches f NewsAPI sq c1 N w1 Hf) as (H2 & P2 & F2).
  destruct (attempt E NewsAPI sq c1 N w1) as [[[a2|] c2] w2]; cbn [snd] in *;
    [repeat split; congruence|].
  destruct (Str.eqb aq sq); cbn [snd]; [repeat split; congruence|].
  pose proof (attempt_adds_searches f GNews aq c2 N w2 Hf) as (H3 & P3 & F3).
  destruct (attempt E GNews aq c2 N w2) as [[[a3|] c3] w3]; cbn [snd] in *;
    [repeat split; congruence|].
  pose proof (attempt_adds_searches f NewsAPI aq c3 N w3 Hf) as (H4 & P4 & F4).
  destruct (attempt E NewsAPI aq c3 N w3) as [[[a4|] c4] w4]; cbn [snd] in *;
    repeat split; congruence.
Qed.

(** One article gathered: one consistent article appended, its tokens
    added, its page requested unless the domain is blocked. *)
Lemma gather_one (found : list article) (total : nat) (w : world)
    (a : raw_article) :
  exists (d : article) (w' : world),
    gather E (found, total, w) a = (found ++ [d], total + content_tokens d, w')
    /\ consistent_article d
    /\ url d = ra_url a
    /\ count_events is_sleep (trace w') = count_events is_sleep (trace w)
    /\ pages_requested (trace w')
       = pages_requested (trace w)
         ++ (if is_domain_blocked E (ra_url a) then [] else [ra_url a])
    /\ files w' = files w.
Proof.
  unfold gather, fetch_full_article_content.
  destruct (is_domain_blocked E (ra_url a)).
  - eexists (Build_article _ _ _ _ _ _ _), _. cbn [truthy_opt content_tokens].
    split; [rewrite Nat.add_0_r; reflexivity|]. cbn [content url].
    rewrite app_nil_r. repeat split; auto; discriminate.
  - destruct (article_page E (ra_url a) (now w)) as [[|x t]|];
      cbn [truthy truthy_opt];
      eexists (Build_article _ _ _ _ _ _ _), _; cbn [content_tokens];
      (split; [first [reflexivity | rewrite Nat.add_0_r; reflexivity]|]);
      cbn [content url];
      rewrite !count_events_log, !pages_requested_log; cbn [is_sleep log files];
      repeat split; auto; try discriminate; lia.
Qed.

Lemma gather_all (arts : list raw_article) :
  forall (found : list article) (total : nat) (w : world),
  exists (ds : list article) (w' : world),
    fold_left (gather E) arts (found, total, w)
    = (found ++ ds, total + list_sum (map content_tokens ds), w')
    /\ Forall consistent_article ds
    /\ map url ds = map ra_url arts
    /\ count_events is_sleep (trace w') = count_events is_sleep (trace w)
    /\ pages_requested (trace w')
       = pages_requested (trace w)
         ++ filter (fun u => negb (is_domain_blocked E u)) (map ra_url arts)
    /\ files w' = files w.
Proof.
  induction arts as [|a arts IH]; intros found total w; cbn [fold_left].
  - exists [], w. cbn. rewrite !app_nil_r, !Nat.add_0_r. repeat split; auto.
  - destruct (gather_one found total w a) as (d & w1 & -> & Hd & Hu & S1 & P1 & F1).
    destruct (IH (found ++ [d]) (total + content_tokens d) w1)
      as (ds & w2 & -> & Hds & Hus & S2 & P2 & F2).
    exists (d :: ds), w2. cbn [map filter].
    split.
    { rewrite <- app_assoc. do 2 f_equal.
      change (list_sum (content_tokens d :: map content_tokens ds))
        with (content_tokens d + list_sum (map content_tokens ds)). lia. }
    split; [now constructor|]. split; [now rewrite Hu, Hus|].
    split; [congruence|]. split; [|congruence].
    rewrite P2, P1, <- app_assoc.
    destruct (is_domain_blocked E (ra_url a)); reflexivity.
Qed.

(** One turn of the loop and its tally. *)
Lemma loop_body_tally (N : nat) (cd : claim_data) (st : loop_state) (w : world) :
  exists new,
    results (snd (fst (loop_body E N cd st w))) = results st ++ new
    /\ tally E w (snd (loop_body E N cd st w)) new.
Proof.
  unfold loop_body.
  destruct (match cd_needs_external_verification cd with
            | Some b => b
            | None => true
            end) eqn:Hn; cbn [negb].
  2:{ eexists [_]. split; [reflexivity|]. unfold tally, sound_record, pages_of.
      cbn. rewrite !Nat.add_0_r, !app_nil_r. repeat split; auto. }
  cbn [api_call_count]. destruct (N <=? api_call_count st).
  { exists []. cbn. rewrite !app_nil_r. unfold tally. cbn.
    rewrite !Nat.add_0_r, !app_nil_r. repeat split; auto. }
  set (sq := if negb (truthy (cd_search_query cd)) then cd_claim cd
             else cd_search_query cd).
  destruct (truthy sq).
  2:{ eexists [_]. split; [reflexivity|]. unfold tally, sound_record, pages_of.
      cbn [snd]. rewrite !count_events_log, !pages_requested_log. cbn.
      rewrite !app_nil_r. repeat split; auto; try lia; discriminate. }
  pose proof (fetch_news_articles_adds_searches is_sleep sq (api_call_count st) N w
                (fun _ _ => eq_refl)) as (S1 & P1 & F1).
  destruct (fetch_news_articles E sq (api_call_count st) N w)
    as [[arts calls] w1]. cbn [snd] in S1, P1, F1.
  destruct arts as [|a arts].
  { eexists [_]. split; [reflexivity|]. unfold tally, sound_record, pages_of.
    cbn [snd]. rewrite !count_events_log, !pages_requested_log. cbn.
    rewrite !app_nil_r. repeat split; auto; try lia; try discriminate. }
  destruct (gather_all (a :: arts) [] 0 w1)
    as (ds & w2 & Hg & Hds & Hus & S2 & P2 & F2).
  rewrite Hg. cbn [app Nat.add].
  eexists [_]. split; [reflexivity|]. unfold tally, sound_record, pages_of.
  cbn [snd]. rewrite !count_events_log, !pages_requested_log.
  cbn [is_sleep log files map flat_map filter List.length
       needs_external_verification articles total_tokens set_outcome
       base_result].
  rewrite !app_nil_r, Hus, P2, P1.
  split; [lia|]. split; [reflexivity|]. split; [|congruence].
  constructor; [|constructor]. cbn. repeat split; auto. discriminate.
Qed.

Lemma tally_app (w1 w2 w3 : world) (a b : list claim_result) :
  tally E w1 w2 a -> tally E w2 w3 b -> tally E w1 w3 (a ++ b).
Proof.
  intros (A1 & A2 & A3 & A4) (B1 & B2 & B3 & B4). unfold tally.
  rewrite filter_app, flat_map_app, length_app.
  split; [lia|]. split; [now rewrite B2, A2, <- app_assoc|].
  split; [now apply Forall_app | congruence].
Qed.

Lemma loop_tally (N : nat) (json_data : list claim_data) :
  forall (st : loop_state) (w : world),
  exists new,
    results (fst (loop E N json_data st w)) = results st ++ new
    /\ tally E w (snd (loop E N json_data st w)) new.
Proof.
  induction json_data as [|cd rest IH]; intros st w; cbn [loop].
  - exists []. cbn. rewrite app_nil_r. unfold tally. cbn.
    rewrite !Nat.add_0_r, !app_nil_r. repeat split; auto.
  - destruct (loop_body_tally N cd st w) as (new1 & R1 & T1).
    destruct (loop_body E N cd st w) as [[[|] st1] w1]; cbn [fst snd] in *.
    + destruct (IH st1 w1) as (new2 & R2 & T2).
      exists (new1 ++ new2). split; [now rewrite R2, R1, app_assoc|].
      eapply tally_app; eassumption.
    + exists new1. split; assumption.
Qed.

End Tally.

(** In every record of every output of [process_claims], [total_tokens]
    is the sum of the [content_tokens] of its articles; an article
    without content has no tokens, and no article has the empty string
    as content; a record of a claim that needed no external verification
    has no articles. *)
Theorem records_are_sound (E : env) (json_data : list claim_data) (N : nat)
    (w : world) :
  Forall sound_record
    (verified_claims (fst (fst (FactCheck.process_claims E json_data N w)))).
Proof.
  unfold FactCheck.process_claims.
  destruct (loop_tally E N json_data FactCheck.initial_state w)
    as (new & Hres & _ & _ & Hall & _).
  destruct (FactCheck.loop E N json_data FactCheck.initial_state w) as [st w'].
  cbn [fst snd verified_claims] in *. now rewrite Hres.
Qed.

(** What a run of [process_claims] does besides searching, read off its
    output: it pauses once for every record of a claim that needed
    external verification; and the pages it requests are, address by
    address and in this order, the pages of the recorded articles that
    are not on a blocked domain, one request for each, and no other
    page. *)
Theorem pauses_and_page_requests (E : env) (json_data : list claim_data)
    (N : nat) (w : world) :
  count_events is_sleep
    (trace (snd (FactCheck.process_claims E json_data N w)))
  = count_events is_sleep (trace w)
    + List.length
        (filter needs_external_verification
           (verified_claims
              (fst (fst (FactCheck.process_claims E json_data N w)))))
  /\ pages_requested
       (trace (snd (FactCheck.process_claims E json_data N w)))
     = pages_requested (trace w)
       ++ flat_map (pages_of E)
            (verified_claims
               (fst (fst (FactCheck.process_claims E json_data N w)))).
Proof.
  unfold FactCheck.process_claims.
  destruct (loop_tally E N json_data FactCheck.initial_state w)
    as (new & Hres & Hs & Hp & _ & _).
  destruct (FactCheck.loop E N json_data FactCheck.initial_state w) as [st w'].
  cbn [fst snd verified_claims] in *. rewrite Hres. cbn [FactCheck.results app].
  split; assumption.
Qed.

(** The files and the searches of one run of the driver. *)
Lemma run_fact_checking_process_frame (E : env) (input_path output_path : str)
    (N : nat) (w : world) :
  (forall p, Str.eqb p output_path = false ->
     files (snd (FactCheck.run_fact_checking_process E input_path output_path N w)) p
     = files w p)
  /\ (fst (FactCheck.run_fact_checking_process E input_path output_path N w)
      = FactCheck.Returned None ->
      files (snd (FactCheck.run_fact_checking_process E input_path output_path N w))
      = files w
      \/ (left_partial E output_path = true
          /\ files (snd (FactCheck.run_fact_checking_process E input_path
                           output_path N w)) output_path
             = Some InvalidJson))
  /\ (forall p,
        fst (FactCheck.run_fact_checking_process E input_path output_path N w)
        = FactCheck.Returned (Some p) ->
        p = output_path
        /\ exists_path
             (snd (FactCheck.run_fact_checking_process E input_path output_path N w))
             output_path = true)
  /\ (fst (FactCheck.run_fact_checking_process E input_path output_path N w)
      = FactCheck.Raised ->
      exists_path
        (snd (FactCheck.run_fact_checking_process E input_path output_path N w))
        output_path = true)
  /\ search_calls
       (trace (snd (FactCheck.run_fact_checking_process E input_path output_path
                      N w)))
     <= search_calls (trace w) + N.
Proof.
  unfold FactCheck.run_fact_checking_process.
  destruct (exists_path w output_path) eqn:Hout.
  { cbn [fst snd]. repeat split; auto; try discriminate; try lia; congruence. }
  destruct (negb (exists_path w input_path)).
  { cbn [fst snd]. repeat split; auto; try discriminate; lia. }
  destruct (files w input_path) as [[ec|vc|[|c cs]|fr|cr| |]|];
    try (cbn [fst snd]; repeat split; auto; try discriminate; lia).
  unfold FactCheck.process_claims.
  destruct (loop_tally E N (c :: cs) FactCheck.initial_state w)
    as (new & _ & Htally).
  assert (Hf : files (snd (FactCheck.loop E N (c :: cs) FactCheck.initial_state w))
               = files w) by apply Htally.
  clear Htally.
  pose proof (loop_budget E N (c :: cs) FactCheck.initial_state w)
    as (_ & Hcount & Hceil & _).
  destruct (FactCheck.loop E N (c :: cs) FactCheck.initial_state w) as [st w1].
  cbn [fst snd FactCheck.api_call_count FactCheck.initial_state] in Hf, Hcount, Hceil.
  assert (Hs : search_calls (trace w1) <= search_calls (trace w) + N).
  { pose proof (Hceil (Nat.le_0_l N)). lia. }
  unfold FactCheck.save_results_to_file, save_document.
  destruct (writable E output_path).
  2:{ destruct (left_partial E output_path); cbn [fst snd].
      - split.
        { intros p Hp. unfold write_file. cbn [files]. now rewrite Hp, Hf. }
        split.
        { intros _. right. split; [reflexivity|]. unfold write_file.
          cbn [files]. now rewrite eqb_refl. }
        split; [intros p Hp; discriminate Hp|]. split; [discriminate|].
        unfold write_file. cbn [trace]. rewrite search_calls_app.
        unfold search_calls at 2. cbn. lia.
      - repeat split; auto; try discriminate.
        intros p _. now rewrite Hf. }
  assert (Hw : forall r p, Str.eqb p output_path = false ->
                 files (write_file output_path (FactCheckFile r) w1) p
                 = files w p).
  { intros r p Hp. unfold write_file. cbn [files]. now rewrite Hp, Hf. }
  assert (He : forall r,
             exists_path (write_file output_path (FactCheckFile r) w1)
               output_path = true).
  { intros r. unfold exists_path, write_file. cbn [files].
    now rewrite eqb_refl. }
  assert (Hs' : forall r,
             search_calls (trace (write_file output_path (FactCheckFile r) w1))
             <= search_calls (trace w) + N).
  { intros r. unfold write_file. cbn [trace]. rewrite search_calls_app.
    unfold search_calls at 2. cbn. lia. }
  destruct (FactCheck.print_results _); cbn [fst snd].
  - split; [apply Hw|]. split; [discriminate|].
    split; [|split; [discriminate | apply Hs']].
    intros p Hp. injection Hp as <-. split; [reflexivity | apply He].
  - split; [apply Hw|]. split; [discriminate|].
    split; [intros p Hp; discriminate Hp|].
    split; [intros _; apply He | apply Hs'].
Qed.


(** A save that fails with the file opened: the run returns [None] and
    leaves at the results path a document that is no JSON; the next run
    finds a file there and returns its path at once. *)
Example failed_save_leaves_a_document :
  fst (FactCheck.run_fact_checking_process Scenarios.disk_full
         Examples.claims_path Examples.output_path 10 Examples.with_known_claim)
  = FactCheck.Returned None
  /\ files (snd (FactCheck.run_fact_checking_process Scenarios.disk_full
                   Examples.claims_path Examples.output_path 10
                   Examples.with_known_claim)) Examples.output_path
     = Some InvalidJson
  /\ fst (FactCheck.run_fact_checking_process Scenarios.disk_full
            Examples.claims_path Examples.output_path 10
            (snd (FactCheck.run_fact_checking_process Scenarios.disk_full
                    Examples.claims_path Examples.output_path 10
                    Examples.with_known_claim)))
     = FactCheck.Returned (Some Examples.output_path).
Proof. repeat split; vm_compute; reflexivity. Qed.

(* ================================================================== *)
(** * main4.py: the analysis as validated, the articles of the prompt *)
(* ================================================================== *)

Lemma fields_from_app (w t cur : str) :
  Forall (fun c => is_space c = false) w ->
  fields_from cur (w ++ t) = fields_from (rev w ++ cur) t.
Proof.
  intros Hw. revert cur. induction Hw as [|x w Hx _ IH]; intros cur;
    [reflexivity|].
  cbn [app fields_from]. rewrite Hx, IH. cbn [rev]. now rewrite <- app_assoc.
Qed.

Lemma word_like_solid (w : str) :
  word_like w -> Forall (fun c => is_space c = false) w.
Proof.
  intros [_ Hw]. induction Hw; constructor; auto using is_word_not_space.
Qed.

(** Words joined by single spaces are split into the same words. *)
Lemma split_ws_join (ws : list str) :
  Forall word_like ws -> split_ws (join (lit " ") ws) = ws.
Proof.
  unfold split_ws. induction 1 as [|w ws Hw Hws IH]; [reflexivity|].
  pose proof (word_like_solid Hw) as Hs. destruct Hw as [Hne _].
  rewrite join_cons. destruct ws as [|w' ws'].
  - rewrite <- (app_nil_r w), (fields_from_app [] [] Hs), !app_nil_r.
    cbn [fields_from]. destruct (rev w) eqn:Hr; [|now rewrite <- Hr, rev_involutive].
    apply (f_equal (@rev _)) in Hr. rewrite rev_involutive in Hr. contradiction.
  - rewrite (fields_from_app _ [] Hs), app_nil_r.
    change (lit " " ++ join (lit " ") (w' :: ws'))
      with (" "%char :: join (lit " ") (w' :: ws')).
    cbn [fields_from]. change (is_space " ") with true. cbv iota.
    destruct (rev w) eqn:Hr.
    + apply (f_equal (@rev _)) in Hr. rewrite rev_involutive in Hr. contradiction.
    + rewrite <- Hr, rev_involutive, IH. reflexivity.
Qed.

Lemma join_chars (ws : list str) :
  Forall word_like ws ->
  Forall (fun c => is_word c = true \/ c = " "%char) (join (lit " ") ws).
Proof.
  induction 1 as [|w ws [_ Hw] Hws IH]; [constructor|].
  assert (Hw' : Forall (fun c => is_word c = true \/ c = " "%char) w).
  { eapply Forall_impl; [|exact Hw]. auto. }
  rewrite join_cons. destruct ws; [exact Hw'|].
  apply Forall_app. split; [exact Hw'|]. constructor; [now right | exact IH].
Qed.

Lemma no_question_mark (q : str) :
  Forall (fun c => is_word c = true \/ c = " "%char) q ->
  contains (lit "?") q = false.
Proof.
  induction 1 as [|c q Hc _ IH]; [reflexivity|].
  cbn [contains]. rewrite IH, orb_false_r.
  cbn [lit list_ascii_of_string starts_with]. rewrite andb_true_r.
  destruct (Ascii.eqb_spec "?" c) as [<-|]; [|reflexivity].
  destruct Hc as [Hc|Hc]; discriminate Hc.
Qed.

Lemma keywords_word_like (t : str) : Forall word_like (Main4.keywords t).
Proof.
  unfold Main4.keywords. apply Forall_forall. intros w Hw.
  apply filter_In in Hw. destruct Hw as [Hw _].
  pose proof (findall_words_word_like t) as H.
  rewrite Forall_forall in H. now apply H.
Qed.

Lemma eqb_eq (a b : str) : Str.eqb a b = true -> a = b.
Proof.
  revert b. induction a as [|x a IH]; intros [|y b]; cbn; try discriminate;
    [reflexivity|].
  intros H. apply andb_true_iff in H. destruct H as [Hx Hab].
  apply Ascii.eqb_eq in Hx. now rewrite Hx, (IH b Hab).
Qed.

Lemma contains_longer (p s t : str) :
  contains (p ++ s) t = true -> contains p t = true.
Proof.
  rewrite !contains_spec. intros [a [b ->]]. exists a, (s ++ b).
  now rewrite <- !app_assoc.
Qed.

Ltac replaced :=
  match goal with
  | |- Some ?x = Some ?q -> _ =>
      let H := fresh in
      let H' := fresh in
      intros H; assert (H' : x = q) by congruence; clear H; subst q
  end.

(** What [validate_analysis] settles.  Validating twice is validating
    once; a search query that is there after it has no question mark and
    at most five words when it was replaced, at most eight otherwise; a
    severity [critical] survives only with an indicator word in the
    claim; and the answer to [needs_verification] is never touched. *)
Theorem validate_analysis_settles (a : analysis) (claim : str) :
  Main4.validate_analysis (Main4.validate_analysis a claim) claim
  = Main4.validate_analysis a claim
  /\ (forall q,
        an_search_query (Main4.validate_analysis a claim) = Some q ->
        contains (lit "?") q = false
        /\ List.length (split_ws q) <= 8
        /\ (an_search_query a <> Some q -> List.length (split_ws q) <= 5))
  /\ (an_severity (Main4.validate_analysis a claim) = Some (lit "critical") ->
      existsb (fun indicator => contains indicator (lower claim))
        Main4.critical_indicators = true)
  /\ an_needs_verification (Main4.validate_analysis a claim)
     = an_needs_verification a.
Proof.
  assert (Hnew : contains (lit "?")
                   (join (lit " ") (firstn 5 (Main4.keywords (lower claim))))
                 = false
                 /\ List.length
                      (split_ws
                         (join (lit " ")
                            (firstn 5 (Main4.keywords (lower claim))))) <= 5).
  { pose proof (Forall_firstn 5 (keywords_word_like (lower claim))) as Hk.
    split; [apply no_question_mark, join_chars, Hk|].
    rewrite (split_ws_join Hk), length_firstn. lia. }
  destruct Hnew as [Hq Hn].
  assert (Hquery : forall q,
            an_search_query (Main4.validate_analysis a claim) = Some q ->
            contains (lit "?") q = false
            /\ List.length (split_ws q) <= 8
            /\ (an_search_query a <> Some q -> List.length (split_ws q) <= 5)).
  { intros q. unfold Main4.validate_analysis. cbn [an_search_query].
    destruct (contains (lit "?") match an_search_query a with
                                 | Some q0 => q0
                                 | None => []
                                 end) eqn:Hc; cbn [orb].
    - replaced. split; [exact Hq|]. split; [lia|]. intros _. exact Hn.
    - destruct (Nat.ltb_spec 8
                  (List.length
                     (split_ws match an_search_query a with
                               | Some q0 => q0
                               | None => []
                               end))) as [Hl|Hl].
      + replaced. split; [exact Hq|]. split; [lia|]. intros _. exact Hn.
      + intros Hs. rewrite Hs in Hc, Hl. split; [exact Hc|].
        split; [exact Hl|]. intros Hne. now elim Hne. }
  assert (Hsev : an_severity (Main4.validate_analysis a claim)
                 = Some (lit "critical") ->
                 existsb (fun indicator => contains indicator (lower claim))
                   Main4.critical_indicators = true).
  { unfold Main4.validate_analysis. cbn [an_severity].
    destruct (Main4.opt_eqb (an_severity a) (lit "critical")) eqn:Hc.
    - destruct (existsb _ Main4.critical_indicators); cbn [negb];
        [reflexivity | discriminate].
    - intros Hs. rewrite Hs in Hc. cbn [Main4.opt_eqb] in Hc.
      now rewrite eqb_refl in Hc. }
  split; [|split; [exact Hquery|split; [exact Hsev | reflexivity]]].
  remember (Main4.validate_analysis a claim) as a' eqn:Ha'.
  unfold Main4.validate_analysis at 1.
  assert (Hs' : (if Main4.opt_eqb (an_severity a') (lit "critical")
                 then if negb (existsb (fun indicator =>
                                          contains indicator (lower claim))
                                 Main4.critical_indicators)
                      then Some (lit "high") else an_severity a'
                 else an_severity a') = an_severity a').
  { destruct (Main4.opt_eqb (an_severity a') (lit "critical")) eqn:Hc;
      [|reflexivity].
    destruct (an_severity a') as [s|] eqn:Hs; [|discriminate Hc].
    cbn [Main4.opt_eqb] in Hc. apply eqb_eq in Hc. subst s.
    now rewrite (Hsev eq_refl). }
  assert (Hq' : (if contains (lit "?") match an_search_query a' with
                                       | Some q => q
                                       | None => []
                                       end
                    || (8 <? List.length
                               (split_ws match an_search_query a' with
                                         | Some q => q
                                         | None => []
                                         end))
                 then Some (join (lit " ")
                              (firstn 5 (Main4.keywords (lower claim))))
                 else an_search_query a') = an_search_query a').
  { destruct (an_search_query a') as [q|] eqn:Hs.
    - destruct (Hquery q eq_refl) as (H1 & H2 & _). rewrite H1. cbn [orb].
      destruct (Nat.ltb_spec 8 (List.length (split_ws q))); [lia | reflexivity].
    - reflexivity. }
  rewrite Hs', Hq'. rewrite Ha' at 2 3 4 5 6.
  unfold Main4.validate_analysis. cbn [an_needs_verification an_reasoning
    an_category an_severity an_search_query].
  rewrite Ha'. unfold Main4.validate_analysis.
  cbn [an_needs_verification an_reasoning an_category an_severity
       an_search_query].
  f_equal.
  repeat match goal with
         | |- context [if ?b then _ else _] => destruct b; try reflexivity
         end.
Qed.

(** The [air force] test of the military rule never decides: a claim
    that mentions the air force mentions [air], and the first rule makes
    its category [safety]. *)
Theorem air_force_claims_are_safety (a : analysis) (claim : str) :
  contains (lit "air force") (lower claim) = true ->
  an_category (Main4.validate_analysis a claim) = Some (lit "safety").
Proof.
  intros H. unfold Main4.validate_analysis. cbn [an_category].
  change (lit "air force") with (lit "air" ++ lit " force") in H.
  rewrite (contains_longer _ _ _ H). now rewrite !orb_true_r.
Qed.

Lemma air_force_claims_are_safety_witness :
  an_category
    (Main4.validate_analysis
       {| an_needs_verification := Some (lit "yes");
          an_severity := Some (lit "high");
          an_search_query := Some (lit "air force squadron");
          an_category := Some (lit "military");
          an_reasoning := None |}
       (lit "The Indian Air Force inducted a new fighter squadron"))
  = Some (lit "safety").
Proof.
  apply (@air_force_claims_are_safety _
           (lit "The Indian Air Force inducted a new fighter squadron")).
  vm_compute. reflexivity.
Defined.

Lemma truncate_articles_from_whole (articles : list Main4.hit) (max_tokens : Z) :
  forall (i : nat) (acc : str),
  exists k,
    k <= List.length articles
    /\ Main4.truncate_articles_from i articles max_tokens acc
       = acc ++ List.concat (firstn k (blocks_from i articles))
    /\ (k = 0
        \/ (Z.of_nat
              (len (Main4.truncate_articles_from i articles max_tokens acc))
            <= max_tokens * 4)%Z)
    /\ (k < List.length articles ->
        (max_tokens * 4
         < Z.of_nat
             (len (acc ++ List.concat (firstn (S k) (blocks_from i articles)))))%Z).
Proof.
  induction articles as [|a rest IH]; intros i acc;
    cbn [Main4.truncate_articles_from blocks_from].
  - exists 0. cbn. rewrite app_nil_r. repeat split; auto; lia.
  - destruct (Z.ltb_spec (max_tokens * 4)
                (Z.of_nat (len (acc ++ Main4.article_block i a)))) as [Hgt|Hle].
    + exists 0. cbn [firstn List.concat List.length]. rewrite !app_nil_r.
      repeat split; auto; lia.
    + destruct (IH (i + 1) (acc ++ Main4.article_block i a))
        as (k & Hk & Hres & Hfit & Hmax).
      exists (S k). cbn [firstn List.concat List.length].
      rewrite Hres, <- !app_assoc. split; [lia|]. split; [reflexivity|].
      split.
      * right. destruct Hfit as [->|Hfit].
        -- change (firstn 0 (blocks_from (i + 1) rest)) with (@nil str).
           cbn [List.concat]. rewrite app_nil_r. exact Hle.
        -- rewrite Hres, <- !app_assoc in Hfit. exact Hfit.
      * intros Hlt. rewrite <- !app_assoc in Hmax. apply Hmax. lia.
Qed.

(** [truncate_articles_data] gives whole articles only: its text is the
    blocks of the first [k] articles, it fits in [4 * max_tokens]
    characters unless it is empty, and [k] is the longest such prefix:
    one article more would not fit.  So when the first article alone
    is too long, the text is empty. *)
Theorem truncate_articles_data_whole_articles (articles : list Main4.hit)
    (max_tokens : Z) :
  exists k,
    k <= List.length articles
    /\ Main4.truncate_articles_data articles max_tokens
       = List.concat (firstn k (blocks_from 0 articles))
    /\ (k = 0
        \/ (Z.of_nat (len (Main4.truncate_articles_data articles max_tokens))
            <= max_tokens * 4)%Z)
    /\ (k < List.length articles ->
        (max_tokens * 4
         < Z.of_nat (len (List.concat (firstn (S k) (blocks_from 0 articles)))))%Z).
Proof.
  destruct (truncate_articles_from_whole articles max_tokens 0 [])
    as (k & H1 & H2 & H3 & H4).
  exists k. unfold Main4.truncate_articles_data. auto.
Qed.

(* ================================================================== *)
(** * main4.py: the requests of one search *)
(* ================================================================== *)

Section Requests.

Variable E : env.

Import Main4.

Lemma available_marked (p : provider) (g : globals) :
  available p (mark_api_unavailable p (increment_api_call g)) = false.
Proof. destruct p; reflexivity. Qed.

Lemma available_before (p p' : provider) (g : globals) :
  available p' (mark_api_unavailable p (increment_api_call g)) = true ->
  available p' g = true.
Proof. destruct p, p'; cbn; auto; discriminate. Qed.

Lemma available_get (p : provider) (g : globals) :
  available p g = true -> get_available_api g <> None.
Proof.
  unfold get_available_api. destruct p; cbn; intros ->;
    destruct (gnews_available g); discriminate.
Qed.

Lemma providers_are_two (ps : list provider) : NoDup ps -> List.length ps <= 2.
Proof.
  intros H. apply (@NoDup_incl_length _ ps [GNews; NewsAPI] H).
  intros [] _; cbn; auto.
Qed.

(** The shape of a search that stops after its request to [p]. *)
Lemma search_shape_one (q : str) (g g1 : globals) (w : world) (p : provider)
    (hits : list hit) :
  can_make_api_call g = true ->
  get_available_api g = Some p ->
  api_call_count g1 = api_call_count g + 1 ->
  Forall (fun h => Some p = Some (h_api_used h)) hits ->
  search_shape q g w hits (Some p) g1 (log (NewsSearch p q) w) [p].
Proof.
  intros Hc Hp Hn Hh. unfold search_shape. cbn [map log trace List.length rev app hd_error].
  split; [reflexivity|]. split; [repeat constructor; intros []|].
  split; [intros p' [<-|[]]; now apply get_available_api_some|].
  split; [exact Hn|]. split; [reflexivity|]. split; [exact Hh|].
  rewrite Hc, Hp. split; [discriminate | intros [H|H]; discriminate H].
Qed.

(** The shape of a search that marks [p] and goes on. *)
Lemma search_shape_more (q : str) (g g' : globals) (w w' : world)
    (p : provider) (hits : list hit) (used : option provider)
    (ps : list provider) :
  can_make_api_call g = true ->
  get_available_api g = Some p ->
  available (other_api p) (mark_api_unavailable p (increment_api_call g))
  && can_make_api_call (mark_api_unavailable p (increment_api_call g)) = true ->
  search_shape q (mark_api_unavailable p (increment_api_call g))
    (log (NewsSearch p q) w) hits used g' w' ps ->
  search_shape q g w hits used g' w' (p :: ps).
Proof.
  intros Hc Hp Hcond (S1 & S2 & S3 & S4 & S5 & S6 & S7).
  apply andb_true_iff in Hcond. destruct Hcond as [Ho Hc1].
  unfold search_shape. cbn [map List.length].
  split; [rewrite S1; cbn [log trace]; now rewrite <- app_assoc|].
  split.
  { constructor; [|exact S2]. intros Hin. apply S3 in Hin.
    now rewrite available_marked in Hin. }
  split.
  { intros p' [<-|Hin]; [now apply get_available_api_some|].
    eapply available_before. apply S3, Hin. }
  split.
  { rewrite S4. destruct p; cbn; lia. }
  split.
  { rewrite S5. cbn [rev]. destruct (rev ps) as [|x l] eqn:Hr; [|reflexivity].
    apply (f_equal (@rev _)) in Hr. rewrite rev_involutive in Hr. cbn in Hr.
    apply S7 in Hr. destruct Hr as [Hr|Hr]; [congruence|].
    now apply available_get in Ho. }
  split; [exact S6|].
  rewrite Hc, Hp. split; [discriminate | intros [H|H]; discriminate H].
Qed.

Lemma search_single_api_shape (q : str) (fuel : nat) :
  forall (g : globals) (w : world),
    providers_left g < fuel ->
    exists hits used g' w' ps,
      search_single_api fuel E q g w = Some (hits, used, g', w')
      /\ search_shape q g w hits used g' w' ps.
Proof.
  induction fuel as [|fuel IH]; intros g w Hm; [lia|].
  cbn [search_single_api].
  destruct (can_make_api_call g) eqn:Hc; cbn [negb].
  2:{ exists [], None, g, w, []. split; [reflexivity|]. unfold search_shape.
      rewrite Hc. cbn [map List.length rev hd_error]. rewrite app_nil_r, Nat.add_0_r.
      repeat split; auto using NoDup_nil; contradiction. }
  destruct (get_available_api g) as [p|] eqn:Hp.
  2:{ exists [], None, g, w, []. split; [reflexivity|]. unfold search_shape.
      rewrite Hp. cbn [map List.length rev hd_error]. rewrite app_nil_r, Nat.add_0_r.
      repeat split; auto using NoDup_nil; contradiction. }
  pose proof (get_available_api_some _ Hp) as Ha.
  pose proof (mark_fewer p g Ha) as Hlt.
  assert (Hn1 : api_call_count (increment_api_call g) = api_call_count g + 1)
    by reflexivity.
  assert (Hn2 : api_call_count (mark_api_unavailable p (increment_api_call g))
                = api_call_count g + 1) by (destruct p; reflexivity).
  assert (Hmore :
            available (other_api p)
              (mark_api_unavailable p (increment_api_call g))
            && can_make_api_call
                 (mark_api_unavailable p (increment_api_call g)) = true ->
            exists hits used g' w' ps,
              search_single_api fuel E q
                (mark_api_unavailable p (increment_api_call g))
                (log (NewsSearch p q) w) = Some (hits, used, g', w')
              /\ search_shape q g w hits used g' w' ps).
  { intros Hcond.
    destruct (IH (mark_api_unavailable p (increment_api_call g))
                (log (NewsSearch p q) w)) as (hits & used & g' & w' & ps & Hs & Hsh);
      [lia|].
    exists hits, used, g', w', (p :: ps). split; [exact Hs|].
    now apply search_shape_more. }
  destruct (news_api E p q (now w)) as [status arts|].
  - destruct (status =? 200).
    { do 4 eexists. exists [p]. split; [reflexivity|].
      apply search_shape_one; auto. apply Forall_forall. intros h Hh.
      apply in_map_iff in Hh. destruct Hh as [x [<- _]]. reflexivity. }
    destruct (quota_or_forbidden status).
    + destruct (_ && _) eqn:Hcond; [now apply Hmore|].
      do 4 eexists. exists [p]. split; [reflexivity|].
      apply search_shape_one; auto.
    + do 4 eexists. exists [p]. split; [reflexivity|].
      apply search_shape_one; auto.
  - destruct (_ && _) eqn:Hcond; [now apply Hmore|].
    do 4 eexists. exists [p]. split; [reflexivity|].
    apply search_shape_one; auto.
Qed.

End Requests.

(** One call of [search_single_api] asks every provider at most once,
    so it makes at most two requests, all with the query it was given,
    and only to providers that were available when it began; it counts
    each of them; the provider it reports is the last one it asked
    ([None] when it asked nobody), and every article it returns carries
    that provider. *)
Theorem search_single_api_requests (E : env) (fuel : nat) (q : str)
    (g : Main4.globals) (w : world) :
  Main4.providers_left g < fuel ->
  exists hits used g' w' ps,
    Main4.search_single_api fuel E q g w = Some (hits, used, g', w')
    /\ added w w' = map (fun p => NewsSearch p q) ps
    /\ List.length ps <= 2
    /\ NoDup ps
    /\ (forall p, In p ps -> Main4.available p g = true)
    /\ Main4.api_call_count g' = Main4.api_call_count g + List.length ps
    /\ used = hd_error (rev ps)
    /\ Forall (fun h => used = Some (Main4.h_api_used h)) hits.
Proof.
  intros Hm.
  destruct (@search_single_api_shape E q fuel g w Hm)
    as (hits & used & g' & w' & ps & Hs & S1 & S2 & S3 & S4 & S5 & S6 & _).
  exists hits, used, g', w', ps. split; [exact Hs|].
  split; [now apply added_after|]. split; [now apply providers_are_two|].
  auto.
Qed.

Lemma search_single_api_requests_witness :
  exists hits used g' w' ps,
    Main4.search_single_api 3 Examples.gnews_429 (lit "flood") Main4.reset
      Examples.fresh = Some (hits, used, g', w')
    /\ added Examples.fresh w' = map (fun p => NewsSearch p (lit "flood")) ps
    /\ List.length ps <= 2
    /\ NoDup ps
    /\ (forall p, In p ps -> Main4.available p Main4.reset = true)
    /\ Main4.api_call_count g'
       = Main4.api_call_count Main4.reset + List.length ps
    /\ used = hd_error (rev ps)
    /\ Forall (fun h => used = Some (Main4.h_api_used h)) hits.
Proof.
  apply (@search_single_api_requests Examples.gnews_429 3 (lit "flood")
           Main4.reset Examples.fresh).
  vm_compute. lia.
Defined.

(* ================================================================== *)
(** * main4.py: the verdicts of a run *)
(* ================================================================== *)

Lemma count_events_app (f : event -> bool) (a b : list event) :
  count_events f (a ++ b) = count_events f a + count_events f b.
Proof. unfold count_events. now rewrite filter_app, length_app. Qed.

Lemma count_events_searches (f : event -> bool) (q : str) (ps : list provider) :
  (forall p q', f (NewsSearch p q') = false) ->
  count_events f (map (fun p => NewsSearch p q) ps) = 0.
Proof.
  intros Hf. unfold count_events. induction ps as [|p ps IH]; [reflexivity|].
  cbn [map filter]. now rewrite Hf.
Qed.

Section Verdicts.

Variable E : env.

Import Main4.

Lemma search_single_api_hits (fuel : nat) (q : str) (g : globals) (w : world)
    hits used g' w' :
  search_single_api fuel E q g w = Some (hits, used, g', w') ->
  exists ps, search_shape q g w hits used g' w' ps.
Proof.
  intros Hs.
  apply (@search_single_api_fuel E fuel (fuel + 3)) in Hs; [|lia].
  destruct (@search_single_api_shape E q (fuel + 3) g w)
    as (hits1 & used1 & g1 & w1 & ps & Hs1 & Hsh).
  { unfold providers_left.
    destruct (gnews_available g), (newsapi_available g); cbn; lia. }
  rewrite Hs in Hs1. injection Hs1 as <- <- <- <-. now exists ps.
Qed.

Lemma verdicts_kept_calls (g g' : globals) (w w' : world)
    (new : list verified_claim) (n : nat) :
  verdicts_kept g w g' w' new n -> model_calls_kept g w g' w' n.
Proof.
  intros (_ & K2 & K3 & K4 & K5). unfold model_calls_kept.
  repeat split; lia.
Qed.

Lemma model_calls_kept_trans (g1 g2 g3 : globals) (w1 w2 w3 : world)
    (n m : nat) :
  model_calls_kept g1 w1 g2 w2 n ->
  model_calls_kept g2 w2 g3 w3 m ->
  model_calls_kept g1 w1 g3 w3 (n + m).
Proof.
  intros (A1 & A2 & A3) (B1 & B2 & B3). unfold model_calls_kept.
  repeat split; lia.
Qed.

Lemma verify_claim_with_news_sound (fuel : nat) (c : extracted_claim)
    (a : analysis) (q : str) (g : globals) (w : world) r g' w' :
  verify_claim_with_news fuel E c q g w = Some (r, g', w') ->
  api_call_count g <= MAX_API_CALLS ->
  asks_for_search a = true ->
  model_calls_kept g w g' w' 0
  /\ (forall v, r = Returns v ->
        verdicts_kept g w g' w'
          [{| vc_claim := c; vc_analysis := a; vc_verification := v |}] 0).
Proof.
  unfold verify_claim_with_news. intros Hv Hle Ha.
  assert (Hboth : forall v,
             r = Returns v ->
             verdicts_kept g w g' w'
               [{| vc_claim := c; vc_analysis := a; vc_verification := v |}] 0 ->
             model_calls_kept g w g' w' 0
             /\ (forall v', r = Returns v' ->
                   verdicts_kept g w g' w'
                     [{| vc_claim := c; vc_analysis := a;
                         vc_verification := v' |}] 0)).
  { intros v -> Hk. split; [eapply verdicts_kept_calls; exact Hk|].
    intros v' [= <-]. exact Hk. }
  destruct (negb (can_make_api_call g)).
  { injection Hv as <- <- <-. apply (Hboth _ eq_refl).
    unfold verdicts_kept, sound_verification.
    cbn. repeat split; auto; try lia; try discriminate. constructor; [|constructor].
    cbn. repeat split; auto; try discriminate. }
  destruct (search_single_api fuel E q g w) as [[[[hits used] g1] w1]|] eqn:Hs;
    [|discriminate].
  pose proof (search_single_api_kept _ _ _ _ _ Hs) as (_ & _ & K3 & _).
  destruct (search_single_api_hits _ _ _ _ Hs)
    as (ps & S1 & _ & _ & S4 & S5 & S6 & _).
  assert (Hver : count_events is_verify (trace w1)
                 = count_events is_verify (trace w)).
  { rewrite S1, count_events_app, count_events_searches; [lia | reflexivity]. }
  assert (Han : count_events is_analyse (trace w1)
                = count_events is_analyse (trace w)).
  { rewrite S1, count_events_app, count_events_searches; [lia | reflexivity]. }
  destruct hits as [|h hits].
  - injection Hv as <- <- <-. apply (Hboth _ eq_refl).
    unfold verdicts_kept, sound_verification. cbn.
    repeat split; auto; try lia. constructor; [|constructor].
    cbn. repeat split; auto; try discriminate.
  - assert (Hused : used <> None /\ 1 <= List.length ps).
    { inversion S6 as [|? ? Hh _]. subst. split; [congruence|].
      destruct ps; [discriminate Hh | cbn; lia]. }
    destruct Hused as [Hused Hps].
    destruct (negb (print_verification_result (verdict E c (now w1)))).
    { injection Hv as <- <- <-. split; [|intros v Hr; discriminate Hr].
      unfold model_calls_kept. rewrite !count_events_log.
      cbn [is_verify is_analyse]. repeat split; auto; lia. }
    injection Hv as <- <- <-. apply (Hboth _ eq_refl).
    unfold verdicts_kept, sound_verification.
    rewrite !count_events_log.
    cbn [is_verify is_analyse filter has_verdict vc_verification
         llm_verification List.length verified articles_count api_used
         vf_confidence api_calls_used vc_analysis].
    split.
    { constructor; [|constructor].
      cbn [vc_verification llm_verification verified articles_count api_used
           vf_confidence api_calls_used vc_analysis].
      split.
      { intros Hl. eexists. split; [reflexivity|].
        apply orb_true_iff in Hl. destruct Hl as [Hl|Hl]; apply eqb_eq in Hl; auto. }
      split; [|auto].
      intros l [= <-]. split; [now eexists|]. auto. }
    split; [lia|]. split; [lia|]. split; [auto|lia].
Qed.

Lemma verdicts_kept_app (g1 g2 g3 : globals) (w1 w2 w3 : world)
    (a b : list verified_claim) (n m : nat) :
  verdicts_kept g1 w1 g2 w2 a n ->
  verdicts_kept g2 w2 g3 w3 b m ->
  verdicts_kept g1 w1 g3 w3 (a ++ b) (n + m).
Proof.
  intros (A1 & A2 & A3 & A4 & A5) (B1 & B2 & B3 & B4 & B5).
  unfold verdicts_kept. rewrite filter_app, length_app.
  split; [now apply Forall_app|]. repeat split; lia.
Qed.

Lemma main4_loop_verdicts (fuel : nat) (claims : list extracted_claim) :
  forall (acc : list verified_claim) (g : globals) (w : world) r g' w',
    loop fuel E claims acc g w = Some (r, g', w') ->
    api_call_count g <= MAX_API_CALLS ->
    model_calls_kept g w g' w' (List.length claims)
    /\ (forall out, r = Returns out ->
          exists new,
            out = acc ++ new
            /\ verdicts_kept g w g' w' new (List.length claims)).
Proof.
  induction claims as [|c rest IH]; intros acc g w r g' w'; cbn [loop].
  - intros [= <- <- <-] Hle.
    assert (Hk : verdicts_kept g w g w [] 0).
    { unfold verdicts_kept. cbn. repeat split; auto; lia. }
    split; [eapply verdicts_kept_calls; exact Hk|].
    intros out Hr. exists []. rewrite app_nil_r. split; [congruence | exact Hk].
  - destruct (MAX_API_CALLS <=? api_call_count g).
    { intros [= <- <- <-] Hle.
      assert (Hk : verdicts_kept g w g w (map (skipped g) (c :: rest))
                     (List.length (c :: rest))).
      { unfold verdicts_kept. split.
        { apply Forall_forall. intros vc Hin. apply in_map_iff in Hin.
          destruct Hin as [x [<- _]]. unfold sound_verification. cbn.
          repeat split; auto; discriminate. }
        assert (Hnone : forall l,
                   List.length (filter has_verdict (map (skipped g) l)) = 0).
        { intros l. induction l; [reflexivity | exact IHl]. }
        rewrite Hnone. repeat split; lia. }
      split; [eapply verdicts_kept_calls; exact Hk|].
      intros out Hr. exists (map (skipped g) (c :: rest)).
      split; [injection Hr as <-; reflexivity | exact Hk]. }
    set (a := analyse E c (now w)).
    set (w1 := log (Analyse (get (ec_claim c))) w).
    assert (Hw1v : count_events is_verify (trace w1)
                   = count_events is_verify (trace w)).
    { unfold w1. rewrite count_events_log. cbn. lia. }
    assert (Hw1a : count_events is_analyse (trace w1)
                   = count_events is_analyse (trace w) + 1).
    { unfold w1. now rewrite count_events_log. }
    destruct (_ && _) eqn:Hcond.
    + apply andb_true_iff in Hcond. destruct Hcond as [Hask _].
      destruct (negb (has_keys c)).
      { intros [= <- <- <-] Hle. split; [|intros out Hr; discriminate Hr].
        unfold model_calls_kept. cbn [List.length]. repeat split; lia. }
      destruct (verify_claim_with_news fuel E c _ g w1) as [[[[v|] g1] w2]|] eqn:Hv;
        [| |discriminate].
      * intros Hl Hle.
        destruct (@verify_claim_with_news_sound _ _ a _ _ _ _ _ _ Hv Hle Hask)
          as [Hc Hk].
        specialize (Hk v eq_refl).
        assert (Hle1 : api_call_count g1 <= MAX_API_CALLS)
          by (now destruct Hk as (_ & _ & _ & ? & _)).
        destruct (IH _ _ _ _ _ _ Hl Hle1) as [Hc2 Hk2].
        split.
        { destruct Hc as (C1 & C2 & C3). destruct Hc2 as (D1 & D2 & D3).
          unfold model_calls_kept. cbn [List.length]. repeat split; lia. }
        intros out Hr. destruct (Hk2 out Hr) as (new & -> & Hk3).
        eexists. rewrite <- app_assoc. split; [reflexivity|].
        pose proof (verdicts_kept_app Hk Hk3) as (K1 & K2 & K3 & K4 & K5).
        unfold verdicts_kept. cbn [app List.length] in *.
        repeat split; auto; try lia.
      * intros [= <- <- <-] Hle.
        destruct (@verify_claim_with_news_sound _ _ a _ _ _ _ _ _ Hv Hle Hask)
          as [(C1 & C2 & C3) _].
        split; [|intros out Hr; discriminate Hr].
        unfold model_calls_kept. cbn [List.length]. repeat split; lia.
    + intros Hl Hle. destruct (IH _ _ _ _ _ _ Hl Hle) as [Hc2 Hk2].
      split.
      { destruct Hc2 as (D1 & D2 & D3).
        unfold model_calls_kept. cbn [List.length]. repeat split; lia. }
      intros out Hr.
      destruct (Hk2 out Hr) as (new & -> & (K1 & K2 & K3 & K4 & K5)).
      eexists. rewrite <- app_assoc. split; [reflexivity|].
      unfold verdicts_kept. cbn [app filter has_verdict vc_verification
                                 llm_verification List.length].
      split.
      { constructor; [|exact K1]. unfold sound_verification. cbn.
        repeat split; auto; discriminate. }
      cbn [List.length]. repeat split; lia.
Qed.

End Verdicts.

(** The verdicts of a run of [process_claims_with_verification].  The
    run comes to an end: it finishes, the model fails to load, or an
    exception leaves its loop.  However it ends, it has asked the model
    to verify at most [MAX_API_CALLS] times and to analyse at most once
    a claim.  When it finishes, every record of its output hangs
    together ([sound_verification]) and the records with a verdict of
    the model are as many as the verifications asked.  A verification
    whose search found articles and whose verdict cannot be printed
    raises, after the model was asked. *)
Theorem main4_verdicts (E : env) (fuel : nat) (w : world)
    (claims : list extracted_claim) :
  files w Main4.input_path = Some (ExtractedFile claims) ->
  exists r g' w',
    Main4.process_claims_with_verification (3 + fuel) E w = Some (r, g', w')
    /\ count_events is_verify (trace w')
       <= count_events is_verify (trace w) + Main4.MAX_API_CALLS
    /\ count_events is_analyse (trace w')
       <= count_events is_analyse (trace w) + List.length claims
    /\ (forall out saved,
          r = Main4.Finished out saved ->
          Forall sound_verification out
          /\ count_events is_verify (trace w')
             = count_events is_verify (trace w)
               + List.length (filter has_verdict out))
    /\ (forall (c : extracted_claim) (q : str) (g : Main4.globals) (w1 : world)
               (h : Main4.hit) (hits : list Main4.hit) (used : option provider)
               (g1 : Main4.globals) (w2 : world),
          Main4.can_make_api_call g = true ->
          Main4.search_single_api (3 + fuel) E q g w1
          = Some (h :: hits, used, g1, w2) ->
          Main4.print_verification_result (verdict E c (now w2)) = false ->
          Main4.verify_claim_with_news (3 + fuel) E c q g w1
          = Some (Main4.Raised, g1,
                  log (Verify (Main4.get (ec_claim c))) w2)).
Proof.
  intros Hin.
  assert (Hpin :
    forall (c : extracted_claim) (q : str) (g : Main4.globals) (w1 : world)
           (h : Main4.hit) (hits : list Main4.hit) (used : option provider)
           (g1 : Main4.globals) (w2 : world),
      Main4.can_make_api_call g = true ->
      Main4.search_single_api (3 + fuel) E q g w1
      = Some (h :: hits, used, g1, w2) ->
      Main4.print_verification_result (verdict E c (now w2)) = false ->
      Main4.verify_claim_with_news (3 + fuel) E c q g w1
      = Some (Main4.Raised, g1, log (Verify (Main4.get (ec_claim c))) w2)).
  { intros c q g w1 h hits used g1 w2 Hc Hs Hp.
    unfold Main4.verify_claim_with_news. rewrite Hc, Hs. cbn [negb].
    now rewrite Hp. }
  unfold Main4.process_claims_with_verification. rewrite Hin.
  set (w0 := log (LoadModel Main4.LOCAL_MODEL_PATH) w).
  assert (Hv0 : count_events is_verify (trace w0)
                = count_events is_verify (trace w)).
  { unfold w0. rewrite count_events_log. cbn. lia. }
  assert (Ha0 : count_events is_analyse (trace w0)
                = count_events is_analyse (trace w)).
  { unfold w0. rewrite count_events_log. cbn. lia. }
  destruct (negb (llama_loads E Main4.LOCAL_MODEL_PATH)).
  { do 3 eexists. split; [reflexivity|]. split; [lia|]. split; [lia|].
    split; [|exact Hpin].
    intros out saved Hr. discriminate Hr. }
  destruct (main4_loop_records E fuel claims [] Main4.reset w0)
    as (r & g' & w' & Hl & _).
  rewrite Hl. apply main4_loop_verdicts in Hl.
  2:{ cbn. unfold Main4.MAX_API_CALLS. lia. }
  destruct Hl as [(C1 & C2 & C3) Hk].
  cbn [Main4.api_call_count Main4.reset] in C1.
  destruct r as [out|].
  - destruct (Hk out eq_refl) as (new & Hnew & K1 & K2 & K3 & K4 & K5).
    cbn [app] in Hnew. subst new.
    assert (Hsv : count_events is_verify
                    (trace (snd (save_document E Main4.output_path
                                   (VerifiedFile out) w')))
                  = count_events is_verify (trace w')).
    { unfold count_events. now rewrite save_document_filter. }
    assert (Hsa : count_events is_analyse
                    (trace (snd (save_document E Main4.output_path
                                   (VerifiedFile out) w')))
                  = count_events is_analyse (trace w')).
    { unfold count_events. now rewrite save_document_filter. }
    destruct (save_document E Main4.output_path (VerifiedFile out) w')
      as [saved w2]. cbn [snd] in Hsv, Hsa.
    do 3 eexists. split; [reflexivity|]. split; [lia|]. split; [lia|].
    split; [|exact Hpin].
    intros out' saved' Hr.
    assert (Hout : out = out') by congruence. subst out'.
    split; [exact K1 | lia].
  - do 3 eexists. split; [reflexivity|]. split; [lia|]. split; [lia|].
    split; [|exact Hpin].
    intros out saved Hr. discriminate Hr.
Qed.

Lemma main4_verdicts_witness :
  exists r g' w',
    Main4.process_claims_with_verification (3 + 0) Examples.gnews_429
      Examples.with_extracted_claims = Some (r, g', w')
    /\ count_events is_verify (trace w')
       <= count_events is_verify (trace Examples.with_extracted_claims)
          + Main4.MAX_API_CALLS
    /\ count_events is_analyse (trace w')
       <= count_events is_analyse (trace Examples.with_extracted_claims)
          + List.length Examples.seven_claims
    /\ (forall out saved,
          r = Main4.Finished out saved ->
          Forall sound_verification out
          /\ count_events is_verify (trace w')
             = count_events is_verify (trace Examples.with_extracted_claims)
               + List.length (filter has_verdict out))
    /\ (forall (c : extracted_claim) (q : str) (g : Main4.globals) (w1 : world)
               (h : Main4.hit) (hits : list Main4.hit) (used : option provider)
               (g1 : Main4.globals) (w2 : world),
          Main4.can_make_api_call g = true ->
          Main4.search_single_api (3 + 0) Examples.gnews_429 q g w1
          = Some (h :: hits, used, g1, w2) ->
          Main4.print_verification_result (verdict Examples.gnews_429 c (now w2)) = false ->
          Main4.verify_claim_with_news (3 + 0) Examples.gnews_429 c q g w1
          = Some (Main4.Raised, g1,
                  log (Verify (Main4.get (ec_claim c))) w2)).
Proof.
  apply (@main4_verdicts Examples.gnews_429 0 Examples.with_extracted_claims
           Examples.seven_claims).
  reflexivity.
Defined.

(* ================================================================== *)
(** * main5.py: the classifications of a run *)
(* ================================================================== *)

Lemma model_calls_log (e : event) (w : world) :
  model_calls (trace (log e w))
  = model_calls (trace w) + (if is_generate e then 1 else 0).
Proof.
  unfold model_calls, log. cbn [trace]. rewrite filter_app, length_app.
  cbn. now destruct (is_generate e).
Qed.

Lemma extract_classification_range (r : str) :
  In (Main5.extract_classification r)
    [lit "TRUE"; lit "FALSE"; lit "UNVERIFIABLE"].
Proof.
  unfold Main5.extract_classification.
  repeat match goal with
         | |- context [if ?b then _ else _] => destruct b
         end; cbn; auto.
Qed.

Lemma classify_claim_with_llm_cases (E : env) (claim_text explanation_text : str)
    (arts : list article) (w : world) :
  In (Main5.label
        (fst (Main5.classify_claim_with_llm E claim_text explanation_text arts w)))
    [lit "TRUE"; lit "FALSE"; lit "UNVERIFIABLE"; lit "ERROR"]
  /\ (arts = [] ->
      Main5.label
        (fst (Main5.classify_claim_with_llm E claim_text explanation_text arts w))
      = lit "UNVERIFIABLE")
  /\ model_calls
       (trace (snd (Main5.classify_claim_with_llm E claim_text explanation_text
                      arts w)))
     = model_calls (trace w)
       + (match arts with [] => 0 | _ :: _ => 1 end)
  /\ files (snd (Main5.classify_claim_with_llm E claim_text explanation_text
                   arts w)) = files w.
Proof.
  unfold Main5.classify_claim_with_llm. destruct arts as [|a arts].
  - cbn. rewrite Nat.add_0_r. auto 10.
  - destruct (llama E Main5.SYSTEM_PROMPT _ (now w)) as [chunks|msg];
      cbn [fst snd Main5.label]; rewrite model_calls_log; cbn [is_generate log files].
    + split; [|split; [discriminate | auto]].
      pose proof (extract_classification_range (Main5.collect_stream chunks)) as H.
      cbn in H |- *. intuition.
    + split; [cbn; auto 10 | split; [discriminate | auto]].
Qed.

Lemma classify_all_cases (E : env) (claims : list claim_result) :
  forall w : world,
    map cl_claim (fst (Main5.classify_all E claims w))
    = filter truthy (map claim claims)
    /\ Forall sound_classification (fst (Main5.classify_all E claims w))
    /\ model_calls (trace (snd (Main5.classify_all E claims w)))
       = model_calls (trace w) + List.length (filter goes_to_model claims)
    /\ files (snd (Main5.classify_all E claims w)) = files w.
Proof.
  induction claims as [|c rest IH]; intros w; cbn [Main5.classify_all].
  - cbn. rewrite Nat.add_0_r. auto.
  - cbn [map filter]. unfold goes_to_model at 1.
    destruct (truthy (claim c)) eqn:Hc; cbn [negb andb]; [|apply IH].
    destruct (classify_claim_with_llm_cases E (claim c) (explanation c)
                (articles c) w) as (Hl & He & Hm & Hf).
    destruct (Main5.classify_claim_with_llm E (claim c) (explanation c)
                (articles c) w) as [v w1]. cbn [fst snd] in *.
    destruct (IH w1) as (I1 & I2 & I3 & I4).
    destruct (Main5.classify_all E rest w1) as [cls w2]. cbn [fst snd] in *.
    split; [cbn [map cl_claim]; now rewrite I1|].
    split.
    { constructor; [|exact I2]. unfold sound_classification.
      cbn [cl_classification cl_articles_count cl_articles_used cl_claim].
      split; [exact Hl|]. split.
      - intros H0. apply He. now apply length_zero_iff_nil.
      - split; [now rewrite length_map, length_firstn|].
        intros H0. now rewrite H0 in Hc. }
    split; [|congruence].
    rewrite I3, Hm. destruct (articles c); cbn [List.length]; lia.
Qed.

(** The classifications of [process_claims_with_llm] once the model is
    loaded: one for every claim that has a text, in the order of the
    input; each with one of the labels [TRUE], [FALSE], [UNVERIFIABLE]
    and [ERROR], [UNVERIFIABLE] when the claim has no article, and with
    references to its first five articles at most; the model is asked
    once for every claim that has a text and an article, and no file is
    touched. *)
Theorem classifications_of_a_run (E : env) (claims : list claim_result)
    (w : world) :
  map cl_claim (fst (Main5.classify_all E claims w))
  = filter truthy (map claim claims)
  /\ Forall sound_classification (fst (Main5.classify_all E claims w))
  /\ model_calls (trace (snd (Main5.classify_all E claims w)))
     = model_calls (trace w) + List.length (filter goes_to_model claims)
  /\ files (snd (Main5.classify_all E claims w)) = files w.
Proof. apply classify_all_cases. Qed.

(** A model that does not load leaves an empty result behind.  When the
    model file is there but cannot be loaded, the run finds no
    classification, saves the empty object as its result, and returns
    the path of that file as if it had succeeded; the model is never
    asked; and since the file is there now, a second run returns at once
    and does not try again. *)
Theorem failed_load_is_saved_as_a_result (E : env)
    (input_file_path model_path output_file_path : str) (w : world)
    (data : fact_check_results) (f : file) :
  exists_path w output_file_path = false ->
  files w input_file_path = Some (FactCheckFile data) ->
  files w model_path = Some f ->
  llama_loads E model_path = false ->
  writable E output_file_path = true ->
  exists w',
    Main5.run_llm_classification_process E input_file_path model_path
      output_file_path w
    = (FactCheck.Returned (Some output_file_path), w')
    /\ files w' output_file_path = Some (ClassificationFile NoResults)
    /\ added w w' = [LoadModel model_path; FileWrite output_file_path]
    /\ Main5.run_llm_classification_process E input_file_path model_path
         output_file_path w'
       = (FactCheck.Returned (Some output_file_path), w').
Proof.
  intros Hout Hin Hmodel Hload Hw.
  unfold Main5.run_llm_classification_process at 1. rewrite Hout.
  unfold exists_path at 1 2. rewrite Hin, Hmodel. cbn [negb].
  unfold Main5.process_claims_with_llm. rewrite Hload. cbn [negb].
  unfold Main5.save_results_to_file, save_document. rewrite Hw.
  eexists. split; [reflexivity|].
  assert (Hf : files (write_file output_file_path (ClassificationFile NoResults)
                        (log (LoadModel model_path) w)) output_file_path
               = Some (ClassificationFile NoResults)).
  { unfold write_file. cbn [files]. now rewrite eqb_refl. }
  split; [exact Hf|]. split.
  - apply added_after. unfold write_file, log. cbn [trace].
    now rewrite <- app_assoc.
  - unfold Main5.run_llm_classification_process, exists_path. now rewrite Hf.
Qed.

Lemma failed_load_is_saved_as_a_result_witness :
  exists w',
    Main5.run_llm_classification_process Scenarios.broken_model
      Examples.output_path Scenarios.model_path Scenarios.classification_path
      Scenarios.after_fact_check
    = (FactCheck.Returned (Some Scenarios.classification_path), w')
    /\ files w' Scenarios.classification_path
       = Some (ClassificationFile NoResults)
    /\ added Scenarios.after_fact_check w'
       = [LoadModel Scenarios.model_path;
          FileWrite Scenarios.classification_path]
    /\ Main5.run_llm_classification_process Scenarios.broken_model
         Examples.output_path Scenarios.model_path
         Scenarios.classification_path w'
       = (FactCheck.Returned (Some Scenarios.classification_path), w').
Proof.
  apply (@failed_load_is_saved_as_a_result Scenarios.broken_model
           Examples.output_path Scenarios.model_path
           Scenarios.classification_path Scenarios.after_fact_check
           {| fc_timestamp := lit "2025-01-01T00:00:00"; verified_claims := [] |}
           ModelFile);
    reflexivity.
Defined.

(* ================================================================== *)
(** * main6.py: the article content and the prompt *)
(* ================================================================== *)

Lemma collect_without_budget (i : nat) (arts : list article) :
  Main6.collect i arts 0 = [].
Proof. destruct arts; reflexivity. Qed.

Lemma count_tokens_spec (t : str) :
  4 * Main6.count_tokens t <= len t < 4 * Main6.count_tokens t + 4.
Proof.
  unfold Main6.count_tokens.
  pose proof (Nat.div_mod_eq (len t) 4) as H.
  pose proof (Nat.mod_upper_bound (len t) 4) as H'. lia.
Qed.

(** A text over the budget is cut to four characters a token. *)
Lemma truncate_over_budget (t : str) (n : nat) :
  n < Main6.count_tokens t ->
  Main6.truncate_text_to_tokens t (Z.of_nat n) = firstn (4 * n) t.
Proof.
  intros Hn. pose proof (count_tokens_spec t) as Ht.
  unfold Main6.truncate_text_to_tokens.
  destruct (Z.leb_spec (Z.of_nat (len t)) (Z.of_nat n * 4)); [lia|].
  rewrite slice_to_nonneg by lia. f_equal. lia.
Qed.

Lemma collect_bounded_prefix (arts : list article) :
  forall (i remaining_tokens : nat),
    (exists cut,
        List.concat (texts_from i arts)
        = Main6.collect i arts remaining_tokens ++ cut)
    /\ len (Main6.collect i arts remaining_tokens)
       <= 4 * remaining_tokens + 3 * List.length arts.
Proof.
  induction arts as [|a rest IH]; intros i r; cbn [Main6.collect texts_from].
  - split; [now exists [] | cbn; lia].
  - destruct (Nat.leb_spec r 0) as [H0|H0].
    { split; [eexists; reflexivity | cbn; lia]. }
    pose proof (count_tokens_spec (Main6.article_text i a)) as Ht.
    cbn [List.concat List.length].
    destruct (Nat.leb_spec (Main6.count_tokens (Main6.article_text i a)) r)
      as [Hfit|Hover].
    + destruct (IH (i + 1) (r - Main6.count_tokens (Main6.article_text i a)))
        as [[cut Hcut] Hlen].
      split; [exists cut; now rewrite Hcut, app_assoc|].
      unfold len in *. rewrite length_app. lia.
    + rewrite collect_without_budget, app_nil_r, (truncate_over_budget _ Hover).
      split.
      * exists (skipn (4 * r) (Main6.article_text i a)
                ++ List.concat (texts_from (i + 1) rest)).
        now rewrite app_assoc, firstn_skipn.
      * unfold len. rewrite length_firstn. lia.
Qed.

Lemma article_content_is_bounded (a : article) (rest : list article)
    (max_tokens : nat) :
  len (Main6.extract_article_content (a :: rest) max_tokens)
  <= 4 * max_tokens + 3 * List.length (a :: rest).
Proof. apply collect_bounded_prefix. Qed.

(** The article content of [main6.py] is the beginning of the texts of
    the articles in their order, and it may pass its budget of
    [4 * max_tokens] characters by three characters an article at most:
    the tokens of every article are rounded down. *)
Theorem article_content_is_a_bounded_prefix (a : article) (rest : list article)
    (max_tokens : nat) :
  (exists cut,
      List.concat (texts_from 0 (a :: rest))
      = Main6.extract_article_content (a :: rest) max_tokens ++ cut)
  /\ len (Main6.extract_article_content (a :: rest) max_tokens)
     <= 4 * max_tokens + 3 * List.length (a :: rest).
Proof. apply collect_bounded_prefix. Qed.

Lemma ensure_token_limit_prefix (prompt : str) (max_tokens : nat) :
  (exists cut, prompt = Main6.ensure_token_limit prompt max_tokens ++ cut)
  /\ Main6.count_tokens (Main6.ensure_token_limit prompt max_tokens)
     <= max_tokens
  /\ (len prompt <= 4 * max_tokens + 3 ->
      Main6.ensure_token_limit prompt max_tokens = prompt).
Proof.
  unfold Main6.ensure_token_limit.
  pose proof (count_tokens_spec prompt) as Hp.
  destruct (Nat.leb_spec (Main6.count_tokens prompt) max_tokens) as [Hfit|Hover].
  - split; [exists []; now rewrite app_nil_r | auto].
  - rewrite (truncate_over_budget _ Hover). split; [|split; [|lia]].
    + exists (skipn (4 * max_tokens) prompt). now rewrite firstn_skipn.
    + pose proof (count_tokens_spec (firstn (4 * max_tokens) prompt)) as Hc.
      unfold len in Hc. rewrite length_firstn in Hc. lia.
Qed.

Lemma extract_label_range (r : str) :
  In (Main6.extract_label r)
    [lit "true"; lit "false"; lit "unverifiable"; lit "unknown"].
Proof.
  unfold Main6.extract_label.
  repeat match goal with
         | |- context [if ?b then _ else _] => destruct b
         end; cbn; auto.
Qed.

Lemma classify_claim_with_gemini_cases (E : env)
    (claim_text explanation_text : str) (a : article) (rest : list article)
    (w : world) :
  added w (snd (Main6.classify_claim_with_gemini E claim_text explanation_text
                  (a :: rest) w))
  = match gemini E (prompt_sent claim_text (a :: rest)) (now w) with
    | GeminiResponse _ _ => [Generate (prompt_sent claim_text (a :: rest))]
    | GeminiError _ =>
        [Generate (prompt_sent claim_text (a :: rest));
         GenerateStream (prompt_sent claim_text (a :: rest))]
    end
  /\ In (Main6.label
           (fst (Main6.classify_claim_with_gemini E claim_text explanation_text
                   (a :: rest) w)))
       [lit "true"; lit "false"; lit "unverifiable"; lit "unknown"; lit "error"]
  /\ (Main6.label
        (fst (Main6.classify_claim_with_gemini E claim_text explanation_text
                (a :: rest) w)) = lit "error"
      <-> Main6.tokens_used
            (fst (Main6.classify_claim_with_gemini E claim_text explanation_text
                    (a :: rest) w)) = None).
Proof.
  assert (Hx : forall r n m,
             In (Main6.label (Main6.extracted r n m))
               [lit "true"; lit "false"; lit "unverifiable"; lit "unknown";
                lit "error"]
             /\ (Main6.label (Main6.extracted r n m) = lit "error"
                 <-> Main6.tokens_used (Main6.extracted r n m) = None)).
  { intros r n m. cbn [Main6.extracted Main6.label Main6.tokens_used].
    pose proof (extract_label_range r) as H. cbn in H |- *.
    split; [intuition|].
    split; [|discriminate].
    intros He. rewrite He in H. intuition discriminate. }
  assert (Hf : forall why r,
             In (Main6.label (Main6.failed why r))
               [lit "true"; lit "false"; lit "unverifiable"; lit "unknown";
                lit "error"]
             /\ (Main6.label (Main6.failed why r) = lit "error"
                 <-> Main6.tokens_used (Main6.failed why r) = None)).
  { intros why r. cbn. intuition. }
  unfold Main6.classify_claim_with_gemini. fold (prompt_sent claim_text (a :: rest)).
  set (p := prompt_sent claim_text (a :: rest)).
  assert (H1 : added w (log (Generate p) w) = [Generate p])
    by now apply added_after.
  assert (H2 : added w (log (GenerateStream p) (log (Generate p) w))
               = [Generate p; GenerateStream p]).
  { apply added_after. unfold log. cbn [trace]. now rewrite <- app_assoc. }
  destruct (gemini E p (now w)) as [finish_reason text|msg].
  - destruct (match finish_reason with Some r => r =? 2 | None => false end);
      [|destruct text]; cbn [fst snd]; (split; [exact H1|]);
      first [apply Hx | apply Hf].
  - destruct (gemini_streaming E p (now (log (Generate p) w)));
      cbn [fst snd]; (split; [exact H2|]); first [apply Hx | apply Hf].
Qed.

(** What [classify_claim_with_gemini] sends for a claim with articles:
    one prompt; once when the first request is answered, whatever the
    answer, and a second time, as a streaming request, exactly when the
    first request raised; the prompt is the beginning of the formatted
    prompt and has at most [MAX_TOKENS - RESPONSE_TOKENS] tokens; the
    label is one of [true], [false], [unverifiable], [unknown] and
    [error], and it is [error] exactly when no token usage is
    reported. *)
Theorem gemini_prompt_sent (E : env) (claim_text explanation_text : str)
    (a : article) (rest : list article) (w : world) :
  (exists cut,
      Main6.format_prompt claim_text
        (Main6.extract_article_content (a :: rest) Main6.ARTICLE_TOKENS)
      = prompt_sent claim_text (a :: rest) ++ cut)
  /\ Main6.count_tokens (prompt_sent claim_text (a :: rest))
     <= Main6.MAX_TOKENS - Main6.RESPONSE_TOKENS
  /\ added w (snd (Main6.classify_claim_with_gemini E claim_text
                     explanation_text (a :: rest) w))
     = match gemini E (prompt_sent claim_text (a :: rest)) (now w) with
       | GeminiResponse _ _ => [Generate (prompt_sent claim_text (a :: rest))]
       | GeminiError _ =>
           [Generate (prompt_sent claim_text (a :: rest));
            GenerateStream (prompt_sent claim_text (a :: rest))]
       end
  /\ In (Main6.label
           (fst (Main6.classify_claim_with_gemini E claim_text explanation_text
                   (a :: rest) w)))
       [lit "true"; lit "false"; lit "unverifiable"; lit "unknown"; lit "error"]
  /\ (Main6.label
        (fst (Main6.classify_claim_with_gemini E claim_text explanation_text
                (a :: rest) w)) = lit "error"
      <-> Main6.tokens_used
            (fst (Main6.classify_claim_with_gemini E claim_text explanation_text
                    (a :: rest) w)) = None).
Proof.
  destruct (ensure_token_limit_prefix
              (Main6.format_prompt claim_text
                 (Main6.extract_article_content (a :: rest) Main6.ARTICLE_TOKENS))
              (Main6.MAX_TOKENS - Main6.RESPONSE_TOKENS)) as (Hcut & Hfit & _).
  split; [exact Hcut|]. split; [exact Hfit|].
  apply classify_claim_with_gemini_cases.
Qed.

(** A short claim keeps the instructions of the prompt.  When the claim
    and three characters an article make 1074 characters at most, the
    formatted prompt is sent whole; a longer prompt is cut at its end,
    where the instructions and the answer format stand. *)
Theorem short_claim_is_sent_whole (claim_text : str) (a : article)
    (rest : list article) :
  len claim_text + 3 * List.length (a :: rest) <= 1074 ->
  prompt_sent claim_text (a :: rest)
  = Main6.format_prompt claim_text
      (Main6.extract_article_content (a :: rest) Main6.ARTICLE_TOKENS).
Proof.
  intros Hshort. unfold prompt_sent.
  apply ensure_token_limit_prefix.
  pose proof (article_content_is_bounded a rest Main6.ARTICLE_TOKENS) as Hlen.
  assert (HA : Main6.ARTICLE_TOKENS = 4 * 1673) by (vm_compute; reflexivity).
  assert (HM : Main6.MAX_TOKENS - Main6.RESPONSE_TOKENS = 4 * 1798)
    by (vm_compute; reflexivity).
  unfold Main6.format_prompt, len in *. rewrite !length_app.
  change (List.length Main6.PROMPT_BEFORE_CLAIM) with 496.
  change (List.length Main6.PROMPT_BEFORE_ARTICLES) with 26.
  change (List.length Main6.PROMPT_AFTER_ARTICLES) with 407.
  rewrite HM. rewrite HA in Hlen at 2.
  cbn [List.length] in *. lia.
Qed.

Lemma short_claim_is_sent_whole_witness :
  prompt_sent (lit "The river flooded the town")
    [{| title := lit "Flood";
        description := lit "The river rose";
        url := lit "https://example.org/flood";
        source := lit "Example";
        publishedAt := lit "2025-01-01";
        content := Some (lit "The river rose over its banks.");
        content_tokens := 7 |}]
  = Main6.format_prompt (lit "The river flooded the town")
      (Main6.extract_article_content
         [{| title := lit "Flood";
             description := lit "The river rose";
             url := lit "https://example.org/flood";
             source := lit "Example";
             publishedAt := lit "2025-01-01";
             content := Some (lit "The river rose over its banks.");
             content_tokens := 7 |}]
         Main6.ARTICLE_TOKENS).
Proof.
  apply (@short_claim_is_sent_whole (lit "The river flooded the town")).
  apply Nat.leb_le. vm_compute. reflexivity.
Defined.

(* ================================================================== *)
(** * The fact check and the classification, one after the other *)
(* ================================================================== *)

Lemma classify_all_searches (E : env) (claims : list claim_result) :
  forall w : world,
    search_calls (trace (snd (Main5.classify_all E claims w)))
    = search_calls (trace w).
Proof.
  induction claims as [|c rest IH]; intros w; cbn [Main5.classify_all];
    [reflexivity|].
  destruct (negb (truthy (claim c))); [apply IH|].
  assert (Hc : search_calls
                 (trace (snd (Main5.classify_claim_with_llm E (claim c)
                                (explanation c) (articles c) w)))
               = search_calls (trace w)).
  { unfold Main5.classify_claim_with_llm. destruct (articles c); [reflexivity|].
    destruct (llama E _ _ _); cbn [snd]; rewrite search_calls_log; cbn; lia. }
  destruct (Main5.classify_claim_with_llm E (claim c) (explanation c)
              (articles c) w) as [v w1]. cbn [snd] in Hc.
  pose proof (IH w1) as Hr.
  destruct (Main5.classify_all E rest w1) as [cls w2]. cbn [snd] in *. lia.
Qed.

(** The files and the searches of one run of the classification. *)
Lemma run_llm_classification_process_frame (E : env)
    (input_file_path model_path output_file_path : str) (w : world) :
  (forall p, Str.eqb p output_file_path = false ->
     files (snd (Main5.run_llm_classification_process E input_file_path
                   model_path output_file_path w)) p
     = files w p)
  /\ (forall p,
        fst (Main5.run_llm_classification_process E input_file_path model_path
               output_file_path w) = FactCheck.Returned (Some p) ->
        exists_path
          (snd (Main5.run_llm_classification_process E input_file_path
                  model_path output_file_path w)) output_file_path = true)
  /\ fst (Main5.run_llm_classification_process E input_file_path model_path
            output_file_path w) <> FactCheck.Raised
  /\ search_calls
       (trace (snd (Main5.run_llm_classification_process E input_file_path
                      model_path output_file_path w)))
     = search_calls (trace w).
Proof.
  unfold Main5.run_llm_classification_process.
  destruct (exists_path w output_file_path) eqn:Hout.
  { cbn [fst snd]. repeat split; auto; discriminate. }
  destruct (negb (exists_path w input_file_path));
    [cbn [fst snd]; repeat split; auto; discriminate|].
  destruct (negb (exists_path w model_path));
    [cbn [fst snd]; repeat split; auto; discriminate|].
  destruct (files w input_file_path) as [[ec|vc|cs|fr|cr| |]|];
    try (cbn [fst snd]; repeat split; auto; discriminate).
  assert (Hp : files (snd (Main5.process_claims_with_llm E fr model_path w))
               = files w
               /\ search_calls
                    (trace (snd (Main5.process_claims_with_llm E fr model_path w)))
                  = search_calls (trace w)).
  { unfold Main5.process_claims_with_llm.
    destruct (negb (llama_loads E model_path)).
    - cbn [snd]. rewrite search_calls_log. cbn. split; [reflexivity | lia].
    - pose proof (classify_all_cases E (verified_claims fr)
                    (log (LoadModel model_path) w)) as (_ & _ & _ & Hf).
      pose proof (classify_all_searches E (verified_claims fr)
                    (log (LoadModel model_path) w)) as Hs.
      destruct (Main5.classify_all E (verified_claims fr)
                  (log (LoadModel model_path) w)) as [cls w1].
      cbn [snd] in *. rewrite search_calls_log in Hs. cbn in Hs.
      split; [exact Hf | lia]. }
  destruct (Main5.process_claims_with_llm E fr model_path w) as [r w1].
  cbn [snd] in Hp. destruct Hp as [Hf Hs].
  unfold Main5.save_results_to_file.
  pose proof (save_document_searches E output_file_path (ClassificationFile r) w1)
    as Hss.
  pose proof (save_document_files E output_file_path (ClassificationFile r) w1)
    as Hsf.
  unfold save_document in *.
  destruct (writable E output_file_path);
    [|destruct (left_partial E output_file_path)]; cbn [fst snd] in *.
  - split; [intros p Hp; now rewrite (Hsf p Hp), Hf|].
    split.
    { intros p _. unfold exists_path, write_file. cbn [files].
      now rewrite eqb_refl. }
    split; [discriminate | lia].
  - split; [intros p Hp; now rewrite (Hsf p Hp), Hf|].
    split; [discriminate|]. split; [discriminate | lia].
  - split; [intros p _; now rewrite Hf|]. split; [discriminate|].
    split; [discriminate | exact Hs].
Qed.

Lemma exists_path_kept (w w' : world) (p out : str) :
  (forall q, Str.eqb q out = false -> files w' q = files w q) ->
  exists_path w' out = true ->
  exists_path w p = true ->
  exists_path w' p = true.
Proof.
  intros Hframe Hout Hp. destruct (Str.eqb p out) eqn:He.
  - apply eqb_eq in He. now subst p.
  - unfold exists_path in *. now rewrite (Hframe p He).
Qed.

(** The fact check and the classification as [main] of [main2.py] runs
    them.  When [main] comes to its end, the results of both are there.
    However it ends, it has made at most ten searches and has changed no
    file but the two result files.  And with both result files there it
    does nothing. *)
Theorem fact_check_then_classify (E : env) (w : world) :
  (fst (Main2.steps_4_and_5 E w) = Main2.Completed ->
   exists_path (snd (Main2.steps_4_and_5 E w)) Main2.fact_check_results_path
   = true
   /\ exists_path (snd (Main2.steps_4_and_5 E w))
        Main2.final_classification_path = true)
  /\ search_calls (trace (snd (Main2.steps_4_and_5 E w)))
     <= search_calls (trace w) + 10
  /\ (forall p,
        Str.eqb p Main2.fact_check_results_path = false ->
        Str.eqb p Main2.final_classification_path = false ->
        files (snd (Main2.steps_4_and_5 E w)) p = files w p)
  /\ (exists_path w Main2.fact_check_results_path = true ->
      exists_path w Main2.final_classification_path = true ->
      Main2.steps_4_and_5 E w = (Main2.Completed, w)).
Proof.
  assert (H4 : forall r4 w1,
             Main2.step_4 E w = (r4, w1) ->
             (r4 = Main2.Completed \/ r4 = Main2.Crashed ->
              exists_path w1 Main2.fact_check_results_path = true)
             /\ search_calls (trace w1) <= search_calls (trace w) + 10
             /\ (forall p, Str.eqb p Main2.fact_check_results_path = false ->
                           files w1 p = files w p)
             /\ (exists_path w Main2.fact_check_results_path = true ->
                 r4 = Main2.Completed /\ w1 = w)).
  { intros r4 w1. unfold Main2.step_4.
    destruct (exists_path w Main2.fact_check_results_path) eqn:Hfc.
    { intros [= <- <-]. repeat split; auto; lia. }
    pose proof (run_fact_checking_process_frame E Main2.claims_json_path
                  Main2.fact_check_results_path 10 w) as (F1 & _ & F3 & F4 & F5).
    destruct (FactCheck.run_fact_checking_process E Main2.claims_json_path
                Main2.fact_check_results_path 10 w) as [[[p|]| |] w2];
      cbn [fst snd Main2.after_driver] in *.
    - destruct (truthy p); intros [= <- <-];
        (split; [intros _; now apply (F3 p)|]); repeat split; auto; discriminate.
    - intros [= <- <-]. split; [intros [H|H]; discriminate H|].
      repeat split; auto; discriminate.
    - intros [= <- <-]. split; [intros _; now apply F4|].
      repeat split; auto; discriminate.
    - intros [= <- <-]. split; [intros [H|H]; discriminate H|].
      repeat split; auto; discriminate. }
  assert (H5 : forall w1 r5 w2,
             Main2.step_5 E w1 = (r5, w2) ->
             (r5 = Main2.Completed ->
              exists_path w2 Main2.final_classification_path = true)
             /\ r5 <> Main2.Crashed
             /\ search_calls (trace w2) = search_calls (trace w1)
             /\ (forall p, Str.eqb p Main2.final_classification_path = false ->
                           files w2 p = files w1 p)
             /\ (exists_path w1 Main2.final_classification_path = true ->
                 r5 = Main2.Completed /\ w2 = w1)).
  { intros w1 r5 w2. unfold Main2.step_5.
    destruct (exists_path w1 Main2.final_classification_path) eqn:Hfin.
    { intros [= <- <-]. repeat split; auto; discriminate. }
    pose proof (run_llm_classification_process_frame E
                  Main2.fact_check_results_path Main2.model_path
                  Main2.final_classification_path w1) as (F1 & F2 & F3 & F4).
    destruct (Main5.run_llm_classification_process E
                Main2.fact_check_results_path Main2.model_path
                Main2.final_classification_path w1) as [[[p|]| |] w3];
      cbn [fst snd Main2.after_driver] in *.
    - destruct (truthy p); intros [= <- <-];
        (split; [intros _; now apply (F2 p)|]); repeat split; auto; discriminate.
    - intros [= <- <-]. repeat split; auto; discriminate.
    - now elim F3.
    - intros [= <- <-]. repeat split; auto; discriminate. }
  unfold Main2.steps_4_and_5.
  destruct (Main2.step_4 E w) as [r4 w1] eqn:E4.
  destruct (H4 r4 w1 eq_refl) as (A1 & A2 & A3 & A4).
  destruct r4.
  - destruct (Main2.step_5 E w1) as [r5 w2] eqn:E5.
    destruct (H5 w1 r5 w2 E5) as (B1 & B2 & B3 & B4 & B5).
    cbn [fst snd]. split.
    { intros ->. split; [|now apply B1].
      destruct (exists_path w1 Main2.final_classification_path) eqn:Hfin.
      - destruct (B5 eq_refl) as [_ ->]. now apply A1; left.
      - eapply exists_path_kept; [exact B4 | now apply B1 | now apply A1; left]. }
    split; [lia|].
    split; [intros p P1 P2; now rewrite (B4 p P2), (A3 p P1)|].
    intros Hfc Hfin. destruct (A4 Hfc) as [_ ->].
    destruct (B5 Hfin) as [-> ->]. reflexivity.
  - cbn [fst snd]. split; [discriminate|].
    split; [exact A2|]. split; [intros p P1 _; now apply A3|].
    intros Hfc _. destruct (A4 Hfc) as [H _]. discriminate H.
  - cbn [fst snd]. split; [discriminate|].
    split; [exact A2|]. split; [intros p P1 _; now apply A3|].
    intros Hfc _. destruct (A4 Hfc) as [H _]. discriminate H.
  - cbn [fst snd]. split; [discriminate|].
    split; [exact A2|]. split; [intros p P1 _; now apply A3|].
    intros Hfc _. destruct (A4 Hfc) as [H _]. discriminate H.
Qed.
